(** * GRL test-execution client: Python values, snapshot, transport, monitor

    A shallow embedding of the orchestration code of the GRL API client:
    - [client/system_state.py]      the four-field snapshot,
    - [client/grl_api_client.py]    [update_system_state], [_is_test_running],
                                    [submit_test_list], [_cancel_running_test],
                                    [create_empty_json],
    - [API/grl_api_handler.py]      [send_request], [_dispatch_request],
    - [utils/web_app_controller.py] [_check_application_running],
                                    [_launch_process], [start_and_get_url].

    Python objects that come out of [response.json()] are values of [json];
    dictionaries are finite maps; a method is a computation in a state and
    exception monad over the object it mutates and the environment it
    talks to.  Logging calls are not modelled: they have no effect on the
    values studied here. *)

From Stdlib Require Import ZArith Lia Ascii String List Bool DecimalString.
From stdpp Require Import gmap strings list.

Open Scope string_scope.
Open Scope Z_scope.

(* ===================================================================== *)
(** ** Python strings *)
(* ===================================================================== *)

(** A Python [str] is a [string] whose characters are its code points; the
    model covers text below U+0100. *)
Module PyStr.

(** [str.isspace] for one character, on code points below 256:
    TAB..CR, FS..US, SPACE, NEL and NBSP. *)
Definition is_space (c : ascii) : bool :=
  let n := N_of_ascii c in
  ((9 <=? n) && (n <=? 13) || (28 <=? n) && (n <=? 32)
   || (n =? 133) || (n =? 160))%N.

Fixpoint lstrip (s : string) : string :=
  match s with
  | EmptyString => EmptyString
  | String c r => if is_space c then lstrip r else s
  end.

Fixpoint rstrip (s : string) : string :=
  match s with
  | EmptyString => EmptyString
  | String c r =>
      match rstrip r with
      | EmptyString => if is_space c then EmptyString else String c EmptyString
      | r' => String c r'
      end
  end.

(** [s.strip()] *)
Definition strip (s : string) : string := rstrip (lstrip s).

(** [s.split(sep)] for a one-character separator: never empty. *)
Fixpoint split (sep : ascii) (s : string) : list string :=
  match s with
  | EmptyString => [EmptyString]
  | String c r =>
      if Ascii.eqb c sep then EmptyString :: split sep r
      else match split sep r with
           | hd :: tl => String c hd :: tl
           | [] => [String c EmptyString]
           end
  end.

(** [s.startswith(p)] *)
Definition startswith (s p : string) : bool := String.prefix p s.

(** [needle in hay] for two strings. *)
Fixpoint contains (needle hay : string) : bool :=
  String.prefix needle hay
  || match hay with
     | EmptyString => false
     | String _ r => contains needle r
     end.

(** [s.upper()] on ASCII letters.  HTTP method names are ASCII tokens; no
    text below U+0100 with a character outside ASCII upper-cases to one
    of the four method names the dispatcher knows. *)
Definition upper_char (c : ascii) : ascii :=
  let n := N_of_ascii c in
  if ((97 <=? n) && (n <=? 122))%N then ascii_of_N (n - 32) else c.

Fixpoint upper (s : string) : string :=
  match s with
  | EmptyString => EmptyString
  | String c r => String (upper_char c) (upper r)
  end.

(** [str(n)] for an integer. *)
Definition of_Z (n : Z) : string := NilZero.string_of_int (Z.to_int n).

End PyStr.

(* ===================================================================== *)
(** ** Python values and exceptions *)
(* ===================================================================== *)

(** What [json.load] / [response.json()] produce.  Numbers are integers;
    floating-point payloads play no part in the code below. *)
#[warnings="-register-all"] Inductive json : Type :=
| JNull
| JBool (b : bool)
| JNum (n : Z)
| JStr (s : string)
| JList (l : list json)
| JDict (m : gmap string json).

(** The exception classes the code distinguishes.  [ConnectTimeout] derives
    from both [ConnectionError] and [Timeout]; every class derives from
    [Exception]; the first four are [requests.exceptions.RequestException]s. *)
Inductive exn : Type :=
| ConnectionError (msg : string)
| ConnectTimeout (msg : string)
| Timeout (msg : string)
| RequestException (msg : string)
| ValueError (msg : string)
| AttributeError (msg : string)
| TypeError (msg : string)
| IndexError (msg : string)
| KeyError (msg : string)
| OSError (msg : string)
| OverflowError (msg : string)
| Exception (msg : string).

Definition isinstance_ConnectionError (e : exn) : bool :=
  match e with ConnectionError _ | ConnectTimeout _ => true | _ => false end.

Definition isinstance_Timeout (e : exn) : bool :=
  match e with Timeout _ | ConnectTimeout _ => true | _ => false end.

Definition isinstance_RequestException (e : exn) : bool :=
  match e with
  | ConnectionError _ | ConnectTimeout _ | Timeout _ | RequestException _ => true
  | _ => false
  end.

(** [str(e)] *)
Definition str_of_exn (e : exn) : string :=
  match e with
  | ConnectionError m | ConnectTimeout m | Timeout m | RequestException m
  | ValueError m | AttributeError m | TypeError m | IndexError m | KeyError m
  | OSError m | OverflowError m | Exception m => m
  end.

(** Outcome of running a statement: a value, a raised exception, or a loop
    that was still running when the iteration budget ran out. *)
Inductive Res (A : Type) : Type :=
| Ok (a : A)
| Raise (e : exn)
| OutOfFuel.
Arguments Ok {A} a.
Arguments Raise {A} e.
Arguments OutOfFuel {A}.

(** State-and-exception monad over the mutated state [S].  A raised
    exception keeps the state reached at the point of the [raise]. *)
Definition M (S A : Type) : Type := S -> Res A * S.

Definition ret {S A} (a : A) : M S A := fun s => (Ok a, s).
Definition raise {S A} (e : exn) : M S A := fun s => (Raise e, s).
Definition diverge {S A} : M S A := fun s => (OutOfFuel, s).

Definition bind {S A B} (m : M S A) (k : A -> M S B) : M S B :=
  fun s =>
    match m s with
    | (Ok a, s') => k a s'
    | (Raise e, s') => (Raise e, s')
    | (OutOfFuel, s') => (OutOfFuel, s')
    end.

Definition get_state {S} : M S S := fun s => (Ok s, s).
Definition modify {S} (f : S -> S) : M S unit := fun s => (Ok tt, f s).

(** [try: m  except Exception as e: h e] *)
Definition try_except {S A} (m : M S A) (h : exn -> M S A) : M S A :=
  fun s =>
    match m s with
    | (Raise e, s') => h e s'
    | r => r
    end.

(** [try: m  finally: fin] ; the value or exception of [m] survives unless
    [fin] itself raises. *)
Definition try_finally {S A} (m : M S A) (fin : M S unit) : M S A :=
  fun s =>
    match m s with
    | (Ok a, s') => bind fin (fun _ => ret a) s'
    | (Raise e, s') => bind fin (fun _ => raise e) s'
    | (OutOfFuel, s') => (OutOfFuel, s')
    end.

(** Run a computation on a component of the state. *)
Definition zoom {S T A} (proj : S -> T) (inj : T -> S -> S) (m : M T A) : M S A :=
  fun s => let (r, t') := m (proj s) in (r, inj t' s).

Declare Scope py_scope.
Delimit Scope py_scope with py.
Notation "'let*' x ':=' m 'in' k" := (bind m (fun x => k))
  (at level 10, x pattern, m at level 100, k at level 200) : py_scope.
Notation "m ';;' k" := (bind m (fun _ => k))
  (at level 100, k at level 200, right associativity) : py_scope.
Open Scope py_scope.

Module Py.

(** [bool(v)] *)
Definition truthy (v : json) : bool :=
  match v with
  | JNull => false
  | JBool b => b
  | JNum n => negb (n =? 0)
  | JStr s => negb (String.eqb s "")
  | JList l => match l with [] => false | _ => true end
  | JDict m => negb (bool_decide (m = ∅))
  end.

(** [v == "<s>"] against a string literal. *)
Definition eq_str (v : json) (s : string) : bool :=
  match v with JStr t => String.eqb t s | _ => false end.

(** [v.get(key, default)]: only dictionaries have [get]. *)
Definition get {S} (v : json) (key : string) (default : json) : M S json :=
  match v with
  | JDict m => ret (from_option id default (m !! key))
  | _ => raise (AttributeError "object has no attribute 'get'")
  end.

(** [v[key]]: only dictionaries are subscripted by a string. *)
Definition getitem {S} (v : json) (key : string) : M S json :=
  match v with
  | JDict m =>
      match m !! key with
      | Some x => ret x
      | None => raise (KeyError key)
      end
  | _ => raise (TypeError "object is not subscriptable by a string")
  end.

(** [v.startswith(p)]: only strings have [startswith]. *)
Definition startswith {S} (v : json) (p : string) : M S bool :=
  match v with
  | JStr s => ret (PyStr.startswith s p)
  | _ => raise (AttributeError "object has no attribute 'startswith'")
  end.

(** [needle in v] *)
Definition contains {S} (needle : string) (v : json) : M S bool :=
  match v with
  | JStr s => ret (PyStr.contains needle s)
  | JList l => ret (existsb (fun x => eq_str x needle) l)
  | JDict m => ret (bool_decide (is_Some (m !! needle)))
  | _ => raise (TypeError "argument is not iterable")
  end.

End Py.

(** [v.split(sep)]: only strings have [split]. *)
Definition py_split {S} (v : json) (sep : ascii) : M S (list string) :=
  match v with
  | JStr s => ret (PyStr.split sep s)
  | _ => raise (AttributeError "object has no attribute 'split'")
  end.

(** [l[i]] for [0 <= i], and [l[-1]]. *)
Definition py_item {S A} (l : list A) (i : nat) : M S A :=
  match l !! i with
  | Some x => ret x
  | None => raise (IndexError "list index out of range")
  end.

Definition py_last_item {S A} (l : list A) : M S A :=
  match last l with
  | Some x => ret x
  | None => raise (IndexError "list index out of range")
  end.

(* ===================================================================== *)
(** ** The state snapshot ([client/system_state.py]) *)
(* ===================================================================== *)

(** [app_state] and [connection_state] hold whatever the application sent
    under these keys; the two test fields are [None] or a string. *)
Record SystemState : Type := mkSystemState {
  app_state : json;
  connection_state : json;
  test_case_name : option string;
  test_status : option string
}.

Definition set_app_state (v : json) (s : SystemState) : SystemState :=
  mkSystemState v (connection_state s) (test_case_name s) (test_status s).
Definition set_connection_state (v : json) (s : SystemState) : SystemState :=
  mkSystemState (app_state s) v (test_case_name s) (test_status s).
Definition set_test_case_name (v : option string) (s : SystemState) : SystemState :=
  mkSystemState (app_state s) (connection_state s) v (test_status s).
Definition set_test_status (v : option string) (s : SystemState) : SystemState :=
  mkSystemState (app_state s) (connection_state s) (test_case_name s) v.

(** [SystemState(app_state='UNKNOWN', connection_state='UNKNOWN')] *)
Definition initial_system_state : SystemState :=
  mkSystemState (JStr "UNKNOWN") (JStr "UNKNOWN") None None.

(** The snapshot the outer handler of [update_system_state] writes. *)
Definition error_system_state : SystemState :=
  mkSystemState (JStr "ERROR") (JStr "ERROR") None None.

(** The body of the inner [try] of [update_system_state]: split, check
    the number of parts, store the trimmed second and last part. *)
Definition parse_test_info_body (test_info_string : json) : M SystemState unit :=
  let* parts := py_split test_info_string ":" in
  if (3 <=? length parts)%nat then
    let* p1 := py_item parts 1 in
    let test_case_name := PyStr.strip p1 in
    let* pl := py_last_item parts in
    let status := PyStr.strip pl in
    modify (set_test_case_name (Some test_case_name)) ;;
    modify (set_test_status (Some status))
  else ret tt.

(** The inner [try] with its handler, which only logs. *)
Definition parse_test_info (test_info_string : json) : M SystemState unit :=
  try_except (parse_test_info_body test_info_string) (fun _ => ret tt).

(** The body of the outer [try] of [update_system_state]. *)
Definition update_system_state_body (app_state_dict test_status_dict : json)
  : M SystemState unit :=
  let* a := Py.get app_state_dict "appState" (JStr "UNKNOWN") in
  modify (set_app_state a) ;;
  let* c := Py.get app_state_dict "connectionState" (JStr "UNKNOWN") in
  modify (set_connection_state c) ;;
  let* test_info_string := Py.get test_status_dict "Test Status" (JStr "") in
  let* is_test :=
    (if Py.truthy test_info_string
     then Py.startswith test_info_string "Test:"
     else ret false) in
  if is_test then parse_test_info test_info_string else ret tt.

(** [GRLApiClient.update_system_state] on the snapshot it owns. *)
Definition update_system_state (app_state_dict test_status_dict : json)
  : M SystemState unit :=
  try_except
    (update_system_state_body app_state_dict test_status_dict)
    (fun _ =>
       modify (set_app_state (JStr "ERROR")) ;;
       modify (set_connection_state (JStr "ERROR")) ;;
       modify (set_test_case_name None) ;;
       modify (set_test_status None)).

(** When the body of the outer [try] raises: an argument without [get], or
    a non-empty ['Test Status'] value without [startswith]. *)
Definition update_raises (app_state_dict test_status_dict : json) : bool :=
  match app_state_dict, test_status_dict with
  | JDict _, JDict t =>
      match t !! "Test Status" with
      | Some (JStr _) | None => false
      | Some v => Py.truthy v
      end
  | _, _ => true
  end.

(* ===================================================================== *)
(** ** The client object and its environment *)
(* ===================================================================== *)

(** What the [requests] library hands back for one exchange.
    [header_content_type] is [response.headers.get("Content-Type", "")];
    [json_body] is [None] when [response.json()] raises [ValueError]. *)
Record Response : Type := mkResponse {
  status_code : Z;
  headers : gmap string string;
  header_content_type : string;
  json_body : option json;
  text : string
}.

Inductive http_outcome : Type :=
| Responds (r : Response)
| Fails (e : exn).

(** [GRLApiHandler]: the base URL, already stripped of trailing slashes by
    the constructor; the session lives in the environment. *)
Record Handler : Type := mkHandler { base_url : string }.

(** Effects the client performs, in the order it performs them. *)
Inductive event : Type :=
| Http (method url : string) (params data headers : json)
| Sleep (ms : Z)
| ThreadStart
| ThreadJoin (timeout_ms : Z).

(** The client object together with the environment it runs in.
    - [http k] is what the [k]-th exchange of the session yields and
      [latency k] the milliseconds it takes;
    - [stop_after = Some n] says that another thread calls [stop_test_run]
      after this thread has read [stop_requested] [n] more times;
    - [clock] is [time.time()] in milliseconds. *)
Record World : Type := mkWorld {
  api_handler : option Handler;
  popup_thread_active : bool;
  stop_requested : bool;
  system_state_data : SystemState;
  http : nat -> http_outcome;
  latency : nat -> N;
  stop_after : option nat;
  n_http : nat;
  clock : Z;
  trace : list event
}.

Definition set_popup_thread_active (b : bool) (w : World) : World :=
  mkWorld (api_handler w) b (stop_requested w) (system_state_data w)
    (http w) (latency w) (stop_after w) (n_http w) (clock w) (trace w).

Definition set_stop_requested (b : bool) (w : World) : World :=
  mkWorld (api_handler w) (popup_thread_active w) b (system_state_data w)
    (http w) (latency w) (stop_after w) (n_http w) (clock w) (trace w).

Definition set_system_state_data (s : SystemState) (w : World) : World :=
  mkWorld (api_handler w) (popup_thread_active w) (stop_requested w) s
    (http w) (latency w) (stop_after w) (n_http w) (clock w) (trace w).

Definition set_stop_after (o : option nat) (w : World) : World :=
  mkWorld (api_handler w) (popup_thread_active w) (stop_requested w)
    (system_state_data w) (http w) (latency w) o (n_http w) (clock w) (trace w).

(** Record an effect. *)
Definition emit (ev : event) : M World unit :=
  fun w =>
    (Ok tt,
     mkWorld (api_handler w) (popup_thread_active w) (stop_requested w)
       (system_state_data w) (http w) (latency w) (stop_after w) (n_http w)
       (clock w) (trace w ++ [ev])).

(** The world after one exchange: the request is recorded and the time
    the exchange takes has passed. *)
Definition after_exchange (ev : event) (w : World) : World :=
  mkWorld (api_handler w) (popup_thread_active w) (stop_requested w)
    (system_state_data w) (http w) (latency w) (stop_after w)
    (S (n_http w)) (clock w + Z.of_N (latency w (n_http w)))
    (trace w ++ [ev]).

(** One exchange: the environment answers or the library raises. *)
Definition exchange (ev : event) : M World Response :=
  fun w =>
    match http w (n_http w) with
    | Responds r => (Ok r, after_exchange ev w)
    | Fails e => (Raise e, after_exchange ev w)
    end.

(** [time.time()], in milliseconds. *)
Definition time_time : M World Z := fun w => (Ok (clock w), w).

(** [time.sleep(ms / 1000)] *)
Definition time_sleep (ms : Z) : M World unit :=
  fun w =>
    (Ok tt,
     mkWorld (api_handler w) (popup_thread_active w) (stop_requested w)
       (system_state_data w) (http w) (latency w) (stop_after w) (n_http w)
       (clock w + ms) (trace w ++ [Sleep ms])).

(** Reading [self.stop_requested]: a pending [stop_test_run] of another
    thread lands first when its turn has come. *)
Definition read_stop_requested : M World bool :=
  fun w =>
    let w' :=
      match stop_after w with
      | Some O => set_stop_after None (set_stop_requested true w)
      | Some (S n) => set_stop_after (Some n) w
      | None => w
      end in
    (Ok (stop_requested w'), w').

(* ===================================================================== *)
(** ** Transport ([API/grl_api_handler.py]) *)
(* ===================================================================== *)

(** [GRLApiHandler._dispatch_request]; [get] and [delete] send no body. *)
Definition _dispatch_request (method url : string) (params data headers : json)
  : M World Response :=
  if String.eqb method "GET" then exchange (Http "GET" url params JNull headers)
  else if String.eqb method "POST" then exchange (Http "POST" url params data headers)
  else if String.eqb method "PUT" then exchange (Http "PUT" url params data headers)
  else if String.eqb method "DELETE" then exchange (Http "DELETE" url params JNull headers)
  else raise (ValueError ("Unsupported HTTP method: " ++ method)).

Definition default_headers : json :=
  JDict (<["Content-Type" := JStr "application/json"]>
         (<["Accept" := JStr "application/json"]> ∅)).

(** The ["request"] entry of a result. *)
Definition request_dict (method url : string) (params data headers : json)
  : gmap string json :=
  <["method" := JStr method]>
  (<["url" := JStr url]>
  (<["params" := params]>
  (<["data" := data]>
  (<["headers" := headers]> ∅)))).

(** The ["response"] entry after an exchange that gave a response: the
    [update] with four keys, then ["data"] and ["content_type"] from the
    inner [try]. *)
Definition response_dict (r : Response) : gmap string json :=
  let updated : gmap string json :=
    <["status_code" := JNum (status_code r)]>
    (<["success" := JBool ((200 <=? status_code r) && (status_code r <? 300))]>
    (<["headers" := JDict (JStr <$> headers r)]>
    (<["content_type" := JStr (header_content_type r)]> ∅))) in
  match json_body r with
  | Some j => <["content_type" := JStr "json"]> (<["data" := j]> updated)
  | None => <["content_type" := JStr "text"]> (<["data" := JStr (text r)]> updated)
  end.

(** The ["response"] entry after a transport failure: only ["error"]. *)
Definition error_dict (error_msg : string) : gmap string json :=
  <["error" := JStr error_msg]> ∅.

Definition make_result (request response : gmap string json) : json :=
  JDict (<["request" := JDict request]> (<["response" := JDict response]> ∅)).

(** The three [except] clauses of [send_request], in their order; any
    other exception goes on to the caller. *)
Definition request_error_msg (e : exn) : M World string :=
  if isinstance_ConnectionError e then ret "Connection error"
  else if isinstance_Timeout e then ret "Request timed out"
  else if isinstance_RequestException e then ret (str_of_exn e)
  else raise e.

(** [GRLApiHandler.send_request] *)
Definition send_request (h : Handler) (method service endpoint : string)
  (params data headers : json) : M World json :=
  let url := base_url h ++ "/" ++ service in
  let url := if negb (String.eqb endpoint "") then url ++ "/" ++ endpoint else url in
  let headers := if Py.truthy headers then headers else default_headers in
  let request := request_dict (PyStr.upper method) url params data headers in
  try_except
    (let* response := _dispatch_request (PyStr.upper method) url params data headers in
     ret (make_result request (response_dict response)))
    (fun e =>
       let* error_msg := request_error_msg e in
       ret (make_result request (error_dict error_msg))).

Definition get_app_state (h : Handler) : M World json :=
  send_request h "GET" "App" "GetAppState" JNull JNull JNull.

Definition get_test_status (h : Handler) : M World json :=
  send_request h "GET" "Results" "GetTestStatus" JNull JNull JNull.

Definition post_force_stop (h : Handler) : M World json :=
  send_request h "POST" "ConnectionSetup" "ForceStopCurrentExecution" JNull JNull JNull.

Definition post_test_list_to_execute (h : Handler) (test_list : list string)
  : M World json :=
  send_request h "POST" "TestConfiguration" "PostTestListToExecute/0/true"
    JNull (JList (JStr <$> test_list)) JNull.

(* ===================================================================== *)
(** ** Test submission and monitoring ([client/grl_api_client.py]) *)
(* ===================================================================== *)

(** [self.api_handler.<method>]: [None] has no methods. *)
Definition the_api_handler : M World Handler :=
  fun w =>
    match api_handler w with
    | Some h => (Ok h, w)
    | None => (Raise (AttributeError "'NoneType' object has no attribute"), w)
    end.

(** [GRLApiClient._check_api_handler] *)
Definition _check_api_handler : M World unit :=
  fun w =>
    match api_handler w with
    | Some _ => (Ok tt, w)
    | None =>
        (Raise (Exception "API handler not initialized. Please call launch_app() first."), w)
    end.

(** The first two statements of the [try] of [_is_test_running]: fetch the
    test status, then the application state. *)
Definition fetch_status_and_state : M World (json * json) :=
  let* h := the_api_handler in
  let* test_status_response := get_test_status h in
  let* h := the_api_handler in
  let* app_state_response := get_app_state h in
  ret (test_status_response, app_state_response).

(** The end of that [try], from the call of [update_system_state] on:
    refresh the snapshot and decide on the two payloads. *)
Definition decide_running (test_status app_state : json) : M World bool :=
  zoom system_state_data set_system_state_data
    (update_system_state app_state test_status) ;;
  let* current_test_status := Py.get test_status "Test Status" (JStr "") in
  let* app_state_value := Py.get app_state "appState" (JStr "") in
  if Py.eq_str app_state_value "READY" then ret false
  else
    let* started := Py.contains "Started" current_test_status in
    if started || Py.eq_str app_state_value "BUSY" then ret true
    else ret false.

(** The middle of that [try]: read the two payloads out of the results. *)
Definition running_from (test_status_response app_state_response : json)
  : M World bool :=
  let* r := Py.get test_status_response "response" (JDict ∅) in
  let* test_status := Py.get r "data" (JDict ∅) in
  let* r := Py.get app_state_response "response" (JDict ∅) in
  let* app_state := Py.get r "data" (JDict ∅) in
  decide_running test_status app_state.

(** The body of the [try] of [_is_test_running]. *)
Definition _is_test_running_body : M World bool :=
  let* responses := fetch_status_and_state in
  running_from (fst responses) (snd responses).

(** [GRLApiClient._is_test_running] *)
Definition _is_test_running : M World bool :=
  try_except _is_test_running_body (fun _ => ret false).

(** [GRLApiClient._cancel_running_test] *)
Definition _cancel_running_test : M World bool :=
  try_except
    (let* h := the_api_handler in
     let* response := post_force_stop h in
     let* r := Py.getitem response "response" in
     let* success := Py.get r "success" JNull in
     if Py.truthy success then ret true else ret false)
    (fun _ => ret false).

(** [self.stop_requested = True] after a positive check, then the cancel
    request: [GRLApiClient.stop_test_execution]. *)
Definition stop_test_execution : M World bool :=
  let* running := _is_test_running in
  if negb running then ret false
  else modify (set_stop_requested true) ;; _cancel_running_test.

(** The bound of the wait for the start of a run, [timeout = 30] seconds. *)
Definition start_timeout_ms : Z := 30 * 1000.

(** The first [while] of [submit_test_list]: poll once per second until
    the test runs, the bound has passed or a stop was requested; the value
    is [test_started]. *)
Fixpoint wait_for_start (fuel : nat) (start_time : Z) : M World bool :=
  match fuel with
  | O => diverge
  | S fuel' =>
      let* now := time_time in
      let* go_on :=
        (if now - start_time <? start_timeout_ms
         then let* stop := read_stop_requested in ret (negb stop)
         else ret false) in
      if go_on then
        let* running := _is_test_running in
        if running then ret true
        else time_sleep 1000 ;; wait_for_start fuel' start_time
      else ret false
  end.

(** The second [while] of [submit_test_list]: poll every half second while
    the test runs and no stop was requested. *)
Fixpoint monitor_until_done (fuel : nat) : M World unit :=
  match fuel with
  | O => diverge
  | S fuel' =>
      let* running := _is_test_running in
      let* go_on :=
        (if running
         then let* stop := read_stop_requested in ret (negb stop)
         else ret false) in
      if go_on then time_sleep 500 ;; monitor_until_done fuel'
      else ret tt
  end.

Definition result_cancelled : json :=
  JDict (<["success" := JBool false]> (<["error" := JStr "Test cancelled by user"]> ∅)).

Definition result_completed : json :=
  JDict (<["success" := JBool true]> ∅).

Definition result_not_started : json :=
  JDict (<["success" := JBool true]>
         (<["warning" := JStr "Test submission successful but test did not start within timeout"]> ∅)).

Definition result_empty_list : json :=
  JDict (<["success" := JBool false]> (<["error" := JStr "Empty test list provided"]> ∅)).

Definition result_failure (error_msg : string) : json :=
  JDict (<["success" := JBool false]> (<["error" := JStr error_msg]> ∅)).

(** The running phase of [submit_test_list]: monitor until the test is
    over, then cancel if a stop was requested. *)
Definition monitor_phase (fuel : nat) : M World json :=
  monitor_until_done fuel ;;
  let* stop := read_stop_requested in
  if stop then _cancel_running_test ;; ret result_cancelled
  else ret result_completed.

(** The [try] of [submit_test_list] up to the running phase: submit the
    list and wait for the start.  The value is the result to return at
    once (failed submission, or no start within the bound), or [None] when
    the method goes on to monitor the run. *)
Definition submit_and_wait (fuel : nat) (test_list : list string)
  : M World (option json) :=
  let* h := the_api_handler in
  let* result := post_test_list_to_execute h test_list in
  let* r := Py.getitem result "response" in
  let* success := Py.get r "success" JNull in
  if negb (Py.truthy success)
  then ret (Some (result_failure "Failed to submit test list"))
  else
    let* start_time := time_time in
    let* test_started := wait_for_start fuel start_time in
    let* no_start :=
      (if negb test_started
       then let* stop := read_stop_requested in ret (negb stop)
       else ret false) in
    if no_start then ret (Some result_not_started)
    else ret None.

(** The body of the [try] of [submit_test_list]. *)
Definition submit_test_list_body (fuel : nat) (test_list : list string)
  : M World json :=
  let* early := submit_and_wait fuel test_list in
  match early with
  | Some result => ret result
  | None => monitor_phase fuel
  end.

(** Before the [try]: raise the two flags' initial values and start the
    pop-up thread. *)
Definition start_popup_thread : M World unit :=
  modify (set_popup_thread_active true) ;;
  modify (set_stop_requested false) ;;
  emit ThreadStart.

(** The [finally]: clear the flag and join the thread for two seconds. *)
Definition stop_popup_thread : M World unit :=
  modify (set_popup_thread_active false) ;;
  emit (ThreadJoin 2000).

(** [GRLApiClient.submit_test_list]; [fuel] bounds the iterations of each
    of its two loops. *)
Definition submit_test_list (fuel : nat) (test_list : list string) : M World json :=
  _check_api_handler ;;
  match test_list with
  | [] => ret result_empty_list
  | _ :: _ =>
      start_popup_thread ;;
      try_finally
        (try_except
           (submit_test_list_body fuel test_list)
           (fun e => ret (result_failure ("Failed to submit test list: " ++ str_of_exn e))))
        stop_popup_thread
  end.

(** The message [send_request] stores for a [RequestException]. *)
Definition transport_error_msg (e : exn) : string :=
  if isinstance_ConnectionError e then "Connection error"
  else if isinstance_Timeout e then "Request timed out"
  else str_of_exn e.

(** The URL [send_request] builds. *)
Definition request_url (h : Handler) (service endpoint : string) : string :=
  if negb (String.eqb endpoint "")
  then (base_url h ++ "/" ++ service) ++ "/" ++ endpoint
  else base_url h ++ "/" ++ service.

(** The force-stop requests among the recorded effects. *)
Definition is_force_stop (h : Handler) (ev : event) : bool :=
  match ev with
  | Http method url _ _ _ =>
      String.eqb method "POST"
      && String.eqb url (request_url h "ConnectionSetup" "ForceStopCurrentExecution")
  | _ => false
  end.

Definition force_stop_count (h : Handler) (tr : list event) : nat :=
  length (List.filter (is_force_stop h) tr).

(** The methods [_dispatch_request] knows; [get] and [delete] carry no
    body. *)
Definition supported_method (method : string) : bool :=
  String.eqb method "GET" || String.eqb method "POST"
  || String.eqb method "PUT" || String.eqb method "DELETE".

Definition sent_body (method : string) (data : json) : json :=
  if String.eqb method "POST" || String.eqb method "PUT" then data else JNull.

(** The outcome of [send_request] for a supported method, by what the
    exchange yields. *)
Definition fetched (request : gmap string json) (o : http_outcome) : Res json :=
  match o with
  | Responds r => Ok (make_result request (response_dict r))
  | Fails e =>
      if isinstance_RequestException e
      then Ok (make_result request (error_dict (transport_error_msg e)))
      else Raise e
  end.

(** The two requests of one poll. *)
Definition status_request (h : Handler) : event :=
  Http "GET" (request_url h "Results" "GetTestStatus") JNull JNull default_headers.

Definition state_request (h : Handler) : event :=
  Http "GET" (request_url h "App" "GetAppState") JNull JNull default_headers.

Definition force_stop_request (h : Handler) : event :=
  Http "POST" (request_url h "ConnectionSetup" "ForceStopCurrentExecution")
    JNull JNull default_headers.

(** The payload the client reads from one fetch, that is
    [response.get("response", {}).get("data", {})]: the decoded body (or
    the raw text) of a response, the default [{}] after a transport
    failure that [send_request] turned into a result, and nothing when the
    fetch itself raises. *)
Definition polled_data (o : http_outcome) : option json :=
  match o with
  | Responds r => Some (match json_body r with Some j => j | None => JStr (text r) end)
  | Fails e => if isinstance_RequestException e then Some (JDict ∅) else None
  end.

(** The poll that starts at exchange [k] delivers the pair
    ([app], [status]): both payloads are dictionaries, and the values read
    with [get("appState", "")] and [get("Test Status", "")] are these two
    strings. *)
Definition poll_reports (w : World) (k : nat) (app status : string) : Prop :=
  exists d1 d2 : gmap string json,
    polled_data (http w k) = Some (JDict d1)
    /\ polled_data (http w (S k)) = Some (JDict d2)
    /\ default (JStr "") (d1 !! "Test Status") = JStr status
    /\ default (JStr "") (d2 !! "appState") = JStr app.

(** The running predicate in the words of the specification: [READY] is
    not running whatever the status says, [BUSY] is running, a status that
    contains ["Started"] is running when the state is anything but
    [READY], and every other pair is not running. *)
Definition running_spec (app status : string) : bool :=
  if String.eqb app "READY" then false
  else if String.eqb app "BUSY" then true
  else if PyStr.contains "Started" status then true
  else false.

(** [w'] is [w] after steps that only fetch and sleep: the client's flags,
    its handler and the environment are the same, exchanges and time only
    went forward, and no force-stop or submission request was sent. *)
Record polled (h : Handler) (w w' : World) : Prop := mkPolled {
  polled_handler : api_handler w' = api_handler w;
  polled_popup : popup_thread_active w' = popup_thread_active w;
  polled_stop : stop_requested w' = stop_requested w;
  polled_http : http w' = http w;
  polled_latency : latency w' = latency w;
  polled_stop_after : stop_after w' = stop_after w;
  polled_n_http : (n_http w <= n_http w')%nat;
  polled_clock : clock w <= clock w';
  polled_force_stop : force_stop_count h (trace w') = force_stop_count h (trace w)
}.

(** [w'] is [w] after steps that send no force-stop request and leave the
    handler and the environment alone. *)
Record quiet (h : Handler) (w w' : World) : Prop := mkQuiet {
  quiet_handler : api_handler w' = api_handler w;
  quiet_http : http w' = http w;
  quiet_latency : latency w' = latency w;
  quiet_force_stop : force_stop_count h (trace w') = force_stop_count h (trace w)
}.

(** A computation all of whose runs by a launched client are [quiet]. *)
Definition quietly {A} (h : Handler) (m : M World A) : Prop :=
  forall w r w', api_handler w = Some h -> m w = (r, w') -> quiet h w w'.

(** A computation that comes back, with a value or an exception. *)
Definition returns {S A} (m : M S A) : Prop :=
  forall s, fst (m s) <> OutOfFuel.

(** A computation that touches nothing but the snapshot and always comes
    back. *)
Definition snapshot_only {A} (m : M World A) : Prop :=
  forall w, exists r s,
    m w = (r, set_system_state_data s w) /\ r <> OutOfFuel.

(* ===================================================================== *)
(** ** The pop-up log files ([create_empty_json]) *)
(* ===================================================================== *)

(** The working directory: the JSON document each file holds, and the
    paths that cannot be opened for writing. *)
Record FileSystem : Type := mkFileSystem {
  files : gmap string json;
  unwritable : string -> bool
}.

(** [with open(path, 'w') as file: json.dump(doc, file, indent=4)] *)
Definition json_dump_to (path : string) (doc : json) : M FileSystem unit :=
  fun fs =>
    if unwritable fs path
    then (Raise (OSError ("cannot open " ++ path)), fs)
    else (Ok tt, mkFileSystem (<[path := doc]> (files fs)) (unwritable fs)).

(** The two file names [__init__] sets. *)
Definition popup_json_file_name : string := "popup_messages.json".
Definition test_cases_popup_json_file_name : string := "test_case_popup_messages.json".

(** [GRLApiClient.create_empty_json], called at the end of [__init__]. *)
Definition create_empty_json : M FileSystem unit :=
  try_except
    (json_dump_to popup_json_file_name (JList []) ;;
     json_dump_to test_cases_popup_json_file_name (JList []))
    (fun _ => ret tt).

(** An empty working directory in which every file can be written. *)
Definition empty_directory : FileSystem := mkFileSystem ∅ (fun _ => false).

(* ===================================================================== *)
(** ** The process launcher ([utils/web_app_controller.py]) *)
(* ===================================================================== *)

(** What the launcher's surroundings answer: whether the [k]-th [bind]
    finds the port taken, what the [k]-th probe yields and how long it
    takes, whether the application path exists, what [Popen] does (an
    exception, or the pid of the child), and the exit code the [k]-th
    [poll()] sees ([None] while the child lives). *)
Record LauncherEnv : Type := mkLauncherEnv {
  port_taken : nat -> bool;
  probe : nat -> http_outcome;
  probe_latency : nat -> N;
  path_exists : bool;
  popen : exn + Z;
  poll : nat -> option Z
}.

Inductive launcher_event : Type :=
| Bind (port : Z)
| Get (url : string) (timeout_s : Z)
| Popen (path : string)
| Poll
| Wait (ms : Z).

(** A [WebAppController] with its surroundings and what it has done. *)
Record Controller : Type := mkController {
  app_path : string;
  known_port : option Z;
  max_connection_attempts : Z;
  connection_timeout : Z;
  process : option Z;
  web_url : option string;
  env : LauncherEnv;
  n_bind : nat;
  n_get : nat;
  n_poll : nat;
  now : Z;
  done : list launcher_event
}.


(** [WebAppController.__init__] *)
Definition new_controller (path : string) (port : option Z)
  (attempts timeout : Z) (e : LauncherEnv) : Controller :=
  mkController path port attempts timeout None
    (match port with
     | Some n => if negb (n =? 0) then Some ("http://localhost:" ++ PyStr.of_Z n) else None
     | None => None
     end)
    e 0 0 0 0 [].

(** [self._check_port_in_use(port)]: [bind] refuses a port outside
    [0..65535] with [OverflowError], which is no [socket.error]. *)
Definition _check_port_in_use (port : Z) : M Controller bool :=
  fun c =>
    let c' :=
      mkController (app_path c) (known_port c) (max_connection_attempts c)
        (connection_timeout c) (process c) (web_url c) (env c)
        (S (n_bind c)) (n_get c) (n_poll c) (now c) (done c ++ [Bind port]) in
    if (0 <=? port) && (port <=? 65535)
    then (Ok (port_taken (env c) (n_bind c)), c')
    else (Raise (OverflowError "bind(): port must be 0-65535."), c').

(** [requests.get(url, timeout=timeout_s)] *)
Definition requests_get (url : string) (timeout_s : Z) : M Controller Response :=
  fun c =>
    let c' :=
      mkController (app_path c) (known_port c) (max_connection_attempts c)
        (connection_timeout c) (process c) (web_url c) (env c)
        (n_bind c) (S (n_get c)) (n_poll c)
        (now c + Z.of_N (probe_latency (env c) (n_get c)))
        (done c ++ [Get url timeout_s]) in
    match probe (env c) (n_get c) with
    | Responds r => (Ok r, c')
    | Fails e => (Raise e, c')
    end.

(** The probe paths, in the order both loops try them. *)
Definition endpoints : list string := ["/api/healthcheck"; "/"; "/api/status"].

(** [f"{self.web_url}{endpoint}"]; a missing URL prints as [None]. *)
Definition probe_url (c : Controller) (endpoint : string) : string :=
  match web_url c with
  | Some u => u ++ endpoint
  | None => "None" ++ endpoint
  end.

(** [for endpoint in endpoints: try: requests.get(...); return True
    except RequestException: continue], with the value [False] when the
    list is exhausted.  Another exception leaves the loop. *)
Fixpoint probe_each (timeout_s : Z) (paths : list string) : M Controller bool :=
  match paths with
  | [] => ret false
  | endpoint :: rest =>
      let* c := get_state in
      let* answered :=
        try_except
          (requests_get (probe_url c endpoint) timeout_s ;; ret true)
          (fun e => if isinstance_RequestException e then ret false else raise e) in
      if answered then ret true else probe_each timeout_s rest
  end.

(** [WebAppController._check_application_running] *)
Definition _check_application_running : M Controller bool :=
  let* c := get_state in
  match known_port c with
  | Some port =>
      if negb (port =? 0) then
        let* in_use := _check_port_in_use port in
        if negb in_use then ret false
        else probe_each 2 endpoints
      else ret false
  | None => ret false
  end.

(** [self.process.poll()] *)
Definition process_poll : M Controller (option Z) :=
  fun c =>
    (Ok (poll (env c) (n_poll c)),
     mkController (app_path c) (known_port c) (max_connection_attempts c)
       (connection_timeout c) (process c) (web_url c) (env c)
       (n_bind c) (n_get c) (S (n_poll c)) (now c) (done c ++ [Poll])).

(** [self.process = subprocess.Popen([self.app_path])] *)
Definition spawn : M Controller unit :=
  fun c =>
    match popen (env c) with
    | inl e =>
        (Raise e,
         mkController (app_path c) (known_port c) (max_connection_attempts c)
           (connection_timeout c) (process c) (web_url c) (env c)
           (n_bind c) (n_get c) (n_poll c) (now c) (done c ++ [Popen (app_path c)]))
    | inr pid =>
        (Ok tt,
         mkController (app_path c) (known_port c) (max_connection_attempts c)
           (connection_timeout c) (Some pid) (web_url c) (env c)
           (n_bind c) (n_get c) (n_poll c) (now c) (done c ++ [Popen (app_path c)]))
    end.

(** [time.sleep] and [time.time] of the launcher, in milliseconds. *)
Definition launcher_sleep (ms : Z) : M Controller unit :=
  fun c =>
    (Ok tt,
     mkController (app_path c) (known_port c) (max_connection_attempts c)
       (connection_timeout c) (process c) (web_url c) (env c)
       (n_bind c) (n_get c) (n_poll c) (now c + ms) (done c ++ [Wait ms])).

Definition launcher_time : M Controller Z := fun c => (Ok (now c), c).

(** [WebAppController._launch_process] *)
Definition _launch_process : M Controller bool :=
  let* running := _check_application_running in
  if running then ret true
  else
    let* c := get_state in
    let* active :=
      (match process c with
       | Some _ => let* code := process_poll in ret (negb (bool_decide (is_Some code)))
       | None => ret false
       end) in
    if active then ret true
    else if negb (path_exists (env c)) then ret false
    else
      try_except
        (spawn ;;
         let* code := process_poll in
         match code with
         | None => ret true
         | Some _ => ret false
         end)
        (fun _ => ret false).

(** The [for attempt in range(...)] loop of [start_and_get_url]; the
    value is the URL, or [None] after the last attempt or the timeout. *)
Fixpoint connect_attempts (attempts : nat) (start_time : Z) (url : string)
  : M Controller (option string) :=
  match attempts with
  | O => ret None
  | S attempts' =>
      let* c := get_state in
      let* t := launcher_time in
      if connection_timeout c * 1000 <? t - start_time then ret None
      else
        let* answered := probe_each 5 endpoints in
        if answered then ret (Some url)
        else launcher_sleep 2000 ;; connect_attempts attempts' start_time url
  end.

(** [WebAppController.start_and_get_url]; [initial_wait] in seconds. *)
Definition start_and_get_url (initial_wait : Z) : M Controller (option string) :=
  let* running := _check_application_running in
  if running then let* c := get_state in ret (web_url c)
  else
    let* launched := _launch_process in
    if negb launched then ret None
    else
      launcher_sleep (initial_wait * 1000) ;;
      let* c := get_state in
      match web_url c with
      | None => ret None
      | Some url =>
          let* start_time := launcher_time in
          connect_attempts (Z.to_nat (max_connection_attempts c)) start_time url
      end.

(** The child processes started among the recorded effects. *)
Definition is_popen (ev : launcher_event) : bool :=
  match ev with Popen _ => true | _ => false end.

(** The probes the first check sends when probe number [i] of the fixed
    list is the first to answer. *)
Definition probes_up_to (url : string) (i : nat) : list launcher_event :=
  (fun endpoint => Get (url ++ endpoint) 2) <$> take (S i) endpoints.

(* ===================================================================== *)
(** ** Sample environments *)
(* ===================================================================== *)

Definition sample_handler : Handler := mkHandler "http://localhost:5000/api".

Definition json_response (code : Z) (j : json) : Response :=
  mkResponse code ∅ "application/json" (Some j) "".

(** A launched client in an environment whose exchanges follow [script]
    (and fail with a refused connection once the script is over), each
    taking [10] ms, with an optional pending stop request. *)
Definition sample_world (script : list http_outcome) (stop : option nat) : World :=
  mkWorld (Some sample_handler) false false initial_system_state
    (fun k => nth k script (Fails (ConnectionError "connection refused")))
    (fun _ => 10%N) stop 0 0 [].

(** The same client before [launch_app]. *)
Definition unlaunched_world : World :=
  mkWorld None false false initial_system_state
    (fun _ => Fails (ConnectionError "connection refused"))
    (fun _ => 10%N) None 0 0 [].

Definition status_payload (info : string) : json :=
  JDict (<["Test Status" := JStr info]> ∅).

Definition app_payload (state : string) : json :=
  JDict (<["appState" := JStr state]> (<["connectionState" := JStr "CONNECTED"]> ∅)).

(** One poll as the application answers it: the status, then the state. *)
Definition poll_answers (info state : string) : list http_outcome :=
  [Responds (json_response 200 (status_payload info));
   Responds (json_response 200 (app_payload state))].

(** The run of the cancellation scenario: the submission is accepted, the
    first poll already reports a running test, and another thread calls
    [stop_test_run] after the first round of the monitor loop. *)
Definition cancel_scenario : World :=
  sample_world
    (Responds (json_response 200 (JBool true))
     :: poll_answers "Test:TC1:Started" "BUSY"
     ++ poll_answers "Test:TC1:Started" "BUSY"
     ++ poll_answers "Test:TC1:Started" "BUSY")
    (Some 2%nat).

(** A run in which the application accepts the submission and then keeps
    reporting an idle state for every poll. *)
Definition idle_scenario : World :=
  mkWorld (Some sample_handler) false false initial_system_state
    (fun k =>
       match k with
       | O => Responds (json_response 200 (JBool true))
       | S k' =>
           if Nat.even k'
           then Responds (json_response 200 (status_payload ""))
           else Responds (json_response 200 (app_payload "IDLE"))
       end)
    (fun _ => 10%N) None 0 0 [].

(** One poll whose status fetch times out while the application state is
    still delivered and says [BUSY]. *)
Definition status_timeout_scenario : World :=
  sample_world
    [Fails (Timeout "read timed out");
     Responds (json_response 200 (app_payload "BUSY"))]
    None.

(** A run that has started, reports a running test once, and then loses
    the application: every later exchange is refused. *)
Definition lost_connection_scenario : World :=
  sample_world
    (Responds (json_response 200 (JBool true))
     :: poll_answers "Test:TC1:Started" "BUSY"
     ++ poll_answers "Test:TC1:Started" "BUSY")
    None.

(** A machine on which the application already listens on port 5000: the
    health-check path times out, the root path answers. *)
Definition listening_env : LauncherEnv :=
  mkLauncherEnv (fun _ => true)
    (fun k => match k with
              | O => Fails (Timeout "read timed out")
              | _ => Responds (mkResponse 404 ∅ "text/html" None "Not Found")
              end)
    (fun _ => 10%N) true (inr 4242) (fun _ => None).

(* ===================================================================== *)
(** ** Closed forms used to state further properties *)
(* ===================================================================== *)

(** The snapshot [update_system_state] leaves behind, written as one
    expression in the two payloads and the snapshot before. *)
Definition updated_snapshot (app_state_dict test_status_dict : json)
  (s : SystemState) : SystemState :=
  match app_state_dict, test_status_dict with
  | JDict a, JDict t =>
      let app := default (JStr "UNKNOWN") (a !! "appState") in
      let conn := default (JStr "UNKNOWN") (a !! "connectionState") in
      let kept := mkSystemState app conn (test_case_name s) (test_status s) in
      match default (JStr "") (t !! "Test Status") with
      | JStr info =>
          let parts := PyStr.split ":" info in
          if PyStr.startswith info "Test:" && (3 <=? length parts)%nat
          then mkSystemState app conn
                 (Some (PyStr.strip (nth 1 parts "")))
                 (Some (PyStr.strip (List.last parts "")))
          else kept
      | v => if Py.truthy v then error_system_state else kept
      end
  | _, _ => error_system_state
  end.

(** Whether a response counts as a success for [send_request]. *)
Definition is_2xx (r : Response) : bool :=
  (200 <=? status_code r) && (status_code r <? 300).

(** What a caller reads with [result["response"].get("success")] after
    one exchange, as a truth value. *)
Definition exchange_succeeded (o : http_outcome) : bool :=
  match o with
  | Responds r => is_2xx r
  | Fails _ => false
  end.

(** The request [post_test_list_to_execute] sends. *)
Definition submission_request (h : Handler) (test_list : list string) : event :=
  Http "POST" (request_url h "TestConfiguration" "PostTestListToExecute/0/true")
    JNull (JList (JStr <$> test_list)) default_headers.

(** The error message of [submit_test_list] after a submission that did
    not succeed. *)
Definition submission_error (o : http_outcome) : string :=
  match o with
  | Responds _ => "Failed to submit test list"
  | Fails e =>
      if isinstance_RequestException e then "Failed to submit test list"
      else "Failed to submit test list: " ++ str_of_exn e
  end.


(** A run that starts at once, reports a running test for one more poll
    and then a finished one. *)
Definition completed_scenario : World :=
  sample_world
    (Responds (json_response 200 (JBool true))
     :: poll_answers "Test:TC1:Started" "BUSY"
     ++ poll_answers "Test:TC1:Started" "BUSY"
     ++ poll_answers "Test:TC1:Completed" "READY")
    None.

(* ===================================================================== *)
(** ** The launcher: statements about whole runs *)
(* ===================================================================== *)

(** The configuration and the surroundings of a controller, which none of
    its methods changes. *)
Definition same_setup (c c' : Controller) : Prop :=
  app_path c' = app_path c
  /\ known_port c' = known_port c
  /\ max_connection_attempts c' = max_connection_attempts c
  /\ connection_timeout c' = connection_timeout c
  /\ web_url c' = web_url c
  /\ env c' = env c.

(** No probe is ever answered: every GET fails with a request exception
    (refused connection, timeout). *)
Definition never_answers (e : LauncherEnv) : Prop :=
  forall k, exists x, probe e k = Fails x /\ isinstance_RequestException x = true.

(** The known port, when there is one, is a port number. *)
Definition port_in_range (c : Controller) : Prop :=
  match known_port c with
  | Some p => 0 <= p <= 65535
  | None => True
  end.

(** A computation of the launcher that, on a machine where nothing
    answers, comes back with a value satisfying [P] and an unchanged
    setup. *)
Definition unanswered {A} (m : M Controller A) (P : A -> Prop) : Prop :=
  forall c,
    never_answers (env c) -> port_in_range c ->
    exists a c', m c = (Ok a, c') /\ same_setup c c' /\ P a.




(** The controller after one [bind] on [port]. *)
Definition after_bind (port : Z) (c : Controller) : Controller :=
  mkController (app_path c) (known_port c) (max_connection_attempts c)
    (connection_timeout c) (process c) (web_url c) (env c)
    (S (n_bind c)) (n_get c) (n_poll c) (now c) (done c ++ [Bind port]).

(** Whether a launch attempted at the [k]-th [poll()] gives a live child:
    the path exists, [Popen] returns, and the child has not exited. *)
Definition launch_succeeds (e : LauncherEnv) (k : nat) : bool :=
  path_exists e
  && match popen e with
     | inr _ => match poll e k with None => true | Some _ => false end
     | inl _ => false
     end.

(** What [_launch_process] does after its check when no child is held and
    the path exists: the [Popen], and the [poll()] when a child came
    back. *)
Definition launch_effects (c : Controller) : list launcher_event :=
  if path_exists (env c)
  then Popen (app_path c) :: match popen (env c) with inr _ => [Poll] | inl _ => [] end
  else [].

(** The child [self.process] holds after a launch attempt from no child. *)
Definition launched_process (e : LauncherEnv) : option Z :=
  if path_exists e
  then match popen e with inr pid => Some pid | inl _ => None end
  else None.

(** A machine on which the child exits as soon as it is started. *)
Definition crashing_env : LauncherEnv :=
  mkLauncherEnv (fun _ => false)
    (fun _ => Fails (ConnectionError "connection refused"))
    (fun _ => 10%N) true (inr 4242) (fun _ => Some 1).

(* ===================================================================== *)
(** ** Stopping the child ([WebAppController.stop_process], [is_running]) *)
(* ===================================================================== *)

(** The calls [stop_process] makes on the child besides [poll()]. *)
Inductive signal : Type := Terminate | Kill | WaitExit.

(** What each of these calls does on this machine: return, or raise. *)
Record SignalEnv : Type := mkSignalEnv {
  terminate_raises : option exn;
  kill_raises : option exn;
  wait_raises : option exn
}.

Definition signal_outcome (e : SignalEnv) (s : signal) : option exn :=
  match s with
  | Terminate => terminate_raises e
  | Kill => kill_raises e
  | WaitExit => wait_raises e
  end.

(** A controller while it stops its child: the calls made on the child
    are recorded with the number of effects of the controller that came
    before each, which places them among the polls and the sleeps. *)
Record Teardown : Type := mkTeardown {
  ctl : Controller;
  sig_env : SignalEnv;
  sent : list (nat * signal)
}.

(** A method of the controller, run during the teardown. *)
Definition on_ctl {A} (m : M Controller A) : M Teardown A :=
  zoom ctl (fun c t => mkTeardown c (sig_env t) (sent t)) m.

(** [self.process.terminate()], [.kill()], [.wait()] *)
Definition send_signal (s : signal) : M Teardown unit :=
  fun t =>
    let t' := mkTeardown (ctl t) (sig_env t)
                (sent t ++ [(length (done (ctl t)), s)]) in
    match signal_outcome (sig_env t) s with
    | Some e => (Raise e, t')
    | None => (Ok tt, t')
    end.

(** [for _ in range(n): if self.process.poll() is not None: return True;
    time.sleep(1)]; the value says whether the loop returned. *)
Fixpoint wait_for_exit (n : nat) : M Teardown bool :=
  match n with
  | O => ret false
  | S n' =>
      let* code := on_ctl process_poll in
      match code with
      | Some _ => ret true
      | None => on_ctl (launcher_sleep 1000) ;; wait_for_exit n'
      end
  end.

(** [WebAppController.stop_process] *)
Definition stop_process : M Teardown bool :=
  let* t := get_state in
  let* alive :=
    (match process (ctl t) with
     | Some _ =>
         let* code := on_ctl process_poll in
         ret (negb (bool_decide (is_Some code)))
     | None => ret false
     end) in
  if alive then
    try_except
      (send_signal Terminate ;;
       let* exited := wait_for_exit 5 in
       if exited then ret true
       else send_signal Kill ;; send_signal WaitExit ;; ret true)
      (fun _ => ret false)
  else ret true.

(** [WebAppController.is_running]:
    [(self.process and self.process.poll() is None) or
     self._check_application_running()] *)
Definition is_running : M Controller bool :=
  let* c := get_state in
  let* own :=
    (match process c with
     | Some _ =>
         let* code := process_poll in
         ret (negb (bool_decide (is_Some code)))
     | None => ret false
     end) in
  if own then ret true else _check_application_running.

(** A controller that holds child [pid], on a machine where the child
    answers [poll()] as [polls] says. *)
Definition holding (pid : Z) (polls : nat -> option Z) : Controller :=
  mkController "C:/GRL/app.exe" (Some 5000) 3 30 (Some pid)
    (Some "http://localhost:5000")
    (mkLauncherEnv (fun _ => false)
       (fun _ => Fails (ConnectionError "connection refused"))
       (fun _ => 10%N) true (inr pid) polls)
    0 0 0 0 [].

(** Signals that all go through. *)
Definition obedient : SignalEnv := mkSignalEnv None None None.

(** What the polling loop leaves alone, and what it may advance. *)
Record waited (t t' : Teardown) (polls sleeps : nat) : Prop := mkWaited {
  waited_sig_env : sig_env t' = sig_env t;
  waited_sent : sent t' = sent t;
  waited_env : env (ctl t') = env (ctl t);
  waited_process : process (ctl t') = process (ctl t);
  waited_n_poll : n_poll (ctl t') = (n_poll (ctl t) + polls)%nat;
  waited_now : now (ctl t') = now (ctl t) + 1000 * Z.of_nat sleeps;
  waited_done : length (done (ctl t')) = (length (done (ctl t)) + polls + sleeps)%nat
}.

(* ===================================================================== *)
(** ** The pop-up log files ([save_only_message], [save_message_by_test_case]) *)
(* ===================================================================== *)

(** What a file of the working directory holds: a JSON document, text
    that is no JSON document, or nothing at all (size zero). *)
Inductive file_content : Type :=
| Document (doc : json)
| Garbled
| EmptyFile.

(** The working directory as the two writers see it: what each file
    holds, which paths cannot be opened for reading, and which cannot be
    opened for writing. *)
Record Disk : Type := mkDisk {
  contents : gmap string file_content;
  unreadable : string -> bool;
  read_only : string -> bool
}.

(** The client with its working directory. *)
Record Client : Type := mkClient {
  world : World;
  disk : Disk
}.

Definition on_disk {A} (m : M Disk A) : M Client A :=
  zoom disk (fun d s => mkClient (world s) d) m.

Definition on_world {A} (m : M World A) : M Client A :=
  zoom world (fun w s => mkClient w (disk s)) m.

(** [os.path.exists(path)] *)
Definition os_path_exists (path : string) : M Disk bool :=
  fun d => (Ok (bool_decide (is_Some (contents d !! path))), d).

(** [os.path.getsize(path) > 0] *)
Definition os_path_has_size (path : string) : M Disk bool :=
  fun d =>
    match contents d !! path with
    | Some EmptyFile => (Ok false, d)
    | Some _ => (Ok true, d)
    | None => (Raise (OSError ("No such file or directory: " ++ path)), d)
    end.

(** [with open(path, 'r') as f: json.load(f)].  The decoder's
    [JSONDecodeError] is a [ValueError]; it is the only one this layer
    raises. *)
Definition json_load (path : string) : M Disk json :=
  fun d =>
    if unreadable d path
    then (Raise (OSError ("Permission denied: " ++ path)), d)
    else
      match contents d !! path with
      | Some (Document doc) => (Ok doc, d)
      | Some _ => (Raise (ValueError "Expecting value: line 1 column 1 (char 0)"), d)
      | None => (Raise (OSError ("No such file or directory: " ++ path)), d)
      end.

Definition isinstance_JSONDecodeError (e : exn) : bool :=
  match e with ValueError _ => true | _ => false end.

(** [with open(path, 'w') as f: json.dump(doc, f, indent=4)] *)
Definition json_dump (path : string) (doc : json) : M Disk unit :=
  fun d =>
    if read_only d path
    then (Raise (OSError ("Permission denied: " ++ path)), d)
    else (Ok tt, mkDisk (<[path := Document doc]> (contents d))
                   (unreadable d) (read_only d)).

(** [len(v)] *)
Definition py_len {S} (v : json) : M S Z :=
  match v with
  | JStr s => ret (Z.of_nat (String.length s))
  | JList l => ret (Z.of_nat (length l))
  | JDict m => ret (Z.of_nat (size m))
  | _ => raise (TypeError "object has no len()")
  end.

(** [v.append(x)], as the list afterwards: only lists have [append]. *)
Definition py_append {S} (v x : json) : M S json :=
  match v with
  | JList l => ret (JList (l ++ [x]))
  | _ => raise (AttributeError "object has no attribute 'append'")
  end.

(** [v[:50]] in a log line: numbers, booleans and dictionaries cannot be
    sliced. *)
Definition py_slice_check {S} (v : json) : M S unit :=
  match v with
  | JStr _ | JList _ => ret tt
  | _ => raise (TypeError "object is not subscriptable")
  end.

(** [GRLApiClient.save_only_message] *)
Definition save_only_message (json_data : json) : M Client unit :=
  try_except
    (let file_path := popup_json_file_name in
     let* message := Py.get json_data "message" JNull in
     if negb (Py.truthy message) then ret tt
     else
       let* present := on_disk (os_path_exists file_path) in
       let* messages :=
         (if present then
            let* filled := on_disk (os_path_has_size file_path) in
            if filled then
              let* loaded := on_disk (json_load file_path) in
              py_len loaded ;;
              ret loaded
            else ret (JList [])
          else ret (JList [])) in
       let* messages := py_append messages message in
       on_disk (json_dump file_path messages))
    (fun _ => ret tt).

(** The key [save_message_by_test_case] files a message under. *)
Definition message_key (s : SystemState) : string :=
  match test_case_name s with
  | Some name => if String.eqb name "" then "Other_message" else name
  | None => "Other_message"
  end.

(** [GRLApiClient.save_message_by_test_case] *)
Definition save_message_by_test_case (json_data : json) : M Client unit :=
  try_except
    (let file_path := test_cases_popup_json_file_name in
     let* message := Py.get json_data "message" JNull in
     if negb (Py.truthy message) then ret tt
     else
       let* s := get_state in
       let test_case_name := message_key (system_state_data (world s)) in
       let* present := on_disk (os_path_exists file_path) in
       let* messages_by_test :=
         (if present then
            let* filled := on_disk (os_path_has_size file_path) in
            if filled then
              try_except
                (let* loaded := on_disk (json_load file_path) in
                 match loaded with
                 | JDict m => ret m
                 | _ => ret ∅
                 end)
                (fun e => if isinstance_JSONDecodeError e then ret ∅ else raise e)
            else ret ∅
          else ret ∅) in
       let messages_by_test :=
         match messages_by_test !! test_case_name with
         | Some _ => messages_by_test
         | None => <[test_case_name := JList []]> messages_by_test
         end in
       let* entry := Py.getitem (JDict messages_by_test) test_case_name in
       let* entry := py_append entry message in
       on_disk (json_dump file_path
                  (JDict (<[test_case_name := entry]> messages_by_test))) ;;
       py_slice_check message)
    (fun _ => ret tt).

(** What [_handle_connection_popup] does with the data of one dialog
    before it replies. *)
Definition log_popup (popup_data : json) : M Client unit :=
  save_only_message popup_data ;;
  save_message_by_test_case popup_data.

(** The same for the dialogs of a run, one after the other. *)
Fixpoint log_popups (popups : list json) : M Client unit :=
  match popups with
  | [] => ret tt
  | popup_data :: rest => log_popup popup_data ;; log_popups rest
  end.

(** The directory [create_empty_json] works on, seen by the writers:
    every file holds a document and can be read. *)
Definition disk_of (fs : FileSystem) : Disk :=
  mkDisk (Document <$> files fs) (fun _ => false) (unwritable fs).

(** The data of a dialog that shows [message]. *)
Definition popup_with (message : string) : json :=
  JDict (<["message" := JStr message]> (<["popID" := JNum 7]> ∅)).

(** A client in a working directory holding [held], during test [name]. *)
Definition client_in (held : gmap string file_content) (name : option string) : Client :=
  mkClient
    (mkWorld (Some sample_handler) false false
       (mkSystemState (JStr "BUSY") (JStr "CONNECTED") name (Some "Started"))
       (fun _ => Fails (ConnectionError "connection refused"))
       (fun _ => 10%N) None 0 0 [])
    (mkDisk held (fun _ => false) (fun _ => false)).

(** The messages the flat log holds, as [save_only_message] reads them: a
    missing or empty file counts as the empty list; content that is no
    list has no reading. *)
Definition logged_messages (held : option file_content) : option (list json) :=
  match held with
  | None | Some EmptyFile => Some []
  | Some (Document (JList l)) => Some l
  | Some _ => None
  end.

(** The groups the log by test case holds, as [save_message_by_test_case]
    reads them: anything but a dictionary counts as no group at all. *)
Definition logged_groups (held : option file_content) : gmap string json :=
  match held with
  | Some (Document (JDict g)) => g
  | _ => ∅
  end.

(** The messages of one group: a missing group counts as empty, an entry
    that is no list has no reading. *)
Definition group_messages (g : gmap string json) (key : string) : option (list json) :=
  match g !! key with
  | None => Some []
  | Some (JList l) => Some l
  | Some _ => None
  end.

(** The client after [path] was rewritten with [doc]. *)
Definition with_document (path : string) (doc : json) (s : Client) : Client :=
  mkClient (world s)
    (mkDisk (<[path := Document doc]> (contents (disk s)))
       (unreadable (disk s)) (read_only (disk s))).

(** The message of a dialog, as both writers read it. *)
Definition message_of (popup_data : gmap string json) : json :=
  from_option id JNull (popup_data !! "message").

(* ===================================================================== *)
(** ** Answering dialogs ([_handle_connection_popup]) *)
(* ===================================================================== *)

(** [GRLApiHandler.get_message_box] *)
Definition get_message_box (h : Handler) : M World json :=
  send_request h "GET" "App" "GetMessageBox" JNull JNull JNull.

(** [GRLApiHandler.put_message_box_response]; the two [get] feed the log
    line. *)
Definition put_message_box_response (h : Handler) (response_data : json)
  : M World json :=
  Py.get response_data "popID" (JStr "unknown") ;;
  Py.get response_data "responseButton" (JStr "unknown") ;;
  send_request h "PUT" "App" "PutMessageBoxResponse" JNull response_data JNull.

(** The reply [_handle_connection_popup] builds: the fixed fields, with
    the id and the title of the dialog it answers. *)
Definition popup_reply (pop_id title : json) : json :=
  JDict
    (<["userTextBoxInput" := JStr ""]>
    (<["responseButton" := JStr "Ok"]>
    (<["shouldTextBoxBeAdded" := JBool false]>
    (<["isValid" := JBool true]>
    (<["popID" := pop_id]>
    (<["displayPopUp" := JBool false]>
    (<["isDisplayPopUpOpen" := JBool false]>
    (<["title" := title]>
    (<["message" := JStr ""]>
    (<["button" := JStr "OK"]>
    (<["image" := JStr ""]>
    (<["icon" := JStr "Asterisk"]>
    (<["isFrontEndPopUp" := JBool false]>
    (<["callBackMethod" := JStr ""]>
    (<["comboBoxEntries" := JStr ""]>
    (<["selectedComboBoxValue" := JStr ""]>
    (<["comboBoxEntriesFE" := JList []]>
    (<["selectedComboBoxValueFE" := JStr ""]>
    (<["onlyDropdownAdded" := JBool false]>
    (<["enableTimerOKButton" := JBool false]>
    (<["enableCustomUserInputs" := JBool false]>
    (<["customInputValues" := JDict ∅]> ∅)))))))))))))))))))))).

(** [GRLApiClient._handle_connection_popup] *)
Definition _handle_connection_popup : M Client unit :=
  let* s := get_state in
  match api_handler (world s) with
  | None => ret tt
  | Some h =>
      let* response := on_world (get_message_box h) in
      let* r := Py.get response "response" (JDict ∅) in
      let* success := Py.get r "success" JNull in
      if negb (Py.truthy success) then ret tt
      else
        let* r := Py.get response "response" (JDict ∅) in
        let* popup_data := Py.get r "data" JNull in
        if negb (Py.truthy popup_data) then ret tt
        else
          let* message := Py.get popup_data "message" JNull in
          if negb (Py.truthy message) then ret tt
          else
            save_only_message popup_data ;;
            save_message_by_test_case popup_data ;;
            let* pop_id := Py.get popup_data "popID" (JNum 23) in
            let* title := Py.get popup_data "title" (JStr "GRL Test Solution") in
            let popupdata := popup_reply pop_id title in
            try_except
              (let* put_response := on_world (put_message_box_response h popupdata) in
               let* r := Py.getitem put_response "response" in
               let* success := Py.get r "success" JNull in
               if Py.truthy success
               then Py.get popupdata "message" (JStr "") ;; ret tt
               else Py.get r "status_code" JNull ;; ret tt)
              (fun _ => ret tt)
  end.

(** What one fetch of the message box amounts to for the handler: no
    dialog to answer, a dialog with its data, or an exception that leaves
    the handler. *)
Inductive popup_view : Type :=
| NoDialog
| Dialog (popup_data : gmap string json)
| Broken (e : exn).

Definition classify_popup (o : http_outcome) : popup_view :=
  match o with
  | Fails e => if isinstance_RequestException e then NoDialog else Broken e
  | Responds r =>
      if is_2xx r then
        match (match json_body r with Some j => j | None => JStr (text r) end) with
        | JDict d =>
            if Py.truthy (JDict d) && Py.truthy (message_of d)
            then Dialog d else NoDialog
        | data =>
            if Py.truthy data
            then Broken (AttributeError "object has no attribute 'get'")
            else NoDialog
        end
      else NoDialog
  end.

(** The two requests of the handler. *)
Definition message_box_request (h : Handler) : event :=
  Http "GET" (request_url h "App" "GetMessageBox") JNull JNull default_headers.

Definition reply_request (h : Handler) (popup_data : gmap string json) : event :=
  Http "PUT" (request_url h "App" "PutMessageBoxResponse") JNull
    (popup_reply (from_option id (JNum 23) (popup_data !! "popID"))
       (from_option id (JStr "GRL Test Solution") (popup_data !! "title")))
    default_headers.

(** A client whose application shows a dialog and accepts the reply. *)
Definition dialog_scenario : Client :=
  mkClient
    (sample_world
       [Responds (json_response 200 (popup_with "Connect the DUT"));
        Responds (json_response 200 (JBool true))]
       None)
    (mkDisk ∅ (fun _ => false) (fun _ => false)).

(** A client whose application answers the fetch with a page of text. *)
Definition text_answer_scenario : Client :=
  mkClient
    (sample_world [Responds (mkResponse 200 ∅ "text/html" None "<html>busy</html>")] None)
    (mkDisk ∅ (fun _ => false) (fun _ => false)).

(** A computation of the client that leaves the session, the flags and
    the snapshot alone, and comes back. *)
Definition keeps_world {A} (m : M Client A) : Prop :=
  forall s, world (snd (m s)) = world s /\ fst (m s) <> OutOfFuel.

(* ===================================================================== *)
(** ** The list of enabled test cases
       ([Test_Case_List_From_System/create_test_case_json.py]) *)
(* ===================================================================== *)

(** The inner [is_test_case_node]: ['children' in node and
    node['children'] == []]. *)
Definition is_test_case_node (node : gmap string json) : bool :=
  match node !! "children" with
  | Some (JList []) => true
  | _ => false
  end.

(** [for x in l: f(x)], with the keys each call appends, in order;
    [None] once a call has run out of depth. *)
Fixpoint collect (f : json -> option (list json)) (l : list json)
  : option (list json) :=
  match l with
  | [] => Some []
  | x :: rest =>
      match f x with
      | Some keys =>
          match collect f rest with
          | Some more => Some (keys ++ more)%list
          | None => None
          end
      | None => None
      end
  end.

(** The inner [traverse], returning the keys it appends to
    [enabled_keys]; [fuel] bounds the depth of the recursion. *)
Fixpoint traverse (fuel : nat) (node : json) : option (list json) :=
  match fuel with
  | O => None
  | S fuel' =>
      match node with
      | JDict m =>
          let is_enabled :=
            match m !! "enable" with Some (JBool true) => true | _ => false end in
          let has_key := bool_decide (is_Some (m !! "key")) in
          let own :=
            if is_enabled && has_key && is_test_case_node m
            then [from_option id JNull (m !! "key")] else [] in
          match m !! "children" with
          | Some (JList children) =>
              match collect (traverse fuel') children with
              | Some more => Some (own ++ more)%list
              | None => None
              end
          | _ => Some own
          end
      | _ => Some []
      end
  end.

(** [extract_enabled_keys] *)
Definition extract_enabled_keys (fuel : nat) (json_data : json)
  : option (list json) :=
  match json_data with
  | JList items => collect (traverse fuel) items
  | _ => traverse fuel json_data
  end.

(** A tree of test cases as the application lists them: each node with
    its ['enable'] and ['key'] entries (when it has them), its other
    entries, and its children. *)
#[warnings="-register-all"] Inductive test_tree : Type :=
| TestNode (enable key : option json) (others : gmap string json)
    (children : list test_tree).

Definition with_entry (name : string) (v : option json) (m : gmap string json)
  : gmap string json :=
  match v with
  | Some x => <[name := x]> m
  | None => delete name m
  end.

(** The JSON document of a tree. *)
Fixpoint tree_json (t : test_tree) : json :=
  match t with
  | TestNode enable key others children =>
      JDict (<["children" := JList (map tree_json children)]>
               (with_entry "enable" enable (with_entry "key" key others)))
  end.

(** The number of levels of a tree. *)
Fixpoint tree_depth (t : test_tree) : nat :=
  match t with
  | TestNode _ _ _ children =>
      S (fold_right (fun child d => Nat.max (tree_depth child) d) 0%nat children)
  end.

(** The docstring of [extract_enabled_keys]: the keys of the nodes where
    ['enable'] is [True] and the node is a leaf (has an empty children
    array), in the order of the document. *)
Fixpoint enabled_leaf_keys (t : test_tree) : list json :=
  match t with
  | TestNode enable key _ children =>
      match children with
      | [] =>
          match enable, key with
          | Some (JBool true), Some k => [k]
          | _, _ => []
          end
      | _ => flat_map enabled_leaf_keys children
      end
  end.

(** A test case, and a group of test cases. *)
Definition test_case (name : string) (enabled : bool) : test_tree :=
  TestNode (Some (JBool enabled)) (Some (JStr name)) ∅ [].

Definition test_group (name : string) (enabled : bool) (cases : list test_tree)
  : test_tree :=
  TestNode (Some (JBool enabled)) (Some (JStr name)) ∅ cases.

(** A list as the application gives it: a disabled group with one of its
    two cases enabled, and an enabled group with a nested group. *)
Definition sample_test_list : list test_tree :=
  [ test_group "TPR" false [test_case "TPR.1" true; test_case "TPR.2" false];
    test_group "TPT" true
      [test_group "TPT.A" false [test_case "TPT.A.1" true];
       test_case "TPT.2" true] ].

(** Whether the controller holds a child that its next [poll()] shows
    alive. *)
Definition own_child_alive (c : Controller) : bool :=
  match process c with
  | Some _ => match poll (env c) (n_poll c) with None => true | Some _ => false end
  | None => false
  end.

(* ===================================================================== *)
(** * Properties *)
(* ===================================================================== *)

(** ** Strings *)

Example split_status : PyStr.split ":" "Test:Foo:Bar:Started" = ["Test"; "Foo"; "Bar"; "Started"].
Proof. reflexivity. Qed.

Example split_no_separator : PyStr.split ":" "Idle" = ["Idle"].
Proof. reflexivity. Qed.

Example split_empty : PyStr.split ":" "" = [""].
Proof. reflexivity. Qed.

Example strip_both_ends : PyStr.strip "  Foo Bar  " = "Foo Bar".
Proof. reflexivity. Qed.

Example contains_started : PyStr.contains "Started" "Test:X:Started" = true.
Proof. reflexivity. Qed.

Example contains_not_started : PyStr.contains "Started" "Test:X:started" = false.
Proof. reflexivity. Qed.

Example upper_method : PyStr.upper "get" = "GET".
Proof. reflexivity. Qed.

Example port_as_text : PyStr.of_Z 5000 = "5000".
Proof. reflexivity. Qed.

(** ** The snapshot update *)

Ltac mstep :=
  cbv [bind ret raise modify try_except try_finally get_state diverge zoom].

(** On a string the body of the inner [try] raises nothing: it stores the
    trimmed second and last part when there are at least three parts, and
    nothing otherwise. *)
Lemma parse_test_info_body_str (info : string) (s : SystemState) :
  parse_test_info_body (JStr info) s =
    (Ok tt,
     let parts := PyStr.split ":" info in
     if (3 <=? length parts)%nat
     then mkSystemState (app_state s) (connection_state s)
            (Some (PyStr.strip (nth 1 parts "")))
            (Some (PyStr.strip (List.last parts "")))
     else s).
Proof.
  unfold parse_test_info_body, py_split. mstep. cbv zeta.
  destruct (3 <=? length (PyStr.split ":" info))%nat eqn:L; [|reflexivity].
  apply Nat.leb_le in L.
  destruct (PyStr.split ":" info) as [|x [|y l]] eqn:P; simpl in L; try lia.
  unfold py_item, py_last_item. simpl lookup. mstep.
  destruct (last (x :: y :: l)) as [z|] eqn:La.
  - unfold set_test_case_name, set_test_status. simpl nth.
    cbn [app_state connection_state test_case_name test_status].
    do 4 f_equal. rewrite last_Some in La. destruct La as [l' La].
    rewrite La. rewrite List.last_last. reflexivity.
  - apply last_None in La. discriminate La.
Qed.

Lemma parse_test_info_str (info : string) (s : SystemState) :
  parse_test_info (JStr info) s =
    (Ok tt,
     let parts := PyStr.split ":" info in
     if (3 <=? length parts)%nat
     then mkSystemState (app_state s) (connection_state s)
            (Some (PyStr.strip (nth 1 parts "")))
            (Some (PyStr.strip (List.last parts "")))
     else s).
Proof.
  unfold parse_test_info, try_except. rewrite parse_test_info_body_str. reflexivity.
Qed.

(** The inner [try] never lets an exception out. *)
Lemma parse_test_info_ok (v : json) (s : SystemState) :
  exists s', parse_test_info v s = (Ok tt, s').
Proof.
  destruct v; try (eexists; reflexivity).
  rewrite parse_test_info_str. eauto.
Qed.

(** The body of the outer [try] raises exactly on the inputs
    [update_raises] describes. *)
Lemma update_system_state_body_raises (a t : json) (s : SystemState) :
  (exists e s', update_system_state_body a t s = (Raise e, s'))
  <-> update_raises a t = true.
Proof.
  unfold update_raises, update_system_state_body.
  destruct a as [| | | | |ma]; try (split; [reflexivity|intros _; simpl; eauto]).
  destruct t as [| | | | |mt];
    try (split; [reflexivity|intros _; unfold bind; simpl; eauto]).
  unfold bind at 1 2 3 4 5. simpl.
  destruct (mt !! "Test Status") as [v|]; simpl.
  2:{ split; [intros (e & s' & H); discriminate|discriminate]. }
  destruct v; simpl; unfold bind; simpl;
    try (split; [intros (e & s' & H); discriminate|discriminate]).
  - destruct b; simpl; split; eauto; try discriminate.
    intros (e & s' & H); discriminate.
  - destruct (n =? 0); simpl; split; eauto; try discriminate.
    intros (e & s' & H); discriminate.
  - split; [|discriminate]. intros (e & s' & H). exfalso.
    destruct (negb (String.eqb s0 "")); simpl in H; [|discriminate].
    destruct (PyStr.startswith s0 "Test:"); [|discriminate].
    destruct (parse_test_info_ok (JStr s0)
                (set_connection_state (from_option id (JStr "UNKNOWN") (ma !! "connectionState"))
                   (set_app_state (from_option id (JStr "UNKNOWN") (ma !! "appState")) s)))
      as [s'' E].
    rewrite E in H. discriminate.
  - destruct l; simpl; split; eauto; try discriminate.
    intros (e & s' & H); discriminate.
  - destruct (bool_decide (m = ∅)); simpl; split; eauto; try discriminate.
    intros (e & s' & H); discriminate.
Qed.

(** C2: whenever the parsing body of [update_system_state] raises, whatever
    it had already written, the snapshot ends with [app_state] and
    [connection_state] at ['ERROR'] and both test fields at [None], and
    the exception does not leave the method. *)
Theorem update_system_state_exception_resets
  (a t : json) (s s' : SystemState) (e : exn) :
  update_system_state_body a t s = (Raise e, s') ->
  update_system_state a t s = (Ok tt, error_system_state).
Proof.
  intros H. unfold update_system_state, try_except. rewrite H.
  reflexivity.
Qed.

Lemma update_system_state_exception_resets_witness :
  update_system_state (JDict ∅) (JDict {[ "Test Status" := JNum 5 ]})
    (mkSystemState (JStr "BUSY") (JStr "CONNECTED") (Some "TC1") (Some "Started"))
  = (Ok tt, mkSystemState (JStr "ERROR") (JStr "ERROR") None None).
Proof.
  eapply (update_system_state_exception_resets _ _ _
            (mkSystemState (JStr "UNKNOWN") (JStr "UNKNOWN") (Some "TC1") (Some "Started"))
            (AttributeError "object has no attribute 'startswith'")).
  vm_compute. reflexivity.
Defined.

(** C3 (as amended): on a status string [info], the snapshot's test fields
    become the trimmed second and the trimmed last colon-segment exactly
    when [info] starts with ["Test:"] and has at least three segments,
    whatever stands between them; for every other string (fewer than three
    segments, or another prefix) both test fields keep their prior values.
    The two state fields are refreshed from the application-state payload
    in both cases. *)
Theorem update_system_state_status_string
  (a t : gmap string json) (info : string) (s : SystemState) :
  t !! "Test Status" = Some (JStr info) ->
  update_system_state (JDict a) (JDict t) s =
    (Ok tt,
     let parts := PyStr.split ":" info in
     let app := from_option id (JStr "UNKNOWN") (a !! "appState") in
     let conn := from_option id (JStr "UNKNOWN") (a !! "connectionState") in
     if PyStr.startswith info "Test:" && (3 <=? length parts)%nat
     then mkSystemState app conn
            (Some (PyStr.strip (nth 1 parts "")))
            (Some (PyStr.strip (List.last parts "")))
     else mkSystemState app conn (test_case_name s) (test_status s)).
Proof.
  intros Ht.
  unfold update_system_state, update_system_state_body, Py.get, Py.startswith.
  rewrite Ht. cbn [from_option id]. unfold Py.truthy.
  mstep.
  destruct (String.eqb_spec info "") as [->|_]; [reflexivity|].
  cbn [negb].
  destruct (PyStr.startswith info "Test:"); cbn [andb]; cbv beta iota zeta.
  - rewrite parse_test_info_str. cbv zeta.
    destruct (3 <=? length (PyStr.split ":" info))%nat; reflexivity.
  - reflexivity.
Qed.

Lemma update_system_state_status_string_witness :
  update_system_state (JDict {[ "appState" := JStr "BUSY" ]})
    (JDict {[ "Test Status" := JStr "Test:Foo:Bar: Started " ]})
    initial_system_state
  = (Ok tt, mkSystemState (JStr "BUSY") (JStr "UNKNOWN") (Some "Foo") (Some "Started")).
Proof.
  rewrite (update_system_state_status_string
             {[ "appState" := JStr "BUSY" ]}
             {[ "Test Status" := JStr "Test:Foo:Bar: Started " ]}
             "Test:Foo:Bar: Started " initial_system_state).
  - vm_compute. reflexivity.
  - vm_compute. reflexivity.
Defined.

(** C3, the claim as worded fails: a string with three colon-segments that
    does not start with ["Test:"] leaves the test fields as they were. *)
Lemma status_string_three_segments_ignored :
  PyStr.split ":" "X:Foo:Started" = ["X"; "Foo"; "Started"]
  /\ update_system_state (JDict ∅) (JDict {[ "Test Status" := JStr "X:Foo:Started" ]})
       initial_system_state
     = (Ok tt, initial_system_state)
  /\ test_case_name initial_system_state <> Some "Foo"
  /\ test_status initial_system_state <> Some "Started".
Proof.
  repeat split; try (vm_compute; reflexivity); discriminate.
Qed.

(** ** Transport *)

Lemma dispatch_supported (method url : string) (params data headers : json) :
  supported_method method = true ->
  _dispatch_request method url params data headers
  = exchange (Http method url params (sent_body method data) headers).
Proof.
  unfold supported_method, _dispatch_request, sent_body. intros H.
  destruct (String.eqb_spec method "GET") as [->|_]; [reflexivity|].
  destruct (String.eqb_spec method "POST") as [->|_]; [reflexivity|].
  destruct (String.eqb_spec method "PUT") as [->|_]; [reflexivity|].
  destruct (String.eqb_spec method "DELETE") as [->|_]; [reflexivity|].
  discriminate H.
Qed.

Lemma dispatch_unsupported (method url : string) (params data headers : json) :
  supported_method method = false ->
  _dispatch_request method url params data headers
  = raise (ValueError ("Unsupported HTTP method: " ++ method)).
Proof.
  unfold supported_method, _dispatch_request. intros H.
  destruct (String.eqb method "GET"); [discriminate H|].
  destruct (String.eqb method "POST"); [discriminate H|].
  destruct (String.eqb method "PUT"); [discriminate H|].
  destruct (String.eqb method "DELETE"); [discriminate H|].
  reflexivity.
Qed.

(** The result of [send_request] in each of its four cases. *)
Lemma send_request_eq (h : Handler) (method service endpoint : string)
  (params data headers : json) (w : World) :
  let m := PyStr.upper method in
  let url := request_url h service endpoint in
  let hd := if Py.truthy headers then headers else default_headers in
  let request := request_dict m url params data hd in
  let w' := after_exchange (Http m url params (sent_body m data) hd) w in
  send_request h method service endpoint params data headers w =
    if supported_method m then
      match http w (n_http w) with
      | Responds r => (Ok (make_result request (response_dict r)), w')
      | Fails e =>
          if isinstance_RequestException e
          then (Ok (make_result request (error_dict (transport_error_msg e))), w')
          else (Raise e, w')
      end
    else (Raise (ValueError ("Unsupported HTTP method: " ++ m)), w).
Proof.
  cbv zeta. unfold send_request, request_url.
  destruct (supported_method (PyStr.upper method)) eqn:Hm.
  - rewrite dispatch_supported by exact Hm.
    unfold exchange. mstep.
    destruct (http w (n_http w)) as [r|e]; [destruct (negb _); reflexivity|].
    unfold request_error_msg, transport_error_msg. mstep.
    destruct e; simpl; destruct (negb _); reflexivity.
  - rewrite dispatch_unsupported by exact Hm. mstep.
    destruct (negb _); reflexivity.
Qed.

Lemma error_dict_lookup (msg : string) :
  error_dict msg !! "error" = Some (JStr msg)
  /\ error_dict msg !! "success" = None
  /\ error_dict msg !! "data" = None.
Proof.
  unfold error_dict. split; [|split].
  - apply lookup_insert_eq.
  - rewrite lookup_insert_ne by done. apply lookup_empty.
  - rewrite lookup_insert_ne by done. apply lookup_empty.
Qed.

Lemma make_result_response (request response : gmap string json) :
  Py.get (S:=World) (make_result request response) "response" (JDict ∅)
  = ret (JDict response).
Proof.
  unfold Py.get, make_result.
  rewrite lookup_insert_ne by done. rewrite lookup_insert_eq. reflexivity.
Qed.

Lemma response_dict_data (r : Response) :
  response_dict r !! "data"
  = Some (match json_body r with Some j => j | None => JStr (text r) end).
Proof.
  unfold response_dict. destruct (json_body r);
    rewrite lookup_insert_ne by done; apply lookup_insert_eq.
Qed.

Lemma response_dict_success (r : Response) :
  response_dict r !! "success"
  = Some (JBool ((200 <=? status_code r) && (status_code r <? 300))).
Proof.
  unfold response_dict. destruct (json_body r);
    do 3 (rewrite lookup_insert_ne by done); apply lookup_insert_eq.
Qed.

(** C4 (as amended): for a method the dispatcher knows, a transport
    failure (refused connection, timeout, any other request exception)
    does not leave [send_request]: the result's response holds the error
    message under ["error"] and nothing else, so it has no ["success"] key
    and a caller's [.get("success")] reads as false. *)
Theorem send_request_transport_failure
  (h : Handler) (method service endpoint : string)
  (params data headers : json) (w : World) (e : exn) :
  supported_method (PyStr.upper method) = true ->
  http w (n_http w) = Fails e ->
  isinstance_RequestException e = true ->
  exists request : gmap string json,
    fst (send_request h method service endpoint params data headers w)
    = Ok (make_result request (error_dict (transport_error_msg e)))
    /\ error_dict (transport_error_msg e) !! "error" = Some (JStr (transport_error_msg e))
    /\ error_dict (transport_error_msg e) !! "success" = None
    /\ Py.truthy (default JNull (error_dict (transport_error_msg e) !! "success")) = false.
Proof.
  intros Hm Hf He. rewrite send_request_eq. cbv zeta.
  rewrite Hm, Hf, He. eexists. split; [reflexivity|].
  destruct (error_dict_lookup (transport_error_msg e)) as (H1 & H2 & _).
  rewrite H1, H2. auto.
Qed.

Lemma send_request_transport_failure_witness :
  exists request : gmap string json,
    fst (send_request sample_handler "get" "Results" "GetTestStatus" JNull JNull JNull
           (sample_world [Fails (Timeout "read timed out")] None))
    = Ok (make_result request (error_dict "Request timed out"))
    /\ error_dict "Request timed out" !! "error" = Some (JStr "Request timed out")
    /\ error_dict "Request timed out" !! "success" = None
    /\ Py.truthy (default JNull (error_dict "Request timed out" !! "success")) = false.
Proof.
  apply (send_request_transport_failure sample_handler "get" "Results" "GetTestStatus"
           JNull JNull JNull (sample_world [Fails (Timeout "read timed out")] None)
           (Timeout "read timed out")); reflexivity.
Defined.

(** C4, the claim as worded fails twice: an unsupported method makes
    [send_request] raise [ValueError] whatever the transport would do, and
    after a refused connection the response carries no ["success"] entry
    (so not [success = false]). *)
Lemma send_request_raises_or_lacks_success :
  fst (send_request sample_handler "PATCH" "App" "GetAppState" JNull JNull JNull
         (sample_world [Fails (ConnectionError "connection refused")] None))
  = Raise (ValueError "Unsupported HTTP method: PATCH")
  /\ exists request response,
       fst (send_request sample_handler "GET" "App" "GetAppState" JNull JNull JNull
              (sample_world [Fails (ConnectionError "connection refused")] None))
       = Ok (make_result request response)
       /\ response !! "success" <> Some (JBool false).
Proof.
  split.
  - rewrite send_request_eq. reflexivity.
  - rewrite send_request_eq. cbv zeta.
    do 2 eexists. split; [reflexivity|].
    destruct (error_dict_lookup (transport_error_msg (ConnectionError "connection refused")))
      as (_ & H2 & _).
    rewrite H2. discriminate.
Qed.

(** ** The monad: computations that come back *)

Lemma returns_ret {S A} (a : A) : returns (S:=S) (ret a).
Proof. intros s. discriminate. Qed.

Lemma returns_raise {S A} (e : exn) : returns (S:=S) (A:=A) (raise e).
Proof. intros s. discriminate. Qed.

Lemma returns_modify {S} (f : S -> S) : returns (modify f).
Proof. intros s. discriminate. Qed.

Lemma returns_bind {S A B} (m : M S A) (k : A -> M S B) :
  returns m -> (forall a, returns (k a)) -> returns (bind m k).
Proof.
  intros Hm Hk s. unfold bind. specialize (Hm s).
  destruct (m s) as [[a|e|] s']; simpl in *; [apply Hk|discriminate|congruence].
Qed.

Lemma returns_try_except {S A} (m : M S A) (h : exn -> M S A) :
  returns m -> (forall e, returns (h e)) -> returns (try_except m h).
Proof.
  intros Hm Hh s. unfold try_except. specialize (Hm s).
  destruct (m s) as [[a|e|] s']; simpl in *; [discriminate|apply Hh|congruence].
Qed.

Lemma returns_get {S} (v : json) (key : string) (d : json) :
  returns (S:=S) (Py.get v key d).
Proof. destruct v; intros ?; discriminate. Qed.

Lemma returns_getitem {S} (v : json) (key : string) :
  returns (S:=S) (Py.getitem v key).
Proof.
  destruct v; intros ?; try discriminate.
  simpl. destruct (m !! key); discriminate.
Qed.

Lemma returns_startswith {S} (v : json) (p : string) :
  returns (S:=S) (Py.startswith v p).
Proof. destruct v; intros ?; discriminate. Qed.

Lemma returns_contains {S} (needle : string) (v : json) :
  returns (S:=S) (Py.contains needle v).
Proof. destruct v; intros ?; discriminate. Qed.

Lemma returns_parse_test_info (v : json) : returns (parse_test_info v).
Proof.
  intros s. destruct (parse_test_info_ok v s) as [s' E]. rewrite E. discriminate.
Qed.

Create HintDb returns_db.
#[local] Hint Resolve returns_ret returns_raise returns_modify returns_bind
  returns_try_except returns_get returns_getitem returns_startswith
  returns_contains returns_parse_test_info : returns_db.
#[local] Hint Extern 2 (returns (if ?b then _ else _)) => destruct b : returns_db.

Lemma returns_update_system_state_body (a t : json) :
  returns (update_system_state_body a t).
Proof. unfold update_system_state_body. auto 12 with returns_db. Qed.

(** [update_system_state] lets no exception out and always returns. *)
Lemma update_system_state_total (a t : json) (s : SystemState) :
  exists s', update_system_state a t s = (Ok tt, s').
Proof.
  unfold update_system_state, try_except.
  pose proof (returns_update_system_state_body a t s) as R.
  destruct (update_system_state_body a t s) as [[[]|e|] s']; simpl in R;
    [eauto| |congruence].
  eexists. reflexivity.
Qed.

(** ** One poll *)

Lemma send_request_fetched (h : Handler) (method service endpoint : string)
  (params data headers : json) (w : World) :
  supported_method (PyStr.upper method) = true ->
  let m := PyStr.upper method in
  let url := request_url h service endpoint in
  let hd := if Py.truthy headers then headers else default_headers in
  send_request h method service endpoint params data headers w =
    (fetched (request_dict m url params data hd) (http w (n_http w)),
     after_exchange (Http m url params (sent_body m data) hd) w).
Proof.
  intros Hm. cbv zeta. rewrite send_request_eq. cbv zeta. rewrite Hm.
  unfold fetched. destruct (http w (n_http w)) as [r|e]; [reflexivity|].
  destruct (isinstance_RequestException e); reflexivity.
Qed.

Lemma fetched_not_out_of_fuel (request : gmap string json) (o : http_outcome) :
  fetched request o <> OutOfFuel.
Proof.
  destruct o as [r|e]; simpl; [discriminate|].
  destruct (isinstance_RequestException e); discriminate.
Qed.

(** Reading the payload out of a fetched result gives [polled_data]; the
    fetch raises exactly when there is no such payload. *)
Lemma fetched_cases (request : gmap string json) (o : http_outcome) :
  match polled_data o with
  | Some d =>
      exists res, fetched request o = Ok res
        /\ forall B (K : json -> M World B) (w : World),
             (let* r := Py.get res "response" (JDict ∅) in
              let* data := Py.get r "data" (JDict ∅) in K data) w = K d w
  | None => exists e, fetched request o = Raise e
  end.
Proof.
  destruct o as [r|e]; simpl.
  - eexists. split; [reflexivity|]. intros B K w.
    unfold bind at 1. rewrite make_result_response. unfold ret.
    unfold bind, Py.get. rewrite response_dict_data. reflexivity.
  - destruct (isinstance_RequestException e); [|eauto].
    eexists. split; [reflexivity|]. intros B K w.
    unfold bind at 1. rewrite make_result_response. unfold ret.
    unfold bind, Py.get.
    destruct (error_dict_lookup (transport_error_msg e)) as (_ & _ & ->).
    reflexivity.
Qed.

Lemma fetch_status_and_state_eq (h : Handler) (w : World) :
  api_handler w = Some h ->
  let w1 := after_exchange (status_request h) w in
  let w2 := after_exchange (state_request h) w1 in
  fetch_status_and_state w =
    match fetched (request_dict "GET" (request_url h "Results" "GetTestStatus")
                     JNull JNull default_headers) (http w (n_http w)) with
    | Ok res1 =>
        match fetched (request_dict "GET" (request_url h "App" "GetAppState")
                         JNull JNull default_headers) (http w (S (n_http w))) with
        | Ok res2 => (Ok (res1, res2), w2)
        | Raise e => (Raise e, w2)
        | OutOfFuel => (OutOfFuel, w2)
        end
    | Raise e => (Raise e, w1)
    | OutOfFuel => (OutOfFuel, w1)
    end.
Proof.
  intros Hh. cbv zeta.
  unfold fetch_status_and_state, get_test_status, get_app_state, the_api_handler.
  unfold bind at 1. rewrite Hh.
  unfold bind at 1. rewrite send_request_fetched by reflexivity.
  cbv zeta. change (PyStr.upper "GET") with "GET".
  change (sent_body "GET" JNull) with JNull.
  change (if Py.truthy JNull then JNull else default_headers) with default_headers.
  fold (status_request h).
  destruct (fetched _ (http w (n_http w))) as [res1|e|]; [|reflexivity|reflexivity].
  unfold bind at 1. cbn [api_handler after_exchange]. rewrite Hh.
  unfold bind at 1. rewrite send_request_fetched by reflexivity.
  cbv zeta. change (PyStr.upper "GET") with "GET".
  change (sent_body "GET" JNull) with JNull.
  change (if Py.truthy JNull then JNull else default_headers) with default_headers.
  fold (state_request h). cbn [n_http http after_exchange].
  destruct (fetched _ (http w (S (n_http w)))) as [res2|e|]; reflexivity.
Qed.

Lemma set_system_state_data_same (w : World) :
  set_system_state_data (system_state_data w) w = w.
Proof. destruct w; reflexivity. Qed.

Lemma set_system_state_data_twice (s1 s2 : SystemState) (w : World) :
  set_system_state_data s2 (set_system_state_data s1 w) = set_system_state_data s2 w.
Proof. reflexivity. Qed.

Lemma snapshot_only_ret {A} (a : A) : snapshot_only (ret a).
Proof.
  intros w. exists (Ok a), (system_state_data w).
  rewrite set_system_state_data_same. split; [reflexivity|discriminate].
Qed.

Lemma snapshot_only_raise {A} (e : exn) : snapshot_only (A:=A) (raise e).
Proof.
  intros w. exists (Raise e), (system_state_data w).
  rewrite set_system_state_data_same. split; [reflexivity|discriminate].
Qed.

Lemma snapshot_only_bind {A B} (m : M World A) (k : A -> M World B) :
  snapshot_only m -> (forall a, snapshot_only (k a)) -> snapshot_only (bind m k).
Proof.
  intros Hm Hk w. destruct (Hm w) as (r & s & E & Hr).
  unfold bind. rewrite E. destruct r as [a|e|]; [| |congruence].
  - destruct (Hk a (set_system_state_data s w)) as (r' & s' & E' & Hr').
    rewrite E', set_system_state_data_twice. eauto.
  - exists (Raise e), s. split; [reflexivity|discriminate].
Qed.

Lemma snapshot_only_get (v : json) (key : string) (d : json) :
  snapshot_only (Py.get v key d).
Proof. destruct v; first [apply snapshot_only_ret|apply snapshot_only_raise]. Qed.

Lemma snapshot_only_contains (needle : string) (v : json) :
  snapshot_only (Py.contains needle v).
Proof. destruct v; first [apply snapshot_only_ret|apply snapshot_only_raise]. Qed.

Lemma snapshot_only_update (a t : json) :
  snapshot_only
    (zoom system_state_data set_system_state_data (update_system_state a t)).
Proof.
  intros w. unfold zoom.
  destruct (update_system_state_total a t (system_state_data w)) as [s' E].
  rewrite E. exists (Ok tt), s'. split; [reflexivity|discriminate].
Qed.

Create HintDb snapshot_db.
#[local] Hint Resolve snapshot_only_ret snapshot_only_raise snapshot_only_bind
  snapshot_only_get snapshot_only_contains snapshot_only_update : snapshot_db.
#[local] Hint Extern 2 (snapshot_only (if ?b then _ else _)) => destruct b : snapshot_db.

Lemma snapshot_only_decide_running (test_status app_state : json) :
  snapshot_only (decide_running test_status app_state).
Proof. unfold decide_running. auto 12 with snapshot_db. Qed.

Lemma snapshot_only_running_from (res1 res2 : json) :
  snapshot_only (running_from res1 res2).
Proof.
  unfold running_from.
  auto 12 using snapshot_only_decide_running with snapshot_db.
Qed.

(** On two dictionaries that hold strings, the decision is the
    specification's predicate. *)
Lemma decide_running_strings (d1 d2 : gmap string json) (app status : string)
  (w : World) :
  default (JStr "") (d1 !! "Test Status") = JStr status ->
  default (JStr "") (d2 !! "appState") = JStr app ->
  exists s, decide_running (JDict d1) (JDict d2) w
            = (Ok (running_spec app status), set_system_state_data s w).
Proof.
  intros H1 H2. unfold decide_running.
  unfold bind at 1. unfold zoom.
  destruct (update_system_state_total (JDict d2) (JDict d1) (system_state_data w))
    as [s E].
  rewrite E. exists s.
  unfold Py.get. mstep. rewrite H1, H2.
  unfold running_spec, Py.eq_str, Py.contains. mstep.
  destruct (String.eqb app "READY"); [reflexivity|].
  destruct (PyStr.contains "Started" status), (String.eqb app "BUSY"); reflexivity.
Qed.

(** ** Worlds related by polling *)

Lemma polled_refl (h : Handler) (w : World) : polled h w w.
Proof. constructor; try reflexivity; lia. Qed.

Lemma polled_trans (h : Handler) (w1 w2 w3 : World) :
  polled h w1 w2 -> polled h w2 w3 -> polled h w1 w3.
Proof.
  intros [] []. constructor; try congruence; lia.
Qed.

Lemma polled_snapshot (h : Handler) (w : World) (s : SystemState) :
  polled h w (set_system_state_data s w).
Proof. constructor; try reflexivity; simpl; lia. Qed.

Lemma force_stop_count_app (h : Handler) (tr1 tr2 : list event) :
  force_stop_count h (tr1 ++ tr2)
  = (force_stop_count h tr1 + force_stop_count h tr2)%nat.
Proof. unfold force_stop_count. rewrite List.filter_app, length_app. reflexivity. Qed.

Lemma polled_exchange_get (h : Handler) (w : World) (url : string)
  (params data headers : json) :
  polled h w (after_exchange (Http "GET" url params data headers) w).
Proof.
  constructor; try reflexivity; simpl; try lia.
  rewrite force_stop_count_app.
  change (force_stop_count h [Http "GET" url params data headers]) with 0%nat.
  lia.
Qed.

(** [_is_test_running] always answers, and only polls. *)
Lemma is_test_running_polled (h : Handler) (w : World) :
  api_handler w = Some h ->
  exists b w', _is_test_running w = (Ok b, w') /\ polled h w w'.
Proof.
  intros Hh. unfold _is_test_running, try_except, _is_test_running_body.
  unfold bind at 1. rewrite (fetch_status_and_state_eq h w Hh). cbv zeta.
  set (w1 := after_exchange (status_request h) w).
  set (w2 := after_exchange (state_request h) w1).
  assert (P1 : polled h w w1) by apply polled_exchange_get.
  assert (P2 : polled h w w2).
  { eapply polled_trans; [exact P1|apply polled_exchange_get]. }
  destruct (fetched _ (http w (n_http w))) as [res1|e|] eqn:F1.
  - destruct (fetched _ (http w (S (n_http w)))) as [res2|e|] eqn:F2.
    + cbn [fst snd].
      destruct (snapshot_only_running_from res1 res2 w2) as (r & s & E & Hr).
      rewrite E.
      assert (P3 : polled h w (set_system_state_data s w2)).
      { eapply polled_trans; [exact P2|apply polled_snapshot]. }
      destruct r as [b|e|]; [eauto|eauto|congruence].
    + eauto.
    + exfalso. eapply fetched_not_out_of_fuel; eassumption.
  - eauto.
  - exfalso. eapply fetched_not_out_of_fuel; eassumption.
Qed.

(** A poll that delivers a pair of strings answers with the
    specification's predicate on that pair, after exactly two exchanges. *)
Lemma is_test_running_reports (h : Handler) (w : World) (app status : string) :
  api_handler w = Some h ->
  poll_reports w (n_http w) app status ->
  exists w', _is_test_running w = (Ok (running_spec app status), w')
    /\ polled h w w'
    /\ n_http w' = S (S (n_http w))
    /\ clock w' = clock w + Z.of_N (latency w (n_http w))
                  + Z.of_N (latency w (S (n_http w))).
Proof.
  intros Hh (d1 & d2 & D1 & D2 & H1 & H2).
  unfold _is_test_running, try_except, _is_test_running_body.
  unfold bind at 1. rewrite (fetch_status_and_state_eq h w Hh). cbv zeta.
  set (w1 := after_exchange (status_request h) w).
  set (w2 := after_exchange (state_request h) w1).
  assert (P2 : polled h w w2).
  { eapply polled_trans; apply polled_exchange_get. }
  pose proof (fetched_cases
                (request_dict "GET" (request_url h "Results" "GetTestStatus")
                   JNull JNull default_headers) (http w (n_http w))) as C1.
  rewrite D1 in C1. destruct C1 as (res1 & -> & R1).
  pose proof (fetched_cases
                (request_dict "GET" (request_url h "App" "GetAppState")
                   JNull JNull default_headers) (http w (S (n_http w)))) as C2.
  rewrite D2 in C2. destruct C2 as (res2 & -> & R2).
  cbn [fst snd]. unfold running_from. rewrite R1, R2.
  destruct (decide_running_strings d1 d2 app status w2 H1 H2) as [s ->].
  eexists. split; [reflexivity|]. split; [|split].
  - eapply polled_trans; [exact P2|apply polled_snapshot].
  - reflexivity.
  - reflexivity.
Qed.

(** ** The two loops of [submit_test_list] *)

Lemma monitor_until_done_S (fuel : nat) :
  monitor_until_done (S fuel) =
    (let* running := _is_test_running in
     let* go_on :=
       (if running
        then let* stop := read_stop_requested in ret (negb stop)
        else ret false) in
     if go_on then time_sleep 500 ;; monitor_until_done fuel
     else ret tt).
Proof. reflexivity. Qed.

Lemma wait_for_start_S (fuel : nat) (start_time : Z) :
  wait_for_start (S fuel) start_time =
    (let* now := time_time in
     let* go_on :=
       (if now - start_time <? start_timeout_ms
        then let* stop := read_stop_requested in ret (negb stop)
        else ret false) in
     if go_on then
       let* running := _is_test_running in
       if running then ret true
       else time_sleep 1000 ;; wait_for_start fuel start_time
     else ret false).
Proof. reflexivity. Qed.

Ltac wproj :=
  cbn [api_handler popup_thread_active stop_requested system_state_data http
       latency stop_after n_http clock trace set_stop_after set_stop_requested
       set_system_state_data set_popup_thread_active after_exchange] in *.

Lemma poll_reports_env (w w' : World) (k : nat) (app status : string) :
  http w' = http w -> poll_reports w k app status -> poll_reports w' k app status.
Proof. unfold poll_reports. intros ->. auto. Qed.

(** While the polls report a running test and no stop request lands, the
    monitor loop goes round: after [j] rounds it is where it was, [2 * j]
    exchanges later. *)
Lemma monitor_until_done_running (h : Handler) (j : nat) :
  forall (w : World) (fuel : nat),
    api_handler w = Some h ->
    stop_requested w = false ->
    (forall n, stop_after w = Some n -> (j <= n)%nat) ->
    (forall i, (i < j)%nat ->
       exists app status,
         poll_reports w (n_http w + 2 * i) app status
         /\ running_spec app status = true) ->
    exists w',
      monitor_until_done (j + fuel) w = monitor_until_done fuel w'
      /\ api_handler w' = Some h
      /\ stop_requested w' = false
      /\ stop_after w' = (fun n => (n - j)%nat) <$> stop_after w
      /\ http w' = http w
      /\ latency w' = latency w
      /\ n_http w' = (n_http w + 2 * j)%nat
      /\ clock w <= clock w'
      /\ force_stop_count h (trace w') = force_stop_count h (trace w).
Proof.
  induction j as [|j IH]; intros w fuel Hh Hs Ha Hp.
  - exists w. repeat split; try reflexivity; try assumption; try lia.
    + destruct (stop_after w); simpl; [f_equal; lia|reflexivity].
  - destruct (Hp 0%nat ltac:(lia)) as (app & status & R & Hrun).
    rewrite Nat.mul_0_r, Nat.add_0_r in R.
    destruct (is_test_running_reports h w app status Hh R)
      as (w1 & E1 & P1 & N1 & C1).
    rewrite Hrun in E1. destruct P1 as [Ph Pp Ps Pt Pl Pa Pn Pc Pf].
    change (S j + fuel)%nat with (S (j + fuel)).
    rewrite monitor_until_done_S. mstep. rewrite E1. cbv beta iota.
    unfold read_stop_requested.
    set (w1' := match stop_after w1 with
                | Some 0%nat => set_stop_after None (set_stop_requested true w1)
                | Some (S n) => set_stop_after (Some n) w1
                | None => w1
                end).
    assert (Hw1' : stop_requested w1' = false
                   /\ stop_after w1' = (fun n => (n - 1)%nat) <$> stop_after w
                   /\ api_handler w1' = Some h /\ http w1' = http w
                   /\ latency w1' = latency w /\ n_http w1' = n_http w1
                   /\ clock w1' = clock w1 /\ trace w1' = trace w1).
    { subst w1'. rewrite Pa.
      destruct (stop_after w) as [[|n]|] eqn:Hsa.
      - specialize (Ha 0%nat eq_refl). lia.
      - simpl. rewrite Nat.sub_0_r. repeat split; congruence.
      - simpl. repeat split; congruence. }
    destruct Hw1' as (S1 & A1 & H1 & T1 & L1 & NN1 & CC1 & TR1).
    rewrite S1. cbv beta iota. cbn [negb].
    unfold time_sleep.
    match goal with |- context [monitor_until_done (j + fuel) ?x] => set (w2 := x) end.
    destruct (IH w2 fuel) as (w' & E' & Hh' & Hs' & Ha' & Ht' & Hl' & Hn' & Hc' & Hf').
    + subst w2. wproj. exact H1.
    + subst w2. wproj. exact S1.
    + subst w2. wproj. rewrite A1. intros n Hn.
      destruct (stop_after w) as [m|] eqn:Hsa; [|discriminate].
      simpl in Hn. injection Hn as <-. specialize (Ha m eq_refl). lia.
    + intros i Hi. destruct (Hp (S i) ltac:(lia)) as (a' & s' & R' & Hrun').
      exists a', s'. split; [|exact Hrun'].
      apply (poll_reports_env w); [subst w2; wproj; exact T1|].
      subst w2. wproj. rewrite NN1, N1.
      replace (S (S (n_http w)) + 2 * i)%nat with (n_http w + 2 * S i)%nat by lia.
      exact R'.
    + exists w'. rewrite E'. split; [reflexivity|].
      subst w2. wproj.
      repeat split; try congruence.
      * rewrite Ha', A1. destruct (stop_after w); simpl; [f_equal; lia|reflexivity].
      * rewrite Hn', NN1, N1. lia.
      * lia.
      * rewrite Hf', TR1, force_stop_count_app.
        change (force_stop_count h [Sleep 500]) with 0%nat. lia.
Qed.

(** ** Reading the stop flag, cancelling *)

Lemma read_stop_idle (w : World) :
  stop_requested w = false -> stop_after w = None ->
  read_stop_requested w = (Ok false, w).
Proof. intros Hs Ha. unfold read_stop_requested. rewrite Ha, Hs. reflexivity. Qed.

(** Once the flag is set, or when the pending request lands now, the read
    gives [True] and the flag stays set. *)
Lemma read_stop_set (w : World) :
  stop_requested w = true \/ stop_after w = Some 0%nat ->
  exists w', read_stop_requested w = (Ok true, w')
    /\ stop_requested w' = true
    /\ api_handler w' = api_handler w
    /\ http w' = http w
    /\ n_http w' = n_http w
    /\ trace w' = trace w.
Proof.
  intros H. unfold read_stop_requested.
  destruct (stop_after w) as [[|n]|] eqn:Ha.
  - eexists. split; [reflexivity|]. repeat split.
  - destruct H as [H|H]; [|discriminate].
    eexists. wproj. rewrite H. split; [reflexivity|]. repeat split. exact H.
  - destruct H as [H|H]; [|discriminate].
    eexists. rewrite H. split; [reflexivity|]. repeat split. exact H.
Qed.

Lemma make_result_getitem (request response : gmap string json) :
  Py.getitem (S:=World) (make_result request response) "response"
  = ret (JDict response).
Proof.
  unfold Py.getitem, make_result.
  rewrite lookup_insert_ne by done. rewrite lookup_insert_eq. reflexivity.
Qed.

(** [_cancel_running_test] sends the force-stop request, once, and lets no
    exception out. *)
Lemma cancel_running_test_once (h : Handler) (w : World) :
  api_handler w = Some h ->
  exists b, _cancel_running_test w
            = (Ok b, after_exchange (force_stop_request h) w).
Proof.
  intros Hh. unfold _cancel_running_test, try_except, the_api_handler, post_force_stop.
  unfold bind at 1. rewrite Hh.
  unfold bind at 1. rewrite send_request_fetched by reflexivity.
  cbv zeta. change (PyStr.upper "POST") with "POST".
  change (sent_body "POST" JNull) with JNull.
  change (if Py.truthy JNull then JNull else default_headers) with default_headers.
  fold (force_stop_request h).
  destruct (http w (n_http w)) as [r|e]; cbn [fetched].
  - unfold bind at 1. rewrite make_result_getitem. unfold ret at 1.
    unfold bind, Py.get, ret.
    destruct (Py.truthy _); eauto.
  - destruct (isinstance_RequestException e); [|eauto].
    unfold bind at 1. rewrite make_result_getitem. unfold ret at 1.
    unfold bind, Py.get, ret.
    destruct (Py.truthy _); eauto.
Qed.

Lemma force_stop_count_request (h : Handler) :
  force_stop_count h [force_stop_request h] = 1%nat.
Proof.
  unfold force_stop_count, force_stop_request. simpl.
  rewrite String.eqb_refl. reflexivity.
Qed.

(** With the flag set, or the pending request landing at the next read,
    the running phase ends in a cancellation with one force-stop. *)
Lemma monitor_phase_stop_now (h : Handler) (w : World) (fuel : nat) :
  api_handler w = Some h ->
  stop_requested w = true \/ stop_after w = Some 0%nat ->
  exists w', monitor_phase (S fuel) w = (Ok result_cancelled, w')
    /\ api_handler w' = Some h
    /\ force_stop_count h (trace w') = S (force_stop_count h (trace w)).
Proof.
  intros Hh Hstop. unfold monitor_phase.
  unfold bind at 1. rewrite monitor_until_done_S.
  unfold bind at 1.
  destruct (is_test_running_polled h w Hh) as (b & w1 & E1 & P1).
  rewrite E1. destruct P1 as [Ph Pp Ps Pt Pl Pa Pn Pc Pf].
  assert (Hstop1 : stop_requested w1 = true \/ stop_after w1 = Some 0%nat).
  { rewrite Ps, Pa. exact Hstop. }
  assert (Hfin : forall w2,
             stop_requested w2 = true -> api_handler w2 = Some h ->
             force_stop_count h (trace w2) = force_stop_count h (trace w) ->
             exists w',
               (let* stop := read_stop_requested in
                if stop then _cancel_running_test ;; ret result_cancelled
                else ret result_completed) w2 = (Ok result_cancelled, w')
               /\ api_handler w' = Some h
               /\ force_stop_count h (trace w') = S (force_stop_count h (trace w))).
  { intros w2 Hs2 Hh2 Hf2.
    destruct (read_stop_set w2 (or_introl Hs2)) as (w3 & E3 & S3 & H3 & _ & _ & T3).
    unfold bind at 1. rewrite E3.
    destruct (cancel_running_test_once h w3) as [b' E4]; [congruence|].
    unfold bind at 1. rewrite E4. unfold ret.
    eexists. split; [reflexivity|]. wproj. split; [congruence|].
    rewrite force_stop_count_app, force_stop_count_request, T3, Hf2. lia. }
  destruct b.
  - destruct (read_stop_set w1 Hstop1) as (w2 & E2 & S2 & H2 & _ & _ & T2).
    unfold bind at 1. unfold bind at 1. rewrite E2. unfold ret at 1. cbn [negb].
    unfold ret at 1.
    apply Hfin; [exact S2|congruence|congruence].
  - unfold bind at 1. unfold ret at 1. unfold ret at 1.
    destruct Hstop1 as [S1|A1].
    + apply Hfin; [exact S1|congruence|exact Pf].
    + destruct (read_stop_set w1 (or_intror A1)) as (w3 & E3 & S3 & H3 & _ & _ & T3).
      unfold bind at 1. rewrite E3.
      destruct (cancel_running_test_once h w3) as [b' E4]; [congruence|].
      unfold bind at 1. rewrite E4. unfold ret.
      eexists. split; [reflexivity|]. wproj. split; [congruence|].
      rewrite force_stop_count_app, force_stop_count_request, T3, Pf. lia.
Qed.

(** A stop request that lands while the polls still report a running test
    cancels the run: one force-stop, and the cancellation result. *)
Lemma monitor_phase_cancelled (h : Handler) (w : World) (n fuel : nat) :
  api_handler w = Some h ->
  stop_requested w = false ->
  stop_after w = Some n ->
  (forall i, (i < n)%nat ->
     exists app status,
       poll_reports w (n_http w + 2 * i) app status
       /\ running_spec app status = true) ->
  (n < fuel)%nat ->
  exists w', monitor_phase fuel w = (Ok result_cancelled, w')
    /\ api_handler w' = Some h
    /\ force_stop_count h (trace w') = S (force_stop_count h (trace w)).
Proof.
  intros Hh Hs Ha Hp Hfuel.
  destruct (monitor_until_done_running h n w (fuel - n) Hh Hs) as
    (w1 & E1 & Hh1 & Hs1 & Ha1 & _ & _ & _ & _ & Hf1); [|exact Hp|].
  { intros m Hm. rewrite Ha in Hm. injection Hm as <-. lia. }
  replace (n + (fuel - n))%nat with fuel in E1 by lia.
  unfold monitor_phase. unfold bind at 1. rewrite E1.
  destruct (fuel - n)%nat as [|f] eqn:Hf; [lia|].
  destruct (monitor_phase_stop_now h w1 f Hh1) as (w' & E' & Hh' & Hf').
  { right. rewrite Ha1, Ha. simpl. f_equal. lia. }
  unfold monitor_phase in E'. unfold bind at 1 in E'.
  exists w'. split; [exact E'|]. split; [exact Hh'|]. rewrite Hf', Hf1. reflexivity.
Qed.

(** ** What [submit_test_list] sends before the running phase *)

Lemma quiet_refl (h : Handler) (w : World) : quiet h w w.
Proof. constructor; reflexivity. Qed.

Lemma quiet_trans (h : Handler) (w1 w2 w3 : World) :
  quiet h w1 w2 -> quiet h w2 w3 -> quiet h w1 w3.
Proof. intros [] []. constructor; congruence. Qed.

Lemma polled_quiet (h : Handler) (w w' : World) : polled h w w' -> quiet h w w'.
Proof. intros []. constructor; assumption. Qed.

Lemma quietly_pure {A} (h : Handler) (m : M World A) :
  (forall w, snd (m w) = w) -> quietly h m.
Proof.
  intros Hm w r w' _ E. specialize (Hm w). rewrite E in Hm. simpl in Hm. subst w'.
  apply quiet_refl.
Qed.

Lemma quietly_ret {A} (h : Handler) (a : A) : quietly h (ret a).
Proof. apply quietly_pure. reflexivity. Qed.

Lemma quietly_bind {A B} (h : Handler) (m : M World A) (k : A -> M World B) :
  quietly h m -> (forall a, quietly h (k a)) -> quietly h (bind m k).
Proof.
  intros Hm Hk w r w' Hh E. unfold bind in E.
  destruct (m w) as [[a|e|] w1] eqn:E1.
  - pose proof (Hm w _ _ Hh E1) as Q1.
    eapply quiet_trans; [exact Q1|]. eapply Hk; [|exact E].
    destruct Q1 as [-> _ _ _]. exact Hh.
  - injection E as <- <-. eapply Hm; [exact Hh|exact E1].
  - injection E as <- <-. eapply Hm; [exact Hh|exact E1].
Qed.

Lemma quietly_get (h : Handler) (v : json) (key : string) (d : json) :
  quietly h (Py.get v key d).
Proof. apply quietly_pure. destruct v; reflexivity. Qed.

Lemma quietly_getitem (h : Handler) (v : json) (key : string) :
  quietly h (Py.getitem v key).
Proof.
  apply quietly_pure. destruct v; try reflexivity.
  intros w. simpl. destruct (m !! key); reflexivity.
Qed.

Lemma quietly_time (h : Handler) : quietly h time_time.
Proof. apply quietly_pure. reflexivity. Qed.

Lemma quietly_read_stop (h : Handler) : quietly h read_stop_requested.
Proof.
  intros w r w' _ E. unfold read_stop_requested in E. injection E as _ <-.
  destruct (stop_after w) as [[|n]|]; constructor; reflexivity.
Qed.

Lemma quietly_sleep (h : Handler) (ms : Z) : quietly h (time_sleep ms).
Proof.
  intros w r w' _ E. unfold time_sleep in E. injection E as _ <-.
  constructor; try reflexivity. wproj.
  rewrite force_stop_count_app. change (force_stop_count h [Sleep ms]) with 0%nat. lia.
Qed.

Lemma quietly_is_test_running (h : Handler) : quietly h _is_test_running.
Proof.
  intros w r w' Hh E. destruct (is_test_running_polled h w Hh) as (b & w1 & E1 & P1).
  rewrite E1 in E. injection E as _ <-. apply polled_quiet. exact P1.
Qed.

Lemma append_cons (x : ascii) (a b : string) : String x a ++ b = String x (a ++ b).
Proof. reflexivity. Qed.

Lemma append_assoc (a b c : string) : (a ++ b) ++ c = a ++ (b ++ c).
Proof.
  induction a as [|x a IH]; [reflexivity|].
  rewrite !append_cons, IH. reflexivity.
Qed.

Lemma eqb_append_l (a b c : string) : String.eqb (a ++ b) (a ++ c) = String.eqb b c.
Proof.
  induction a as [|x a IH]; [reflexivity|].
  rewrite !append_cons. cbn [String.eqb]. rewrite Ascii.eqb_refl. exact IH.
Qed.

(** The submission is not a force-stop request. *)
Lemma submission_is_quiet (h : Handler) (w : World) (data headers : json) :
  quiet h w
    (after_exchange
       (Http "POST" (request_url h "TestConfiguration" "PostTestListToExecute/0/true")
          JNull data headers) w).
Proof.
  constructor; try reflexivity. wproj.
  rewrite force_stop_count_app.
  match goal with |- context [force_stop_count h [?e]] =>
    replace (force_stop_count h [e]) with 0%nat end; [lia|].
  unfold force_stop_count, is_force_stop, request_url. simpl.
  rewrite !append_assoc, eqb_append_l. reflexivity.
Qed.

Create HintDb quiet_db.
#[local] Hint Resolve quietly_ret quietly_bind quietly_get quietly_getitem
  quietly_time quietly_read_stop quietly_sleep quietly_is_test_running : quiet_db.
#[local] Hint Extern 2 (quietly _ (if ?b then _ else _)) => destruct b : quiet_db.

Lemma quietly_wait_for_start (h : Handler) (start_time : Z) (fuel : nat) :
  quietly h (wait_for_start fuel start_time).
Proof.
  induction fuel as [|fuel IH].
  - apply quietly_pure. reflexivity.
  - rewrite wait_for_start_S. auto 12 with quiet_db.
Qed.

Lemma quietly_post_test_list (h : Handler) (test_list : list string) :
  quietly h (post_test_list_to_execute h test_list).
Proof.
  intros w r w' _ E. unfold post_test_list_to_execute in E.
  rewrite send_request_fetched in E by reflexivity. injection E as _ <-.
  apply submission_is_quiet.
Qed.

Lemma quietly_submit_and_wait (h : Handler) (fuel : nat) (test_list : list string) :
  quietly h (submit_and_wait fuel test_list).
Proof.
  intros w r w' Hh. unfold submit_and_wait.
  unfold bind at 1, the_api_handler. rewrite Hh.
  revert w r w' Hh.
  apply quietly_bind; [apply quietly_post_test_list|intros result].
  auto 12 using quietly_wait_for_start with quiet_db.
Qed.

(** ** The running phase inside [submit_test_list] *)

Lemma start_popup_thread_ok (w : World) :
  start_popup_thread w = (Ok tt, snd (start_popup_thread w)).
Proof. reflexivity. Qed.

Lemma stop_popup_thread_ok (w : World) :
  stop_popup_thread w = (Ok tt, snd (stop_popup_thread w)).
Proof. reflexivity. Qed.

(** When the submission and the wait hand over to the running phase, the
    method returns what the running phase returns, after the [finally]. *)
Lemma submit_test_list_monitoring (h : Handler) (w w2 w3 : World)
  (test_list : list string) (fuel : nat) (res : json) :
  api_handler w = Some h ->
  test_list <> [] ->
  submit_and_wait fuel test_list (snd (start_popup_thread w)) = (Ok None, w2) ->
  monitor_phase fuel w2 = (Ok res, w3) ->
  submit_test_list fuel test_list w = (Ok res, snd (stop_popup_thread w3)).
Proof.
  intros Hh Hne E2 E3. unfold submit_test_list.
  unfold bind at 1, _check_api_handler. rewrite Hh.
  destruct test_list as [|t tl]; [congruence|].
  unfold bind at 1. rewrite start_popup_thread_ok.
  unfold try_finally, try_except, submit_test_list_body.
  unfold bind at 1. rewrite E2, E3.
  unfold bind. rewrite stop_popup_thread_ok. reflexivity.
Qed.

Lemma quiet_start_popup_thread (h : Handler) (w : World) :
  quiet h w (snd (start_popup_thread w)).
Proof.
  constructor; try reflexivity. simpl.
  rewrite force_stop_count_app. change (force_stop_count h [ThreadStart]) with 0%nat. lia.
Qed.

Lemma quiet_stop_popup_thread (h : Handler) (w : World) :
  quiet h w (snd (stop_popup_thread w)).
Proof.
  constructor; try reflexivity. simpl.
  rewrite force_stop_count_app.
  change (force_stop_count h [ThreadJoin 2000]) with 0%nat. lia.
Qed.

(** C6: when the run has reached its running phase and another thread
    sets the stop flag while the polls still report a running test (it
    lands at the [n]-th read of the flag in the monitor loop, [n] running
    polls later), [submit_test_list] sends the force-stop request exactly
    once and returns [{success: False, error: "Test cancelled by user"}]. *)
Theorem submit_test_list_cancelled (h : Handler) (w w2 : World)
  (test_list : list string) (fuel n : nat) :
  api_handler w = Some h ->
  test_list <> [] ->
  submit_and_wait fuel test_list (snd (start_popup_thread w)) = (Ok None, w2) ->
  stop_requested w2 = false ->
  stop_after w2 = Some n ->
  (forall i, (i < n)%nat ->
     exists app status,
       poll_reports w2 (n_http w2 + 2 * i) app status
       /\ running_spec app status = true) ->
  (n < fuel)%nat ->
  exists w',
    submit_test_list fuel test_list w = (Ok result_cancelled, w')
    /\ force_stop_count h (trace w') = S (force_stop_count h (trace w)).
Proof.
  intros Hh Hne E2 Hs Ha Hp Hfuel.
  pose proof (quiet_start_popup_thread h w) as Q0.
  assert (Hh0 : api_handler (snd (start_popup_thread w)) = Some h).
  { destruct Q0 as [-> _ _ _]. exact Hh. }
  pose proof (quietly_submit_and_wait h fuel test_list _ _ _ Hh0 E2) as Q2.
  assert (Hh2 : api_handler w2 = Some h).
  { destruct Q2 as [-> _ _ _]. exact Hh0. }
  destruct (monitor_phase_cancelled h w2 n fuel Hh2 Hs Ha Hp Hfuel)
    as (w3 & E3 & Hh3 & Hf3).
  eexists. split.
  - eapply submit_test_list_monitoring; eassumption.
  - destruct (quiet_stop_popup_thread h w3) as [_ _ _ ->].
    rewrite Hf3. destruct Q2 as [_ _ _ ->]. destruct Q0 as [_ _ _ ->]. reflexivity.
Qed.

Lemma submit_test_list_cancelled_witness :
  exists w',
    submit_test_list 5 ["TC1"] cancel_scenario = (Ok result_cancelled, w')
    /\ force_stop_count sample_handler (trace w')
       = S (force_stop_count sample_handler (trace cancel_scenario)).
Proof.
  apply (submit_test_list_cancelled sample_handler cancel_scenario
           (snd (submit_and_wait 5 ["TC1"] (snd (start_popup_thread cancel_scenario))))
           ["TC1"] 5 1).
  - reflexivity.
  - discriminate.
  - rewrite (surjective_pairing
               (submit_and_wait 5 ["TC1"] (snd (start_popup_thread cancel_scenario)))) at 1.
    f_equal; vm_compute; reflexivity.
  - vm_compute. reflexivity.
  - vm_compute. reflexivity.
  - intros i Hi. assert (i = 0%nat) as -> by lia.
    exists "BUSY", "Test:TC1:Started". split; [|reflexivity].
    exists (<["Test Status" := JStr "Test:TC1:Started"]> ∅),
           (<["appState" := JStr "BUSY"]> (<["connectionState" := JStr "CONNECTED"]> ∅)).
    repeat split.
  - lia.
Defined.

(** ** The wait for the start *)

(** While every poll reports a test that is not running and nobody asks
    for a stop, the wait loop ends with [test_started = False] once the
    bound has passed: [m] more rounds at most when [30 - m] seconds have
    gone by. *)
Lemma wait_for_start_never_running (h : Handler) (start_time : Z) (m : nat) :
  forall (w : World) (fuel : nat),
    api_handler w = Some h ->
    stop_requested w = false ->
    stop_after w = None ->
    (m < fuel)%nat ->
    start_time + start_timeout_ms - 1000 * Z.of_nat m <= clock w ->
    (forall i, (i < m)%nat ->
       exists app status,
         poll_reports w (n_http w + 2 * i) app status
         /\ running_spec app status = false) ->
    exists w',
      wait_for_start fuel start_time w = (Ok false, w')
      /\ stop_requested w' = false
      /\ stop_after w' = None.
Proof.
  induction m as [|m IH]; intros w fuel Hh Hs Ha Hfuel Hc Hp;
    (destruct fuel as [|fuel]; [lia|]);
    rewrite wait_for_start_S; unfold bind at 1, time_time; unfold bind at 1.
  - assert ((clock w - start_time <? start_timeout_ms) = false) as ->
      by (apply Z.ltb_ge; lia).
    unfold ret. eauto.
  - destruct (clock w - start_time <? start_timeout_ms); [|unfold ret; eauto].
    unfold bind at 1. rewrite (read_stop_idle w Hs Ha). unfold ret at 1.
    cbn [negb]. unfold bind at 1.
    destruct (Hp 0%nat ltac:(lia)) as (app & status & R & Hrun).
    rewrite Nat.mul_0_r, Nat.add_0_r in R.
    destruct (is_test_running_reports h w app status Hh R)
      as (w1 & E1 & P1 & N1 & C1).
    rewrite Hrun in E1. rewrite E1.
    destruct P1 as [Ph Pp Ps Pt Pl Pa Pn Pc Pf].
    unfold bind at 1, time_sleep.
    apply IH; wproj.
    + congruence.
    + congruence.
    + congruence.
    + lia.
    + lia.
    + intros i Hi. destruct (Hp (S i) ltac:(lia)) as (a' & s' & R' & Hrun').
      exists a', s'. split; [|exact Hrun'].
      apply (poll_reports_env w); [exact Pt|].
      rewrite N1.
      replace (S (S (n_http w)) + 2 * i)%nat with (n_http w + 2 * S i)%nat by lia.
      exact R'.
Qed.

(** An accepted submission followed by thirty idle polls: the wait gives
    up and reports the warning. *)
Lemma submit_and_wait_not_started (h : Handler) (w : World)
  (test_list : list string) (fuel : nat) (r : Response) :
  api_handler w = Some h ->
  stop_requested w = false ->
  stop_after w = None ->
  http w (n_http w) = Responds r ->
  200 <= status_code r < 300 ->
  (forall i, (i < 30)%nat ->
     exists app status,
       poll_reports w (S (n_http w) + 2 * i) app status
       /\ running_spec app status = false) ->
  (30 < fuel)%nat ->
  exists w', submit_and_wait fuel test_list w = (Ok (Some result_not_started), w').
Proof.
  intros Hh Hs Ha Hr Hcode Hp Hfuel. unfold submit_and_wait.
  unfold bind at 1, the_api_handler. rewrite Hh.
  unfold bind at 1, post_test_list_to_execute.
  rewrite send_request_fetched by reflexivity. cbv zeta.
  rewrite Hr. cbn [fetched].
  unfold bind at 1. rewrite make_result_getitem. unfold ret at 1.
  unfold bind at 1, Py.get. rewrite response_dict_success. unfold ret at 1.
  assert ((200 <=? status_code r) && (status_code r <? 300) = true) as ->.
  { apply andb_true_iff. split; [apply Z.leb_le|apply Z.ltb_lt]; lia. }
  cbn [default from_option id Py.truthy negb].
  unfold bind at 1, time_time.
  match goal with |- context [after_exchange ?e w] =>
    set (w1 := after_exchange e w) end.
  cbv beta iota.
  destruct (wait_for_start_never_running h (clock w1) 30 w1 fuel)
    as (w2 & E2 & S2 & A2).
  - exact Hh.
  - exact Hs.
  - exact Ha.
  - exact Hfuel.
  - unfold start_timeout_ms. lia.
  - intros i Hi. destruct (Hp i Hi) as (a' & s' & R' & Hrun').
    exists a', s'. split; [exact R'|exact Hrun'].
  - unfold bind at 1. rewrite E2. cbn [negb].
    unfold bind at 1. unfold bind at 1. rewrite (read_stop_idle w2 S2 A2).
    unfold ret. cbn [negb]. eauto.
Qed.

(** C7: when the submission is accepted, nobody asks for a stop, and the
    polls of the thirty seconds after it never report a running test,
    [submit_test_list] returns [success = True] with the warning that the
    test did not start within the timeout, and sends no force-stop. *)
Theorem submit_test_list_not_started (h : Handler) (w : World)
  (test_list : list string) (fuel : nat) (r : Response) :
  api_handler w = Some h ->
  test_list <> [] ->
  stop_after w = None ->
  http w (n_http w) = Responds r ->
  200 <= status_code r < 300 ->
  (forall i, (i < 30)%nat ->
     exists app status,
       poll_reports w (S (n_http w) + 2 * i) app status
       /\ running_spec app status = false) ->
  (30 < fuel)%nat ->
  fst (submit_test_list fuel test_list w) = Ok result_not_started
  /\ force_stop_count h (trace (snd (submit_test_list fuel test_list w)))
     = force_stop_count h (trace w).
Proof.
  intros Hh Hne Ha Hr Hcode Hp Hfuel.
  pose proof (quiet_start_popup_thread h w) as Q0.
  set (w0 := snd (start_popup_thread w)) in *.
  assert (Hh0 : api_handler w0 = Some h) by (destruct Q0 as [-> _ _ _]; exact Hh).
  destruct (submit_and_wait_not_started h w0 test_list fuel r Hh0) as [w2 E2];
    try assumption; try reflexivity.
  pose proof (quietly_submit_and_wait h fuel test_list _ _ _ Hh0 E2) as Q2.
  assert (E : submit_test_list fuel test_list w
              = (Ok result_not_started, snd (stop_popup_thread w2))).
  { unfold submit_test_list.
    unfold bind at 1, _check_api_handler. rewrite Hh.
    destruct test_list as [|t tl]; [congruence|].
    unfold bind at 1. rewrite start_popup_thread_ok. fold w0.
    unfold try_finally, try_except, submit_test_list_body.
    unfold bind at 1. rewrite E2.
    unfold ret at 1. unfold bind. rewrite stop_popup_thread_ok. reflexivity. }
  rewrite E. cbn [fst snd]. split; [reflexivity|].
  destruct (quiet_stop_popup_thread h w2) as [_ _ _ ->].
  destruct Q2 as [_ _ _ ->]. destruct Q0 as [_ _ _ ->]. reflexivity.
Qed.

Lemma idle_scenario_polls (i : nat) :
  poll_reports idle_scenario (S (n_http idle_scenario) + 2 * i) "IDLE" "".
Proof.
  exists (<["Test Status" := JStr ""]> ∅),
         (<["appState" := JStr "IDLE"]> (<["connectionState" := JStr "CONNECTED"]> ∅)).
  change (S (n_http idle_scenario) + 2 * i)%nat with (S (2 * i)).
  unfold idle_scenario. cbn [http].
  assert (Nat.even (2 * i) = true) as E0.
  { rewrite Nat.even_mul. reflexivity. }
  assert (Nat.even (S (2 * i)) = false) as E1.
  { rewrite Nat.even_succ, <- Nat.negb_even, E0. reflexivity. }
  rewrite E0. change (S (S (2 * i))) with (S (S (2 * i))). rewrite E1.
  repeat split.
Qed.

Lemma submit_test_list_not_started_witness :
  fst (submit_test_list 31 ["TC1"] idle_scenario) = Ok result_not_started
  /\ force_stop_count sample_handler
       (trace (snd (submit_test_list 31 ["TC1"] idle_scenario)))
     = force_stop_count sample_handler (trace idle_scenario).
Proof.
  apply (submit_test_list_not_started sample_handler idle_scenario ["TC1"] 31
           (json_response 200 (JBool true))).
  - reflexivity.
  - discriminate.
  - reflexivity.
  - reflexivity.
  - simpl. lia.
  - intros i _. exists "IDLE", "". split; [apply idle_scenario_polls|reflexivity].
  - lia.
Defined.

(** ** The running predicate *)

(** C1: for every pair of application state and test status that a poll
    delivers, [_is_test_running] answers with the specification's
    predicate: not running when the state is ["READY"] whatever the status
    says, running when it is ["BUSY"], running when the status contains
    ["Started"] and the state is anything but ["READY"], and not running
    for every other pair. *)
Theorem is_test_running_matches_spec (h : Handler) (w : World) (app status : string) :
  api_handler w = Some h ->
  poll_reports w (n_http w) app status ->
  fst (_is_test_running w) = Ok (running_spec app status)
  /\ (app = "READY" -> running_spec app status = false)
  /\ (app = "BUSY" -> running_spec app status = true)
  /\ (app <> "READY" -> PyStr.contains "Started" status = true ->
      running_spec app status = true)
  /\ (app <> "READY" -> app <> "BUSY" -> PyStr.contains "Started" status = false ->
      running_spec app status = false).
Proof.
  intros Hh R.
  destruct (is_test_running_reports h w app status Hh R) as (w' & E & _).
  rewrite E. split; [reflexivity|]. unfold running_spec.
  repeat split.
  - intros ->. reflexivity.
  - intros ->. reflexivity.
  - intros Hr Hc. rewrite Hc.
    destruct (String.eqb_spec app "READY"); [contradiction|].
    destruct (String.eqb app "BUSY"); reflexivity.
  - intros Hr Hb Hc. rewrite Hc.
    destruct (String.eqb_spec app "READY"); [contradiction|].
    destruct (String.eqb_spec app "BUSY"); [contradiction|reflexivity].
Qed.

Lemma is_test_running_matches_spec_witness :
  fst (_is_test_running (sample_world (poll_answers "Test:X:Started" "READY") None))
  = Ok false.
Proof.
  refine (proj1 (is_test_running_matches_spec sample_handler
                   (sample_world (poll_answers "Test:X:Started" "READY") None)
                   "READY" "Test:X:Started" _ _)).
  - reflexivity.
  - exists (<["Test Status" := JStr "Test:X:Started"]> ∅),
           (<["appState" := JStr "READY"]> (<["connectionState" := JStr "CONNECTED"]> ∅)).
    repeat split.
Defined.

(** ** The end of a run *)

(** When, after [j] polls that report a running test, a poll reports a
    test that is not running and nobody asked for a stop, the running
    phase ends with [{success: True}] and without a force-stop. *)
Lemma monitor_phase_completed (h : Handler) (w : World) (j fuel : nat)
  (app status : string) :
  api_handler w = Some h ->
  stop_requested w = false ->
  stop_after w = None ->
  (forall i, (i < j)%nat ->
     exists app status,
       poll_reports w (n_http w + 2 * i) app status
       /\ running_spec app status = true) ->
  poll_reports w (n_http w + 2 * j) app status ->
  running_spec app status = false ->
  (j < fuel)%nat ->
  exists w', monitor_phase fuel w = (Ok result_completed, w')
    /\ force_stop_count h (trace w') = force_stop_count h (trace w).
Proof.
  intros Hh Hs Ha Hp Hlast Hnot Hfuel.
  destruct (monitor_until_done_running h j w (fuel - j) Hh Hs) as
    (w1 & E1 & Hh1 & Hs1 & Ha1 & Ht1 & _ & Hn1 & _ & Hf1); [|exact Hp|].
  { intros m Hm. rewrite Ha in Hm. discriminate Hm. }
  replace (j + (fuel - j))%nat with fuel in E1 by lia.
  rewrite Ha in Ha1. simpl in Ha1.
  unfold monitor_phase. unfold bind at 1. rewrite E1.
  destruct (fuel - j)%nat as [|f] eqn:Hf; [lia|].
  rewrite monitor_until_done_S. unfold bind at 1.
  assert (R1 : poll_reports w1 (n_http w1) app status).
  { apply (poll_reports_env w); [exact Ht1|]. rewrite Hn1. exact Hlast. }
  destruct (is_test_running_reports h w1 app status Hh1 R1) as (w2 & E2 & P2 & _).
  rewrite Hnot in E2. rewrite E2.
  destruct P2 as [Ph Pp Ps Pt Pl Pa Pn Pc Pf].
  unfold bind at 1. unfold ret at 1. unfold ret at 1.
  unfold bind at 1. rewrite read_stop_idle by congruence.
  unfold ret. eexists. split; [reflexivity|]. congruence.
Qed.

(** C9 (as amended): an exception inside [_is_test_running] makes it
    answer [False]; a poll both of whose fetches fail at the transport
    level answers [False] as well (without any exception: each failure has
    become a result without payload), so that such a poll during the
    running phase, with no stop requested, ends the monitor loop and
    [submit_test_list] reports [{success: True}] as if the run were
    complete. *)
Theorem submit_test_list_transport_failure (h : Handler) (w w2 : World)
  (test_list : list string) (fuel j : nat) (e1 e2 : exn) :
  api_handler w = Some h ->
  test_list <> [] ->
  submit_and_wait fuel test_list (snd (start_popup_thread w)) = (Ok None, w2) ->
  stop_requested w2 = false ->
  stop_after w2 = None ->
  (forall i, (i < j)%nat ->
     exists app status,
       poll_reports w2 (n_http w2 + 2 * i) app status
       /\ running_spec app status = true) ->
  http w2 (n_http w2 + 2 * j) = Fails e1 ->
  http w2 (S (n_http w2 + 2 * j)) = Fails e2 ->
  isinstance_RequestException e1 = true ->
  isinstance_RequestException e2 = true ->
  (j < fuel)%nat ->
  (forall w0 e w0',
     _is_test_running_body w0 = (Raise e, w0') ->
     _is_test_running w0 = (Ok false, w0'))
  /\ fst (submit_test_list fuel test_list w) = Ok result_completed.
Proof.
  intros Hh Hne E2 Hs Ha Hp H1 H2 He1 He2 Hfuel. split.
  - intros w0 e w0' E. unfold _is_test_running, try_except. rewrite E. reflexivity.
  - pose proof (quiet_start_popup_thread h w) as Q0.
    assert (Hh0 : api_handler (snd (start_popup_thread w)) = Some h).
    { destruct Q0 as [-> _ _ _]. exact Hh. }
    pose proof (quietly_submit_and_wait h fuel test_list _ _ _ Hh0 E2) as Q2.
    assert (Hh2 : api_handler w2 = Some h).
    { destruct Q2 as [-> _ _ _]. exact Hh0. }
    destruct (monitor_phase_completed h w2 j fuel "" "" Hh2 Hs Ha Hp)
      as (w3 & E3 & _); [|reflexivity|exact Hfuel|].
    + exists ∅, ∅. rewrite H1, H2. simpl. rewrite He1, He2. repeat split.
    + rewrite (submit_test_list_monitoring h w w2 w3 test_list fuel result_completed);
        [reflexivity|assumption..].
Qed.

Lemma submit_test_list_transport_failure_witness :
  (forall w0 e w0',
     _is_test_running_body w0 = (Raise e, w0') ->
     _is_test_running w0 = (Ok false, w0'))
  /\ fst (submit_test_list 5 ["TC1"] lost_connection_scenario) = Ok result_completed.
Proof.
  apply (submit_test_list_transport_failure sample_handler lost_connection_scenario
           (snd (submit_and_wait 5 ["TC1"]
                   (snd (start_popup_thread lost_connection_scenario))))
           ["TC1"] 5 1
           (ConnectionError "connection refused") (ConnectionError "connection refused")).
  - reflexivity.
  - discriminate.
  - rewrite (surjective_pairing
               (submit_and_wait 5 ["TC1"]
                  (snd (start_popup_thread lost_connection_scenario)))) at 1.
    f_equal; vm_compute; reflexivity.
  - vm_compute. reflexivity.
  - vm_compute. reflexivity.
  - intros i Hi. assert (i = 0%nat) as -> by lia.
    exists "BUSY", "Test:TC1:Started". split; [|reflexivity].
    exists (<["Test Status" := JStr "Test:TC1:Started"]> ∅),
           (<["appState" := JStr "BUSY"]> (<["connectionState" := JStr "CONNECTED"]> ∅)).
    repeat split.
  - vm_compute. reflexivity.
  - vm_compute. reflexivity.
  - reflexivity.
  - reflexivity.
  - lia.
Defined.

(** C9, the claim as worded fails: when only the status fetch fails at the
    transport level and the application state still says [BUSY], the poll
    answers [True], and the monitor loop goes on. *)
Lemma status_fetch_failure_still_running :
  http status_timeout_scenario 0%nat = Fails (Timeout "read timed out")
  /\ fst (_is_test_running status_timeout_scenario) = Ok true
  /\ fst (monitor_until_done 1 status_timeout_scenario) = OutOfFuel.
Proof.
  split; [reflexivity|]. split; vm_compute; reflexivity.
Qed.

(** X10: on an idle system [stop_test_execution] answers [False], leaves
    the flag alone and sends no force-stop. *)
Lemma stop_test_execution_idle (h : Handler) (w : World) (app status : string) :
  api_handler w = Some h ->
  poll_reports w (n_http w) app status ->
  running_spec app status = false ->
  exists w', stop_test_execution w = (Ok false, w')
    /\ stop_requested w' = stop_requested w
    /\ force_stop_count h (trace w') = force_stop_count h (trace w).
Proof.
  intros Hh R Hnot.
  destruct (is_test_running_reports h w app status Hh R) as (w' & E & P & _).
  rewrite Hnot in E. unfold stop_test_execution, bind. rewrite E. cbn [negb].
  destruct P as [Ph Pp Ps Pt Pl Pa Pn Pc Pf].
  exists w'. unfold ret. auto.
Qed.

(** ** The empty test list *)

(** C10 (as amended): with an empty test list, a launched client returns
    [{success: False, error: "Empty test list provided"}] and does nothing
    else (no request, no thread, no flag touched); before [launch_app] the
    handler check comes first and raises. *)
Theorem submit_test_list_empty (w : World) (fuel : nat) :
  submit_test_list fuel [] w =
    match api_handler w with
    | Some _ => (Ok result_empty_list, w)
    | None =>
        (Raise (Exception "API handler not initialized. Please call launch_app() first."),
         w)
    end.
Proof.
  unfold submit_test_list, bind, _check_api_handler.
  destruct (api_handler w); reflexivity.
Qed.

(** C10, the claim as worded fails: before [launch_app] the call with an
    empty list raises instead of returning the error result. *)
Lemma submit_test_list_empty_unlaunched :
  fst (submit_test_list 1 [] unlaunched_world)
  = Raise (Exception "API handler not initialized. Please call launch_app() first.")
  /\ fst (submit_test_list 1 [] unlaunched_world) <> Ok result_empty_list.
Proof.
  split; [reflexivity|discriminate].
Qed.

(** ** The pop-up log files *)

(** What [create_empty_json] leaves behind, by which of the two files can
    be opened: the same document, [[]], goes into both. *)
Lemma create_empty_json_eq (fs : FileSystem) :
  create_empty_json fs =
    (Ok tt,
     if unwritable fs popup_json_file_name then fs
     else if unwritable fs test_cases_popup_json_file_name
          then mkFileSystem (<[popup_json_file_name := JList []]> (files fs)) (unwritable fs)
          else mkFileSystem
                 (<[test_cases_popup_json_file_name := JList []]>
                    (<[popup_json_file_name := JList []]> (files fs)))
                 (unwritable fs)).
Proof.
  unfold create_empty_json, try_except, bind, json_dump_to. cbn [unwritable files].
  destruct (unwritable fs popup_json_file_name); [reflexivity|].
  cbn [unwritable files].
  destruct (unwritable fs test_cases_popup_json_file_name); reflexivity.
Qed.

(** C5, what the code does at a fresh start: [create_empty_json] resets
    the flat pop-up log to the JSON array [[]], as claimed, but it writes
    [[]] into the per-test-case log as well, where the claim (and the
    reader of that file, which keeps nothing but an object) expects the
    JSON object [{}]. *)
Theorem create_empty_json_writes_two_arrays :
  files (snd (create_empty_json empty_directory)) !! popup_json_file_name
  = Some (JList [])
  /\ files (snd (create_empty_json empty_directory)) !! test_cases_popup_json_file_name
     = Some (JList [])
  /\ files (snd (create_empty_json empty_directory)) !! test_cases_popup_json_file_name
     <> Some (JDict ∅).
Proof.
  rewrite create_empty_json_eq. cbn [snd unwritable empty_directory files].
  split; [|split].
  - rewrite lookup_insert_ne by done. apply lookup_insert_eq.
  - apply lookup_insert_eq.
  - rewrite lookup_insert_eq. discriminate.
Qed.

(** ** The launcher *)

Lemma probe_each_first_answer (timeout_s : Z) (paths : list string) :
  forall (c : Controller) (i : nat) (r : Response),
    (i < length paths)%nat ->
    (forall k, (k < i)%nat ->
       exists e, probe (env c) (n_get c + k) = Fails e
                 /\ isinstance_RequestException e = true) ->
    probe (env c) (n_get c + i) = Responds r ->
    exists c',
      probe_each timeout_s paths c = (Ok true, c')
      /\ process c' = process c
      /\ web_url c' = web_url c
      /\ done c' = (done c
           ++ ((fun endpoint => Get (probe_url c endpoint) timeout_s)
                 <$> take (S i) paths))%list.
Proof.
  induction paths as [|endpoint rest IH]; intros c i r Hi Hfail Hans;
    [simpl in Hi; lia|].
  cbn [probe_each]. unfold bind at 1, get_state.
  unfold bind at 1, try_except. unfold bind at 1, requests_get.
  destruct i as [|i].
  - rewrite Nat.add_0_r in Hans. rewrite Hans.
    unfold ret. eexists. split; [reflexivity|]. repeat split.
  - destruct (Hfail 0%nat ltac:(lia)) as (e & He & Hreq).
    rewrite Nat.add_0_r in He. rewrite He, Hreq. unfold ret at 1.
    match goal with |- context [probe_each timeout_s rest ?x] => set (c1 := x) end.
    destruct (IH c1 i r) as (c' & E' & Hp' & Hu' & Hd').
    + simpl in Hi. lia.
    + intros k Hk. destruct (Hfail (S k) ltac:(lia)) as (e' & He' & Hreq').
      exists e'. split; [|exact Hreq'].
      subst c1. cbn [env n_get]. rewrite <- He'. f_equal. lia.
    + subst c1. cbn [env n_get]. rewrite <- Hans. f_equal. lia.
    + exists c'. split; [exact E'|]. split; [exact Hp'|]. split; [exact Hu'|].
      rewrite Hd'. subst c1. cbn [done]. rewrite <- app_assoc. reflexivity.
Qed.

Lemma probes_start_no_process (url : string) (timeout_s : Z) (paths : list string) :
  List.filter is_popen ((fun endpoint => Get (url ++ endpoint) timeout_s) <$> paths) = [].
Proof.
  induction paths as [|x l IHl]; [reflexivity|].
  cbn [fmap list_fmap List.filter is_popen]. exact IHl.
Qed.

(** C8: when the known port has a live listener and one of the probe
    paths [/api/healthcheck], [/], [/api/status] answers a GET (the
    earlier ones, tried in this order with a two-second timeout, having
    failed), [start_and_get_url] returns the controller's
    [http://localhost:{port}] at once: the first path to answer is the
    last one tried, and no subprocess is started. *)
Theorem start_and_get_url_already_running (c : Controller) (port initial_wait : Z)
  (i : nat) (r : Response) :
  known_port c = Some port ->
  port <> 0 ->
  0 <= port <= 65535 ->
  web_url c = Some ("http://localhost:" ++ PyStr.of_Z port) ->
  port_taken (env c) (n_bind c) = true ->
  (i < 3)%nat ->
  (forall k, (k < i)%nat ->
     exists e, probe (env c) (n_get c + k) = Fails e
               /\ isinstance_RequestException e = true) ->
  probe (env c) (n_get c + i) = Responds r ->
  exists c',
    start_and_get_url initial_wait c
    = (Ok (Some ("http://localhost:" ++ PyStr.of_Z port)), c')
    /\ process c' = process c
    /\ done c' = (done c
         ++ Bind port :: probes_up_to ("http://localhost:" ++ PyStr.of_Z port)%string i)%list
    /\ List.filter is_popen (done c') = List.filter is_popen (done c).
Proof.
  intros Hport Hnz Hrange Hurl Htaken Hi Hfail Hans.
  unfold start_and_get_url, _check_application_running.
  unfold bind at 1. unfold bind at 1, get_state. rewrite Hport.
  assert (negb (port =? 0) = true) as ->.
  { apply negb_true_iff, Z.eqb_neq. exact Hnz. }
  unfold bind at 1, _check_port_in_use.
  assert ((0 <=? port) && (port <=? 65535) = true) as ->.
  { apply andb_true_iff. split; apply Z.leb_le; lia. }
  rewrite Htaken. cbn [negb].
  match goal with |- context [probe_each 2 endpoints ?x] => set (c1 := x) end.
  destruct (probe_each_first_answer 2 endpoints c1 i r) as (c' & E' & Hp' & Hu' & Hd').
  - exact Hi.
  - exact Hfail.
  - exact Hans.
  - rewrite E'. unfold bind, get_state, ret. rewrite Hu'.
    subst c1. cbn [web_url process done] in *. rewrite Hurl.
    exists c'. split; [reflexivity|]. split; [exact Hp'|].
    assert (Hd : done c' = (done c
              ++ Bind port :: probes_up_to ("http://localhost:" ++ PyStr.of_Z port)%string i)%list).
    { rewrite Hd'. rewrite <- app_assoc. unfold probe_url. cbn [web_url].
      rewrite Hurl. reflexivity. }
    split; [exact Hd|].
    rewrite Hd, List.filter_app.
    assert (List.filter is_popen
              (Bind port :: probes_up_to ("http://localhost:" ++ PyStr.of_Z port) i) = [])
      as ->.
    { unfold probes_up_to. cbn [List.filter is_popen].
      apply probes_start_no_process. }
    rewrite app_nil_r. reflexivity.
Qed.

Lemma start_and_get_url_already_running_witness :
  exists c',
    start_and_get_url 10 (new_controller "C:/GRL/app.exe" (Some 5000) 3 30 listening_env)
    = (Ok (Some ("http://localhost:" ++ PyStr.of_Z 5000)), c')
    /\ process c' = None
    /\ done c' = ([] ++ Bind 5000 :: probes_up_to ("http://localhost:" ++ PyStr.of_Z 5000)%string 1)%list
    /\ List.filter is_popen (done c') = List.filter is_popen [].
Proof.
  apply (start_and_get_url_already_running
           (new_controller "C:/GRL/app.exe" (Some 5000) 3 30 listening_env)
           5000 10 1 (mkResponse 404 ∅ "text/html" None "Not Found")).
  - reflexivity.
  - discriminate.
  - lia.
  - reflexivity.
  - reflexivity.
  - lia.
  - intros k Hk. assert (k = 0%nat) as -> by lia.
    exists (Timeout "read timed out"). split; reflexivity.
  - reflexivity.
Defined.

(* ===================================================================== *)
(** * Further properties of the modelled code *)
(* ===================================================================== *)

(** ** [send_request] *)

(** X1: when the server answers a request of a supported method, the
    result carries the status code, [success] exactly for a 2xx status,
    the decoded body as [data] (the raw text when the body is no JSON),
    [content_type] reduced to ["json"] or ["text"] whatever the header
    said, and no ["error"] entry. *)
Theorem send_request_response_fields
  (h : Handler) (method service endpoint : string)
  (params data hdrs : json) (w : World) (r : Response) :
  supported_method (PyStr.upper method) = true ->
  http w (n_http w) = Responds r ->
  exists request response : gmap string json,
    fst (send_request h method service endpoint params data hdrs w)
    = Ok (make_result request response)
    /\ response !! "status_code" = Some (JNum (status_code r))
    /\ response !! "success"
       = Some (JBool ((200 <=? status_code r) && (status_code r <? 300)))
    /\ response !! "data"
       = Some (match json_body r with Some j => j | None => JStr (text r) end)
    /\ response !! "content_type"
       = Some (JStr (match json_body r with Some _ => "json" | None => "text" end))
    /\ response !! "headers" = Some (JDict (JStr <$> headers r))
    /\ response !! "error" = None.
Proof.
  intros Hm Hr. rewrite send_request_fetched by exact Hm. cbv zeta.
  rewrite Hr. cbn [fst fetched]. do 2 eexists. split; [reflexivity|].
  split; [|split; [apply response_dict_success|split; [apply response_dict_data|]]].
  - unfold response_dict. destruct (json_body r);
      do 2 (rewrite lookup_insert_ne by done); apply lookup_insert_eq.
  - unfold response_dict. destruct (json_body r).
    + split; [apply lookup_insert_eq|].
      split; [do 4 (rewrite lookup_insert_ne by done); apply lookup_insert_eq|].
      do 6 (rewrite lookup_insert_ne by done). apply lookup_empty.
    + split; [apply lookup_insert_eq|].
      split; [do 4 (rewrite lookup_insert_ne by done); apply lookup_insert_eq|].
      do 6 (rewrite lookup_insert_ne by done). apply lookup_empty.
Qed.

Lemma send_request_response_fields_witness :
  exists request response : gmap string json,
    fst (send_request sample_handler "get" "App" "GetSoftwareVersion" JNull JNull JNull
           (sample_world
              [Responds (mkResponse 404 ∅ "text/html; charset=utf-8" None "Not Found")]
              None))
    = Ok (make_result request response)
    /\ response !! "status_code" = Some (JNum 404)
    /\ response !! "success" = Some (JBool false)
    /\ response !! "data" = Some (JStr "Not Found")
    /\ response !! "content_type" = Some (JStr "text")
    /\ response !! "headers" = Some (JDict ∅)
    /\ response !! "error" = None.
Proof.
  exact (send_request_response_fields sample_handler "get" "App" "GetSoftwareVersion"
           JNull JNull JNull
           (sample_world
              [Responds (mkResponse 404 ∅ "text/html; charset=utf-8" None "Not Found")]
              None)
           (mkResponse 404 ∅ "text/html; charset=utf-8" None "Not Found")
           eq_refl eq_refl).
Defined.



(** X3: for a supported method exactly one request goes out, whatever
    becomes of it: to [base/service] (with [/endpoint] when there is
    one), under the upper-cased method, with the default JSON headers
    when none are given, and with the body only for POST and PUT; an
    exception of the session that is no request exception is the only
    thing that leaves [send_request]. *)
Theorem send_request_sends_once
  (h : Handler) (method service endpoint : string)
  (params data headers : json) (w : World) :
  supported_method (PyStr.upper method) = true ->
  let m := PyStr.upper method in
  let url := if String.eqb endpoint "" then base_url h ++ "/" ++ service
             else (base_url h ++ "/" ++ service) ++ "/" ++ endpoint in
  let body := if String.eqb m "POST" || String.eqb m "PUT" then data else JNull in
  let hd := if Py.truthy headers then headers else default_headers in
  let w' := snd (send_request h method service endpoint params data headers w) in
  trace w' = (trace w ++ [Http m url params body hd])%list
  /\ n_http w' = S (n_http w)
  /\ (forall e,
        fst (send_request h method service endpoint params data headers w) = Raise e ->
        http w (n_http w) = Fails e /\ isinstance_RequestException e = false).
Proof.
  intros Hm. cbv zeta. rewrite send_request_fetched by exact Hm. cbv zeta.
  cbn [fst snd after_exchange trace n_http].
  unfold request_url, sent_body.
  destruct (String.eqb endpoint ""); cbn [negb];
    (split; [reflexivity|split; [reflexivity|]]);
    intros e He; unfold fetched in He;
    destruct (http w (n_http w)) as [r|e']; try discriminate He;
    destruct (isinstance_RequestException e') eqn:Hreq; try discriminate He;
    injection He as ->; auto.
Qed.

Lemma send_request_sends_once_witness :
  let w := sample_world [Fails (OSError "broken pipe")] None in
  let w' := snd (send_request sample_handler "delete" "App" "" JNull (JStr "x") JNull w) in
  trace w' = (trace w
              ++ [Http "DELETE" "http://localhost:5000/api/App" JNull JNull
                    default_headers])%list
  /\ n_http w' = S (n_http w)
  /\ (forall e,
        fst (send_request sample_handler "delete" "App" "" JNull (JStr "x") JNull w)
        = Raise e ->
        http w (n_http w) = Fails e /\ isinstance_RequestException e = false).
Proof.
  apply (send_request_sends_once sample_handler "delete" "App" "" JNull (JStr "x") JNull
           (sample_world [Fails (OSError "broken pipe")] None)).
  reflexivity.
Defined.

(** ** [update_system_state] *)

(** The method written as one function of its inputs. *)
Lemma update_system_state_eq (a t : json) (s : SystemState) :
  update_system_state a t s = (Ok tt, updated_snapshot a t s).
Proof.
  unfold update_system_state, update_system_state_body, updated_snapshot.
  destruct a as [| | | | |ma]; try reflexivity.
  destruct t as [| | | | |mt]; try reflexivity.
  unfold Py.get. mstep.
  destruct (mt !! "Test Status") as [v|]; cbn [default from_option id];
    [|reflexivity].
  destruct v; try reflexivity.
  - destruct b; reflexivity.
  - cbn [Py.truthy]. destruct (negb (n =? 0)); reflexivity.
  - cbn [Py.truthy Py.startswith]. cbv beta iota.
    destruct (String.eqb_spec s0 "") as [->|_]; [reflexivity|].
    cbn [negb]. cbv beta iota.
    destruct (PyStr.startswith s0 "Test:"); cbn [andb]; mstep; [|reflexivity].
    rewrite parse_test_info_str. cbv zeta.
    destruct (3 <=? length (PyStr.split ":" s0))%nat; reflexivity.
  - cbn [Py.truthy]. destruct l; reflexivity.
  - cbn [Py.truthy]. destruct (negb (bool_decide (m = ∅))); reflexivity.
Qed.

(** X4: [update_system_state] never raises: whatever the two payloads
    are (a string, [None], a list, a dictionary with values of any type),
    the call returns normally. *)
Theorem update_system_state_never_raises (a t : json) (s : SystemState) :
  fst (update_system_state a t s) = Ok tt.
Proof. rewrite update_system_state_eq. reflexivity. Qed.

(** X5: [update_system_state] is idempotent: a second call with the same
    payloads leaves the snapshot of the first call as it is, for
    well-formed and for malformed payloads alike. *)
Theorem update_system_state_idempotent (a t : json) (s : SystemState) :
  snd (update_system_state a t (snd (update_system_state a t s)))
  = snd (update_system_state a t s).
Proof.
  rewrite !update_system_state_eq. cbn [snd]. unfold updated_snapshot.
  destruct a as [| | | | |ma]; try reflexivity.
  destruct t as [| | | | |mt]; try reflexivity.
  cbv zeta.
  destruct (default (JStr "") (mt !! "Test Status")) as [|b|n|info|l|m];
    cbn [Py.truthy].
  - reflexivity.
  - destruct b; reflexivity.
  - destruct (negb (n =? 0)); reflexivity.
  - destruct (PyStr.startswith info "Test:"
              && (3 <=? length (PyStr.split ":" info))%nat); reflexivity.
  - destruct l; reflexivity.
  - destruct (negb (bool_decide (m = ∅))); reflexivity.
Qed.

(** X6: a status payload without a ['Test Status'] entry, or with an
    empty or otherwise false value there, never clears the test fields:
    the snapshot keeps the name and status of the last test, and only the
    two state fields follow the application (['UNKNOWN'] for a missing
    key). *)
Theorem update_system_state_keeps_last_test
  (a t : gmap string json) (s : SystemState) :
  Py.truthy (default (JStr "") (t !! "Test Status")) = false ->
  snd (update_system_state (JDict a) (JDict t) s)
  = mkSystemState
      (default (JStr "UNKNOWN") (a !! "appState"))
      (default (JStr "UNKNOWN") (a !! "connectionState"))
      (test_case_name s) (test_status s).
Proof.
  intros Hf. rewrite update_system_state_eq. cbn [snd]. unfold updated_snapshot.
  cbv zeta.
  destruct (default (JStr "") (t !! "Test Status")) as [|b|n|info|l|m];
    cbn [Py.truthy] in Hf |- *; try rewrite Hf; try reflexivity.
  apply negb_false_iff, String.eqb_eq in Hf. subst info. reflexivity.
Qed.

Lemma update_system_state_keeps_last_test_witness :
  snd (update_system_state (JDict {[ "appState" := JStr "READY" ]}) (JDict ∅)
         (mkSystemState (JStr "BUSY") (JStr "CONNECTED") (Some "TC1") (Some "Started")))
  = mkSystemState (JStr "READY") (JStr "UNKNOWN") (Some "TC1") (Some "Started").
Proof.
  exact (update_system_state_keeps_last_test {[ "appState" := JStr "READY" ]} ∅
           (mkSystemState (JStr "BUSY") (JStr "CONNECTED") (Some "TC1") (Some "Started"))
           eq_refl).
Defined.

(** ** Polling and cancelling *)



(** The outcome of [_cancel_running_test], exactly. *)
Lemma cancel_running_test_eq (h : Handler) (w : World) :
  api_handler w = Some h ->
  _cancel_running_test w
  = (Ok (exchange_succeeded (http w (n_http w))),
     after_exchange (force_stop_request h) w).
Proof.
  intros Hh. unfold _cancel_running_test, try_except, the_api_handler, post_force_stop.
  unfold bind at 1. rewrite Hh.
  unfold bind at 1. rewrite send_request_fetched by reflexivity.
  cbv zeta. change (PyStr.upper "POST") with "POST".
  change (sent_body "POST" JNull) with JNull.
  change (if Py.truthy JNull then JNull else default_headers) with default_headers.
  fold (force_stop_request h).
  destruct (http w (n_http w)) as [r|e]; cbn [fetched exchange_succeeded].
  - unfold bind at 1. rewrite make_result_getitem. unfold ret at 1.
    unfold bind, Py.get, ret. rewrite response_dict_success.
    cbn [from_option id Py.truthy]. unfold is_2xx.
    destruct ((200 <=? status_code r) && (status_code r <? 300)); reflexivity.
  - destruct (isinstance_RequestException e); [|reflexivity].
    unfold bind at 1. rewrite make_result_getitem. unfold ret at 1.
    unfold bind, Py.get, ret.
    destruct (error_dict_lookup (transport_error_msg e)) as (_ & -> & _).
    reflexivity.
Qed.

(** X8: [_cancel_running_test] sends the force-stop POST exactly once and
    never raises; it answers [True] exactly when the application answers
    the request with a 2xx status, and [False] for every other status, for
    a transport failure and for any other exception. *)
Theorem cancel_running_test_outcome (h : Handler) (w : World) :
  api_handler w = Some h ->
  fst (_cancel_running_test w) = Ok (exchange_succeeded (http w (n_http w)))
  /\ trace (snd (_cancel_running_test w))
     = (trace w
        ++ [Http "POST"
              ((base_url h ++ "/" ++ "ConnectionSetup") ++ "/" ++ "ForceStopCurrentExecution")
              JNull JNull default_headers])%list
  /\ force_stop_count h (trace (snd (_cancel_running_test w)))
     = S (force_stop_count h (trace w)).
Proof.
  intros Hh. rewrite (cancel_running_test_eq h w Hh). cbn [fst snd].
  split; [reflexivity|]. split; [reflexivity|].
  cbn [trace after_exchange]. rewrite force_stop_count_app, force_stop_count_request.
  lia.
Qed.

Lemma cancel_running_test_outcome_witness :
  let w := sample_world [Responds (json_response 500 JNull)] None in
  fst (_cancel_running_test w) = Ok (exchange_succeeded (http w (n_http w)))
  /\ trace (snd (_cancel_running_test w))
     = (trace w
        ++ [Http "POST"
              ((base_url sample_handler ++ "/" ++ "ConnectionSetup")
               ++ "/" ++ "ForceStopCurrentExecution")
              JNull JNull default_headers])%list
  /\ force_stop_count sample_handler (trace (snd (_cancel_running_test w)))
     = S (force_stop_count sample_handler (trace w)).
Proof.
  apply (cancel_running_test_outcome sample_handler
           (sample_world [Responds (json_response 500 JNull)] None)).
  reflexivity.
Defined.

(** X9: before [launch_app] there is no handler, and [stop_test_execution]
    is a silent no-op: it answers [False], raises nothing (unlike
    [submit_test_list]), sends nothing and leaves the stop flag alone. *)
Theorem stop_test_execution_unlaunched (w : World) :
  api_handler w = None ->
  stop_test_execution w = (Ok false, w).
Proof.
  intros Hh.
  unfold stop_test_execution, _is_test_running, _is_test_running_body,
    fetch_status_and_state, the_api_handler, try_except, bind.
  rewrite Hh. reflexivity.
Qed.

Lemma stop_test_execution_unlaunched_witness :
  stop_test_execution unlaunched_world = (Ok false, unlaunched_world).
Proof. apply (stop_test_execution_unlaunched unlaunched_world). reflexivity. Defined.

Lemma stop_test_execution_idle_witness :
  exists w',
    stop_test_execution (sample_world (poll_answers "" "READY") None) = (Ok false, w')
    /\ stop_requested w' = stop_requested (sample_world (poll_answers "" "READY") None)
    /\ force_stop_count sample_handler (trace w')
       = force_stop_count sample_handler
           (trace (sample_world (poll_answers "" "READY") None)).
Proof.
  apply (stop_test_execution_idle sample_handler
           (sample_world (poll_answers "" "READY") None) "READY" "").
  - reflexivity.
  - exists (<["Test Status" := JStr ""]> ∅),
           (<["appState" := JStr "READY"]> (<["connectionState" := JStr "CONNECTED"]> ∅)).
    repeat split.
  - reflexivity.
Defined.

(** X11: while a poll reports a running test, [stop_test_execution] sets
    the stop flag, sends the force-stop request once and answers whether
    that request succeeded; the flag stays set even when it did not. *)
Theorem stop_test_execution_running (h : Handler) (w : World) (app status : string) :
  api_handler w = Some h ->
  poll_reports w (n_http w) app status ->
  running_spec app status = true ->
  exists w',
    stop_test_execution w
    = (Ok (exchange_succeeded (http w (S (S (n_http w))))), w')
    /\ stop_requested w' = true
    /\ force_stop_count h (trace w') = S (force_stop_count h (trace w)).
Proof.
  intros Hh R Hrun.
  destruct (is_test_running_reports h w app status Hh R) as (w1 & E & P & N1 & _).
  rewrite Hrun in E. destruct P as [Ph Pp Ps Pt Pl Pa Pn Pc Pf].
  unfold stop_test_execution. unfold bind at 1. rewrite E. cbn [negb].
  unfold bind at 1, modify.
  rewrite (cancel_running_test_eq h (set_stop_requested true w1))
    by (cbn [api_handler set_stop_requested]; congruence).
  cbn [http n_http set_stop_requested]. rewrite Pt, N1.
  eexists. split; [reflexivity|].
  cbn [stop_requested trace after_exchange set_stop_requested].
  split; [reflexivity|].
  rewrite force_stop_count_app, force_stop_count_request, Pf. lia.
Qed.

Lemma stop_test_execution_running_witness :
  let w := sample_world (poll_answers "Test:TC1:Started" "BUSY") None in
  exists w',
    stop_test_execution w
    = (Ok (exchange_succeeded (http w (S (S (n_http w))))), w')
    /\ stop_requested w' = true
    /\ force_stop_count sample_handler (trace w')
       = S (force_stop_count sample_handler (trace w)).
Proof.
  apply (stop_test_execution_running sample_handler
           (sample_world (poll_answers "Test:TC1:Started" "BUSY") None)
           "BUSY" "Test:TC1:Started").
  - reflexivity.
  - exists (<["Test Status" := JStr "Test:TC1:Started"]> ∅),
           (<["appState" := JStr "BUSY"]> (<["connectionState" := JStr "CONNECTED"]> ∅)).
    repeat split.
  - reflexivity.
Defined.

(** ** [submit_test_list]: the other ways a run ends *)

(** X12: a run that reaches its running phase and whose polls then report
    a running test for a while and a finished one afterwards, with no
    stop requested, ends with [{success: True}]: no force-stop is sent,
    and the pop-up flag is cleared by the [finally]. *)
Theorem submit_test_list_completed (h : Handler) (w w2 : World)
  (test_list : list string) (fuel j : nat) (app status : string) :
  api_handler w = Some h ->
  test_list <> [] ->
  submit_and_wait fuel test_list (snd (start_popup_thread w)) = (Ok None, w2) ->
  stop_requested w2 = false ->
  stop_after w2 = None ->
  (forall i, (i < j)%nat ->
     exists app status,
       poll_reports w2 (n_http w2 + 2 * i) app status
       /\ running_spec app status = true) ->
  poll_reports w2 (n_http w2 + 2 * j) app status ->
  running_spec app status = false ->
  (j < fuel)%nat ->
  exists w',
    submit_test_list fuel test_list w = (Ok result_completed, w')
    /\ force_stop_count h (trace w') = force_stop_count h (trace w)
    /\ popup_thread_active w' = false.
Proof.
  intros Hh Hne E2 Hs Ha Hp Hlast Hnot Hfuel.
  pose proof (quiet_start_popup_thread h w) as Q0.
  assert (Hh0 : api_handler (snd (start_popup_thread w)) = Some h).
  { destruct Q0 as [-> _ _ _]. exact Hh. }
  pose proof (quietly_submit_and_wait h fuel test_list _ _ _ Hh0 E2) as Q2.
  assert (Hh2 : api_handler w2 = Some h).
  { destruct Q2 as [-> _ _ _]. exact Hh0. }
  destruct (monitor_phase_completed h w2 j fuel app status Hh2 Hs Ha Hp Hlast Hnot Hfuel)
    as (w3 & E3 & Hf3).
  eexists. split; [eapply submit_test_list_monitoring; eassumption|].
  split; [|reflexivity].
  destruct (quiet_stop_popup_thread h w3) as [_ _ _ ->].
  rewrite Hf3. destruct Q2 as [_ _ _ ->]. destruct Q0 as [_ _ _ ->]. reflexivity.
Qed.

Lemma submit_test_list_completed_witness :
  exists w',
    submit_test_list 5 ["TC1"] completed_scenario = (Ok result_completed, w')
    /\ force_stop_count sample_handler (trace w')
       = force_stop_count sample_handler (trace completed_scenario)
    /\ popup_thread_active w' = false.
Proof.
  apply (submit_test_list_completed sample_handler completed_scenario
           (snd (submit_and_wait 5 ["TC1"] (snd (start_popup_thread completed_scenario))))
           ["TC1"] 5 1 "READY" "Test:TC1:Completed").
  - reflexivity.
  - discriminate.
  - rewrite (surjective_pairing
               (submit_and_wait 5 ["TC1"] (snd (start_popup_thread completed_scenario)))) at 1.
    f_equal; vm_compute; reflexivity.
  - vm_compute. reflexivity.
  - vm_compute. reflexivity.
  - intros i Hi. assert (i = 0%nat) as -> by lia.
    exists "BUSY", "Test:TC1:Started". split; [|reflexivity].
    exists (<["Test Status" := JStr "Test:TC1:Started"]> ∅),
           (<["appState" := JStr "BUSY"]> (<["connectionState" := JStr "CONNECTED"]> ∅)).
    repeat split.
  - exists (<["Test Status" := JStr "Test:TC1:Completed"]> ∅),
           (<["appState" := JStr "READY"]> (<["connectionState" := JStr "CONNECTED"]> ∅)).
    repeat split.
  - reflexivity.
  - lia.
Defined.

(** What [submit_and_wait] does with the answer to the submission. *)
Lemma submit_and_wait_eq (h : Handler) (w : World) (test_list : list string)
  (fuel : nat) :
  api_handler w = Some h ->
  let w1 := after_exchange (submission_request h test_list) w in
  submit_and_wait fuel test_list w =
    match http w (n_http w) with
    | Fails e =>
        if isinstance_RequestException e
        then (Ok (Some (result_failure "Failed to submit test list")), w1)
        else (Raise e, w1)
    | Responds r =>
        if is_2xx r then
          (let* test_started := wait_for_start fuel (clock w1) in
           let* no_start :=
             (if negb test_started
              then let* stop := read_stop_requested in ret (negb stop)
              else ret false) in
           if no_start then ret (Some result_not_started) else ret None) w1
        else (Ok (Some (result_failure "Failed to submit test list")), w1)
    end.
Proof.
  intros Hh. cbv zeta. unfold submit_and_wait.
  unfold bind at 1, the_api_handler. rewrite Hh.
  unfold bind at 1, post_test_list_to_execute.
  rewrite send_request_fetched by reflexivity. cbv zeta.
  change (PyStr.upper "POST") with "POST".
  change (sent_body "POST" (JList (JStr <$> test_list))) with (JList (JStr <$> test_list)).
  change (if Py.truthy JNull then JNull else default_headers) with default_headers.
  fold (submission_request h test_list).
  destruct (http w (n_http w)) as [r|e]; cbn [fetched].
  - unfold bind at 1. rewrite make_result_getitem. unfold ret at 1.
    unfold bind at 1, Py.get. rewrite response_dict_success. unfold ret at 1.
    cbn [from_option id Py.truthy]. unfold is_2xx.
    destruct ((200 <=? status_code r) && (status_code r <? 300)); cbn [negb];
      reflexivity.
  - destruct (isinstance_RequestException e); [|reflexivity].
    unfold bind at 1. rewrite make_result_getitem. unfold ret at 1.
    unfold bind at 1, Py.get.
    destruct (error_dict_lookup (transport_error_msg e)) as (_ & -> & _).
    reflexivity.
Qed.

(** [submit_test_list] around its [try] body, for a launched client and a
    non-empty list. *)
Lemma submit_test_list_unfold (h : Handler) (w : World) (t : string)
  (tl : list string) (fuel : nat) :
  api_handler w = Some h ->
  submit_test_list fuel (t :: tl) w =
    match submit_test_list_body fuel (t :: tl) (snd (start_popup_thread w)) with
    | (Ok v, w1) => (Ok v, snd (stop_popup_thread w1))
    | (Raise e, w1) =>
        (Ok (result_failure ("Failed to submit test list: " ++ str_of_exn e)),
         snd (stop_popup_thread w1))
    | (OutOfFuel, w1) => (OutOfFuel, w1)
    end.
Proof.
  intros Hh. unfold submit_test_list.
  unfold bind at 1, _check_api_handler. rewrite Hh.
  unfold bind at 1.
  set (w0 := snd (start_popup_thread w)).
  replace (start_popup_thread w) with (Ok tt, w0) by reflexivity.
  unfold try_finally, try_except.
  destruct (submit_test_list_body fuel (t :: tl) w0)
    as [[v|e|] w1]; unfold ret, bind;
    try rewrite (stop_popup_thread_ok w1); reflexivity.
Qed.

(** X13: when the submission is not accepted (a status outside 2xx, a
    transport failure, or any other exception of the session),
    [submit_test_list] returns [{success: False}] with the "Failed to
    submit test list" message (followed by the exception text when one
    was caught), never polls, and still stops the pop-up thread: its
    effects are the thread start, the one POST and the join. *)
Theorem submit_test_list_rejected (h : Handler) (w : World)
  (test_list : list string) (fuel : nat) :
  api_handler w = Some h ->
  test_list <> [] ->
  exchange_succeeded (http w (n_http w)) = false ->
  fst (submit_test_list fuel test_list w)
  = Ok (result_failure (submission_error (http w (n_http w))))
  /\ trace (snd (submit_test_list fuel test_list w))
     = (trace w ++ [ThreadStart; submission_request h test_list; ThreadJoin 2000])%list
  /\ popup_thread_active (snd (submit_test_list fuel test_list w)) = false.
Proof.
  intros Hh Hne Hrej.
  destruct test_list as [|t tl]; [congruence|].
  rewrite (submit_test_list_unfold h w t tl fuel Hh).
  set (w0 := snd (start_popup_thread w)).
  assert (E : submit_test_list_body fuel (t :: tl) w0
              = (match http w (n_http w) with
                 | Fails e =>
                     if isinstance_RequestException e
                     then Ok (result_failure "Failed to submit test list")
                     else Raise e
                 | Responds _ => Ok (result_failure "Failed to submit test list")
                 end, after_exchange (submission_request h (t :: tl)) w0)).
  { unfold submit_test_list_body, bind.
    rewrite (submit_and_wait_eq h w0 (t :: tl) fuel) by exact Hh.
    cbv zeta.
    change (http w0) with (http w). change (n_http w0) with (n_http w).
    destruct (http w (n_http w)) as [r|e]; cbn [exchange_succeeded] in Hrej.
    - rewrite Hrej. reflexivity.
    - destruct (isinstance_RequestException e); reflexivity. }
  rewrite E. clear E.
  assert (T : trace (snd (stop_popup_thread
                 (after_exchange (submission_request h (t :: tl)) w0)))
              = (trace w ++ [ThreadStart; submission_request h (t :: tl);
                             ThreadJoin 2000])%list).
  { simpl. rewrite <- !app_assoc. reflexivity. }
  destruct (http w (n_http w)) as [r|e]; cbn [submission_error].
  - split; [reflexivity|]. split; [exact T|reflexivity].
  - destruct (isinstance_RequestException e);
      (split; [reflexivity|]); (split; [exact T|reflexivity]).
Qed.

Lemma submit_test_list_rejected_witness :
  let w := sample_world [Responds (json_response 500 (JStr "busy"))] None in
  fst (submit_test_list 5 ["TC1"] w)
  = Ok (result_failure (submission_error (http w (n_http w))))
  /\ trace (snd (submit_test_list 5 ["TC1"] w))
     = (trace w ++ [ThreadStart; submission_request sample_handler ["TC1"];
                    ThreadJoin 2000])%list
  /\ popup_thread_active (snd (submit_test_list 5 ["TC1"] w)) = false.
Proof.
  apply (submit_test_list_rejected sample_handler
           (sample_world [Responds (json_response 500 (JStr "busy"))] None) ["TC1"] 5).
  - reflexivity.
  - discriminate.
  - reflexivity.
Defined.

(** X14: with a handler, no exception ever leaves [submit_test_list]; and
    whenever a call with a non-empty list returns, the [finally] has run:
    the pop-up flag is cleared and the join of the pop-up thread is the
    last thing the method did. *)
Theorem submit_test_list_no_exception (h : Handler) (w : World)
  (test_list : list string) (fuel : nat) :
  api_handler w = Some h ->
  (forall e, fst (submit_test_list fuel test_list w) <> Raise e)
  /\ (test_list <> [] ->
      forall v, fst (submit_test_list fuel test_list w) = Ok v ->
      popup_thread_active (snd (submit_test_list fuel test_list w)) = false
      /\ last (trace (snd (submit_test_list fuel test_list w)))
         = Some (ThreadJoin 2000)).
Proof.
  intros Hh.
  destruct test_list as [|t tl].
  { unfold submit_test_list, bind, _check_api_handler. rewrite Hh.
    split; [intros e; discriminate|congruence]. }
  rewrite (submit_test_list_unfold h w t tl fuel Hh).
  destruct (submit_test_list_body fuel (t :: tl) (snd (start_popup_thread w)))
    as [[v|e|] w1]; cbn [fst snd].
  - split; [intros e; discriminate|]. intros _ v' _.
    split; [reflexivity|]. simpl. apply last_snoc.
  - split; [intros e'; discriminate|]. intros _ v' _.
    split; [reflexivity|]. simpl. apply last_snoc.
  - split; [intros e; discriminate|]. intros _ v' Hv. discriminate Hv.
Qed.

Lemma submit_test_list_no_exception_witness :
  (forall e, fst (submit_test_list 5 ["TC1"] cancel_scenario) <> Raise e)
  /\ (["TC1"] <> [] ->
      forall v, fst (submit_test_list 5 ["TC1"] cancel_scenario) = Ok v ->
      popup_thread_active (snd (submit_test_list 5 ["TC1"] cancel_scenario)) = false
      /\ last (trace (snd (submit_test_list 5 ["TC1"] cancel_scenario)))
         = Some (ThreadJoin 2000)).
Proof.
  apply (submit_test_list_no_exception sample_handler cancel_scenario ["TC1"] 5).
  reflexivity.
Defined.




(** ** The launcher: other runs of [start_and_get_url] *)

Ltac cproj :=
  cbn [app_path known_port max_connection_attempts connection_timeout process
       web_url env n_bind n_get n_poll now done] in *.

Lemma same_setup_refl (c : Controller) : same_setup c c.
Proof. repeat split. Qed.

Lemma same_setup_trans (c1 c2 c3 : Controller) :
  same_setup c1 c2 -> same_setup c2 c3 -> same_setup c1 c3.
Proof.
  intros (A1 & A2 & A3 & A4 & A5 & A6) (B1 & B2 & B3 & B4 & B5 & B6).
  repeat split; congruence.
Qed.

Lemma unanswered_ret {A} (a : A) (P : A -> Prop) : P a -> unanswered (ret a) P.
Proof. intros HP c _ _. exists a, c. split; [reflexivity|]. split; [apply same_setup_refl|exact HP]. Qed.


Lemma unanswered_weaken {A} (m : M Controller A) (P Q : A -> Prop) :
  unanswered m P -> (forall a, P a -> Q a) -> unanswered m Q.
Proof.
  intros Hm HPQ c Hn Hp. destruct (Hm c Hn Hp) as (a & c' & E & S & Pa).
  exists a, c'. auto.
Qed.




Lemma unanswered_probe_each (timeout_s : Z) (paths : list string) :
  unanswered (probe_each timeout_s paths) (fun answered => answered = false).
Proof.
  induction paths as [|endpoint rest IH].
  - apply unanswered_ret. reflexivity.
  - intros c Hn Hp. cbn [probe_each]. unfold bind at 1, get_state.
    unfold bind at 1, try_except. unfold bind at 1, requests_get.
    destruct (Hn (n_get c)) as (x & Hx & Hreq). rewrite Hx, Hreq. unfold ret at 1.
    match goal with |- context [probe_each timeout_s rest ?x] => set (c1 := x) end.
    destruct (IH c1) as (a & c' & E & S & Pa); [exact Hn|exact Hp|].
    exists a, c'. split; [exact E|]. split; [|exact Pa].
    eapply same_setup_trans; [|exact S]. repeat split.
Qed.

Lemma unanswered_check_application_running :
  unanswered _check_application_running (fun running => running = false).
Proof.
  intros c Hn Hp. unfold _check_application_running.
  unfold bind at 1, get_state.
  unfold port_in_range in Hp.
  destruct (known_port c) as [port|] eqn:Hk;
    [|exists false, c; split; [reflexivity|]; split; [apply same_setup_refl|reflexivity]].
  destruct (negb (port =? 0));
    [|exists false, c; split; [reflexivity|]; split; [apply same_setup_refl|reflexivity]].
  unfold bind at 1, _check_port_in_use.
  assert ((0 <=? port) && (port <=? 65535) = true) as ->.
  { apply andb_true_iff. split; apply Z.leb_le; lia. }
  match goal with |- context [_ ?x = (Ok _, _)] => set (c1 := x) end.
  destruct (port_taken (env c) (n_bind c)); cbn [negb].
  - destruct (unanswered_probe_each 2 endpoints c1) as (a & c' & E & S & Pa).
    + exact Hn.
    + unfold port_in_range. subst c1. cproj. rewrite Hk. exact Hp.
    + exists a, c'. split; [exact E|]. split; [|exact Pa].
      eapply same_setup_trans; [|exact S]. repeat split.
  - exists false, c1. split; [reflexivity|]. split; [|reflexivity]. repeat split.
Qed.





(** The check on a free port: one [bind] and no probe. *)
Lemma check_application_running_free (c : Controller) (port : Z) :
  known_port c = Some port ->
  port <> 0 ->
  0 <= port <= 65535 ->
  port_taken (env c) (n_bind c) = false ->
  _check_application_running c = (Ok false, after_bind port c).
Proof.
  intros Hport Hnz Hrange Hfree.
  unfold _check_application_running.
  unfold bind at 1, get_state. rewrite Hport.
  assert (negb (port =? 0) = true) as ->.
  { apply negb_true_iff, Z.eqb_neq. exact Hnz. }
  unfold bind at 1, _check_port_in_use.
  assert ((0 <=? port) && (port <=? 65535) = true) as ->.
  { apply andb_true_iff. split; apply Z.leb_le; lia. }
  rewrite Hfree. reflexivity.
Qed.




(** [_launch_process] once its check has said no, from no child. *)
Lemma launch_process_from_none (c c1 : Controller) :
  _check_application_running c = (Ok false, c1) ->
  process c1 = None ->
  _launch_process c
  = (Ok (launch_succeeds (env c1) (n_poll c1)),
     mkController (app_path c1) (known_port c1) (max_connection_attempts c1)
       (connection_timeout c1) (launched_process (env c1)) (web_url c1) (env c1)
       (n_bind c1) (n_get c1)
       (if path_exists (env c1)
        then match popen (env c1) with inr _ => S (n_poll c1) | inl _ => n_poll c1 end
        else n_poll c1)
       (now c1) (done c1 ++ launch_effects c1)).
Proof.
  intros E Hproc. unfold _launch_process. unfold bind at 1. rewrite E.
  unfold bind at 1, get_state. rewrite Hproc.
  unfold bind at 1. unfold ret at 1.
  unfold launch_succeeds, launch_effects, launched_process.
  destruct (path_exists (env c1)); cbn [negb andb].
  - unfold try_except, bind, spawn.
    destruct (popen (env c1)) as [e|pid]; unfold process_poll; cproj.
    + unfold ret. rewrite Hproc. reflexivity.
    + destruct (poll (env c1) (n_poll c1)); unfold ret;
        rewrite <- app_assoc; reflexivity.
  - unfold ret. rewrite app_nil_r, <- Hproc. destruct c1; reflexivity.
Qed.

(** X18: when the launch does not give a live child (the application
    path does not exist, [Popen] raises, or the child has exited by the
    first [poll()]), [start_and_get_url] returns [None] at once: after
    the two port checks it neither waits nor probes, and a child that
    exited stays in [self.process]. *)
Theorem start_and_get_url_launch_fails (c : Controller) (port initial_wait : Z) :
  known_port c = Some port ->
  port <> 0 ->
  0 <= port <= 65535 ->
  process c = None ->
  port_taken (env c) (n_bind c) = false ->
  port_taken (env c) (S (n_bind c)) = false ->
  launch_succeeds (env c) (n_poll c) = false ->
  exists c',
    start_and_get_url initial_wait c = (Ok None, c')
    /\ process c' = launched_process (env c)
    /\ now c' = now c
    /\ n_get c' = n_get c
    /\ done c' = (done c ++ [Bind port; Bind port] ++ launch_effects c)%list.
Proof.
  intros Hport Hnz Hrange Hproc Hfree1 Hfree2 Hfail.
  unfold start_and_get_url. unfold bind at 1.
  rewrite (check_application_running_free c port Hport Hnz Hrange Hfree1).
  unfold bind at 1.
  rewrite (launch_process_from_none (after_bind port c)
             (after_bind port (after_bind port c))).
  - unfold after_bind. cproj. rewrite Hfail. cbn [negb]. unfold ret.
    eexists. split; [reflexivity|]. cproj.
    repeat split. unfold launch_effects. cproj. rewrite <- !app_assoc. reflexivity.
  - apply check_application_running_free; assumption.
  - exact Hproc.
Qed.

Lemma start_and_get_url_launch_fails_witness :
  exists c',
    start_and_get_url 10 (new_controller "C:/GRL/app.exe" (Some 5000) 3 30 crashing_env)
    = (Ok None, c')
    /\ process c' = launched_process crashing_env
    /\ now c' = 0
    /\ n_get c' = 0%nat
    /\ done c' = ([] ++ [Bind 5000; Bind 5000]
                  ++ launch_effects
                       (new_controller "C:/GRL/app.exe" (Some 5000) 3 30 crashing_env))%list.
Proof.
  apply (start_and_get_url_launch_fails
           (new_controller "C:/GRL/app.exe" (Some 5000) 3 30 crashing_env) 5000 10).
  all: try reflexivity; try (cbn; lia).
Defined.



(** ** Stopping the child *)

Ltac tproj :=
  unfold process_poll, launcher_sleep in *;
  cbn [fst snd signal_outcome ctl sig_env sent app_path known_port max_connection_attempts
       connection_timeout process web_url env n_bind n_get n_poll now done] in *.

(** One [poll()] during the teardown. *)
Lemma on_ctl_process_poll (t : Teardown) :
  on_ctl process_poll t
  = (Ok (poll (env (ctl t)) (n_poll (ctl t))),
     mkTeardown (snd (process_poll (ctl t))) (sig_env t) (sent t)).
Proof. reflexivity. Qed.

(** One sleep during the teardown. *)
Lemma on_ctl_sleep (ms : Z) (t : Teardown) :
  on_ctl (launcher_sleep ms) t
  = (Ok tt, mkTeardown (snd (launcher_sleep ms (ctl t))) (sig_env t) (sent t)).
Proof. reflexivity. Qed.

(** The loop returns at the first [poll()] that shows an exit code. *)
Lemma wait_for_exit_exits (n j : nat) (code : Z) :
  forall t : Teardown,
    (j < n)%nat ->
    (forall k, (k < j)%nat -> poll (env (ctl t)) (n_poll (ctl t) + k) = None) ->
    poll (env (ctl t)) (n_poll (ctl t) + j) = Some code ->
    exists t', wait_for_exit n t = (Ok true, t') /\ waited t t' (S j) j.
Proof.
  revert j. induction n as [|n IH]; intros j t Hj Hnone Hcode; [lia|].
  cbn [wait_for_exit]. unfold bind at 1. rewrite on_ctl_process_poll.
  destruct j as [|j].
  - rewrite Nat.add_0_r in Hcode. rewrite Hcode. unfold ret.
    eexists. split; [reflexivity|].
    constructor; tproj; try reflexivity; try lia.
    rewrite length_app. simpl. lia.
  - pose proof (Hnone 0%nat ltac:(lia)) as H0. rewrite Nat.add_0_r in H0. rewrite H0.
    unfold bind at 1. rewrite on_ctl_sleep.
    match goal with |- context [wait_for_exit n ?x] => set (t1 := x) end.
    destruct (IH j t1) as (t' & E' & W').
    + lia.
    + intros k Hk. subst t1. tproj.
      replace (S (n_poll (ctl t)) + k)%nat with (n_poll (ctl t) + S k)%nat by lia.
      apply Hnone. lia.
    + subst t1. tproj.
      replace (S (n_poll (ctl t)) + j)%nat with (n_poll (ctl t) + S j)%nat by lia.
      exact Hcode.
    + exists t'. split; [exact E'|].
      destruct W' as [W1 W2 W3 W4 W5 W6 W7]. subst t1. tproj.
      constructor; try assumption; try lia.
      rewrite W7, !length_app. simpl. lia.
Qed.

(** The loop gives up after [n] polls that all show a live child, having
    slept after each of them. *)
Lemma wait_for_exit_gives_up (n : nat) :
  forall t : Teardown,
    (forall k, (k < n)%nat -> poll (env (ctl t)) (n_poll (ctl t) + k) = None) ->
    exists t', wait_for_exit n t = (Ok false, t') /\ waited t t' n n.
Proof.
  induction n as [|n IH]; intros t Hnone.
  - exists t. split; [reflexivity|]. constructor; try reflexivity; lia.
  - cbn [wait_for_exit]. unfold bind at 1. rewrite on_ctl_process_poll.
    pose proof (Hnone 0%nat ltac:(lia)) as H0. rewrite Nat.add_0_r in H0. rewrite H0.
    unfold bind at 1. rewrite on_ctl_sleep.
    match goal with |- context [wait_for_exit n ?x] => set (t1 := x) end.
    destruct (IH t1) as (t' & E' & W').
    + intros k Hk. subst t1. tproj.
      replace (S (n_poll (ctl t)) + k)%nat with (n_poll (ctl t) + S k)%nat by lia.
      apply Hnone. lia.
    + exists t'. split; [exact E'|].
      destruct W' as [W1 W2 W3 W4 W5 W6 W7]. subst t1. tproj.
      constructor; try assumption; try lia.
      rewrite W7, !length_app. simpl. lia.
Qed.

(** The loop itself raises nothing and sends nothing. *)
Lemma wait_for_exit_ok (n : nat) :
  forall t : Teardown,
    exists b t', wait_for_exit n t = (Ok b, t')
                 /\ sig_env t' = sig_env t /\ sent t' = sent t.
Proof.
  induction n as [|n IH]; intros t.
  - exists false, t. repeat split.
  - cbn [wait_for_exit]. unfold bind at 1. rewrite on_ctl_process_poll.
    destruct (poll (env (ctl t)) (n_poll (ctl t))) as [code|].
    + unfold ret. do 2 eexists. split; [reflexivity|]. split; reflexivity.
    + unfold bind at 1. rewrite on_ctl_sleep.
      match goal with |- context [wait_for_exit n ?x] => set (t1 := x) end.
      destruct (IH t1) as (b & t' & E' & He & Hs).
      exists b, t'. split; [exact E'|]. split; [exact He|exact Hs].
Qed.

(** X20: [stop_process] never raises.  It answers [False] only when one
    of [terminate()], [kill()], [wait()] raised; and with no live child
    (none was started, or the first [poll()] shows an exit code) it
    answers [True] without sending the child anything and without
    sleeping. *)
Theorem stop_process_never_raises (t : Teardown) :
  exists b t',
    stop_process t = (Ok b, t')
    /\ (b = false -> exists s e, signal_outcome (sig_env t) s = Some e)
    /\ (process (ctl t) = None
        \/ is_Some (poll (env (ctl t)) (n_poll (ctl t))) ->
        b = true /\ sent t' = sent t /\ now (ctl t') = now (ctl t)).
Proof.
  unfold stop_process. unfold bind at 1, get_state.
  destruct (process (ctl t)) as [pid|] eqn:Hproc.
  2:{ unfold bind, ret. exists true, t. split; [reflexivity|].
      split; [discriminate|]. intros _. repeat split. }
  unfold bind at 1. unfold bind at 1. rewrite on_ctl_process_poll.
  destruct (poll (env (ctl t)) (n_poll (ctl t))) as [code|] eqn:Hpoll.
  { assert (bool_decide (is_Some (Some code)) = true) as ->
      by (apply bool_decide_eq_true; eauto).
    unfold ret. cbn [negb]. do 2 eexists. split; [reflexivity|].
    split; [discriminate|]. intros _. repeat split. }
  assert (bool_decide (is_Some (@None Z)) = false) as ->
    by (apply bool_decide_eq_false; intros [? ?]; discriminate).
  unfold ret at 1. cbn [negb].
  unfold try_except. unfold bind at 1, send_signal. tproj.
  assert (Hno : Some pid = @None Z \/ is_Some (@None Z) -> False).
  { intros [H|[? H]]; discriminate. }
  destruct (terminate_raises (sig_env t)) as [e|] eqn:Hterm.
  { unfold ret. do 2 eexists. split; [reflexivity|].
    split; [intros _; exists Terminate, e; exact Hterm|]. intros H. destruct (Hno H). }
  unfold bind at 1.
  match goal with |- context [wait_for_exit 5 ?x] => set (t1 := x) end.
  destruct (wait_for_exit_ok 5 t1) as (b & t2 & E2 & He2 & Hs2). rewrite E2.
  destruct b.
  { unfold ret. do 2 eexists. split; [reflexivity|].
    split; [discriminate|]. intros H. destruct (Hno H). }
  unfold bind at 1, send_signal. rewrite He2. subst t1. tproj.
  destruct (kill_raises (sig_env t)) as [e|] eqn:Hkill.
  { unfold ret. do 2 eexists. split; [reflexivity|].
    split; [intros _; exists Kill, e; exact Hkill|]. intros H. destruct (Hno H). }
  unfold bind at 1. tproj.
  destruct (wait_raises (sig_env t)) as [e|] eqn:Hwait.
  { unfold ret. do 2 eexists. split; [reflexivity|].
    split; [intros _; exists WaitExit, e; exact Hwait|]. intros H. destruct (Hno H). }
  unfold ret. do 2 eexists. split; [reflexivity|].
  split; [discriminate|]. intros H. destruct (Hno H).
Qed.

(** [stop_process] on a live child whose [terminate()] goes through, up
    to the polling loop. *)
Lemma stop_process_alive (t : Teardown) (pid : Z) :
  process (ctl t) = Some pid ->
  poll (env (ctl t)) (n_poll (ctl t)) = None ->
  terminate_raises (sig_env t) = None ->
  let t1 := mkTeardown (snd (process_poll (ctl t))) (sig_env t)
              (sent t ++ [(S (length (done (ctl t))), Terminate)]) in
  stop_process t
  = try_except
      (let* exited := wait_for_exit 5 in
       if exited then ret true
       else send_signal Kill ;; send_signal WaitExit ;; ret true)
      (fun _ => ret false) t1.
Proof.
  intros Hproc Hpoll Hterm. cbv zeta.
  unfold stop_process. unfold bind at 1, get_state. rewrite Hproc.
  unfold bind at 1. unfold bind at 1. rewrite on_ctl_process_poll, Hpoll.
  assert (bool_decide (is_Some (@None Z)) = false) as ->
    by (apply bool_decide_eq_false; intros [? ?]; discriminate).
  unfold ret at 1. cbn [negb].
  unfold try_except. unfold bind at 1, send_signal. tproj. rewrite Hterm.
  rewrite length_app, Nat.add_1_r. reflexivity.
Qed.

(** X21: a child that exits within the five seconds is never killed.
    When the child lives at the first [poll()], [terminate()] goes
    through and the child shows its exit code at poll [j + 1] of the loop
    ([j < 5]), [stop_process] answers [True] after [j] sleeps of one
    second, having sent [terminate()] right after its first [poll()] and
    nothing else; the child stays in [self.process]. *)
Theorem stop_process_graceful (t : Teardown) (pid code : Z) (j : nat) :
  process (ctl t) = Some pid ->
  terminate_raises (sig_env t) = None ->
  (forall k, (k <= j)%nat -> poll (env (ctl t)) (n_poll (ctl t) + k) = None) ->
  poll (env (ctl t)) (n_poll (ctl t) + S j) = Some code ->
  (j < 5)%nat ->
  exists t',
    stop_process t = (Ok true, t')
    /\ sent t' = (sent t ++ [(S (length (done (ctl t))), Terminate)])%list
    /\ now (ctl t') = now (ctl t) + 1000 * Z.of_nat j
    /\ n_poll (ctl t') = (n_poll (ctl t) + j + 2)%nat
    /\ process (ctl t') = Some pid.
Proof.
  intros Hproc Hterm Hnone Hcode Hj.
  pose proof (Hnone 0%nat ltac:(lia)) as H0. rewrite Nat.add_0_r in H0.
  rewrite (stop_process_alive t pid Hproc H0 Hterm). cbv zeta.
  match goal with |- context [try_except _ _ ?x] => set (t1 := x) end.
  destruct (wait_for_exit_exits 5 j code t1) as (t' & E' & W').
  - exact Hj.
  - intros k Hk. subst t1. tproj.
    replace (S (n_poll (ctl t)) + k)%nat with (n_poll (ctl t) + S k)%nat by lia.
    apply Hnone. lia.
  - subst t1. tproj.
    replace (S (n_poll (ctl t)) + j)%nat with (n_poll (ctl t) + S j)%nat by lia.
    exact Hcode.
  - unfold try_except, bind. rewrite E'. unfold ret.
    exists t'. split; [reflexivity|].
    destruct W' as [W1 W2 W3 W4 W5 W6 W7]. subst t1. tproj.
    split; [exact W2|]. split; [exact W6|]. split; [lia|]. congruence.
Qed.

Lemma stop_process_graceful_witness :
  let t := mkTeardown
             (holding 4242 (fun k => if (k <? 3)%nat then None else Some 0))
             obedient [] in
  exists t',
    stop_process t = (Ok true, t')
    /\ sent t' = (sent t ++ [(S (length (done (ctl t))), Terminate)])%list
    /\ now (ctl t') = now (ctl t) + 1000 * Z.of_nat 2
    /\ n_poll (ctl t') = (n_poll (ctl t) + 2 + 2)%nat
    /\ process (ctl t') = Some 4242.
Proof.
  apply (stop_process_graceful
           (mkTeardown (holding 4242 (fun k => if (k <? 3)%nat then None else Some 0))
              obedient [])
           4242 0 2).
  - reflexivity.
  - reflexivity.
  - intros k Hk. simpl.
    destruct k as [|[|[|k]]]; [reflexivity|reflexivity|reflexivity|lia].
  - reflexivity.
  - lia.
Defined.

(** X22: a child that still lives at each of the five polls is killed.
    With [terminate()], [kill()] and [wait()] going through,
    [stop_process] answers [True] after exactly five polls and five
    sleeps of one second; [kill()] and [wait()] follow the fifth sleep
    directly, with no further [poll()] in between. *)
Theorem stop_process_kills (t : Teardown) (pid : Z) :
  process (ctl t) = Some pid ->
  terminate_raises (sig_env t) = None ->
  kill_raises (sig_env t) = None ->
  wait_raises (sig_env t) = None ->
  (forall k, (k <= 5)%nat -> poll (env (ctl t)) (n_poll (ctl t) + k) = None) ->
  exists t',
    stop_process t = (Ok true, t')
    /\ sent t' = (sent t ++ [((1 + length (done (ctl t)))%nat, Terminate);
                             ((11 + length (done (ctl t)))%nat, Kill);
                             ((11 + length (done (ctl t)))%nat, WaitExit)])%list
    /\ length (done (ctl t')) = (11 + length (done (ctl t)))%nat
    /\ now (ctl t') = now (ctl t) + 5000
    /\ n_poll (ctl t') = (n_poll (ctl t) + 6)%nat.
Proof.
  intros Hproc Hterm Hkill Hwait Hnone.
  pose proof (Hnone 0%nat ltac:(lia)) as H0. rewrite Nat.add_0_r in H0.
  rewrite (stop_process_alive t pid Hproc H0 Hterm). cbv zeta.
  match goal with |- context [try_except _ _ ?x] => set (t1 := x) end.
  destruct (wait_for_exit_gives_up 5 t1) as (t2 & E2 & W2).
  - intros k Hk. subst t1. tproj.
    replace (S (n_poll (ctl t)) + k)%nat with (n_poll (ctl t) + S k)%nat by lia.
    apply Hnone. lia.
  - unfold try_except. unfold bind at 1. rewrite E2.
    destruct W2 as [W1 W2 W3 W4 W5 W6 W7]. subst t1. tproj.
    unfold bind, send_signal, ret. tproj. rewrite W1, Hkill. tproj. rewrite Hwait.
    eexists. split; [reflexivity|]. tproj.
    rewrite W2, W5, W6, W7, length_app. cbn [length].
    split.
    + rewrite <- !app_assoc. cbn [app].
      replace (length (done (ctl t)) + 1 + 5 + 5)%nat
        with (11 + length (done (ctl t)))%nat by lia.
      reflexivity.
    + split; [lia|]. split; lia.
Qed.

Lemma stop_process_kills_witness :
  let t := mkTeardown (holding 4242 (fun _ => None)) obedient [] in
  exists t',
    stop_process t = (Ok true, t')
    /\ sent t' = (sent t ++ [((1 + length (done (ctl t)))%nat, Terminate);
                             ((11 + length (done (ctl t)))%nat, Kill);
                             ((11 + length (done (ctl t)))%nat, WaitExit)])%list
    /\ length (done (ctl t')) = (11 + length (done (ctl t)))%nat
    /\ now (ctl t') = now (ctl t) + 5000
    /\ n_poll (ctl t') = (n_poll (ctl t) + 6)%nat.
Proof.
  apply (stop_process_kills (mkTeardown (holding 4242 (fun _ => None)) obedient []) 4242);
    reflexivity.
Defined.

(** ** The pop-up log files *)

Ltac dproj :=
  cbn [fst snd world disk contents unreadable read_only] in *.

Ltac dstep :=
  unfold on_disk, zoom, os_path_exists, os_path_has_size, json_load, json_dump in *;
  dproj.

Lemma bool_decide_is_Some_Some {A} (x : A) : bool_decide (is_Some (Some x)) = true.
Proof. apply bool_decide_eq_true. eauto. Qed.

Lemma bool_decide_is_Some_None {A} : bool_decide (is_Some (@None A)) = false.
Proof. apply bool_decide_eq_false. intros [? ?]. discriminate. Qed.

(** X23: [save_only_message] appends.  For data with a true ["message"],
    when the flat log is missing, empty or holds a list and can be read
    and written, the call rewrites it as that list followed by the
    message, and changes nothing else. *)
Theorem save_only_message_appends (s : Client) (data : gmap string json)
  (l : list json) :
  Py.truthy (from_option id JNull (data !! "message")) = true ->
  logged_messages (contents (disk s) !! popup_json_file_name) = Some l ->
  unreadable (disk s) popup_json_file_name = false ->
  read_only (disk s) popup_json_file_name = false ->
  save_only_message (JDict data) s
  = (Ok tt,
     with_document popup_json_file_name
       (JList (l ++ [from_option id JNull (data !! "message")])) s).
Proof.
  intros Hm Hl Hr Hw.
  unfold save_only_message, try_except. cbv zeta.
  unfold bind at 1, Py.get. unfold ret at 1. rewrite Hm. cbn [negb].
  unfold bind at 1. dstep.
  destruct (contents (disk s) !! popup_json_file_name) as [[doc| |]|] eqn:Hc;
    cbn [logged_messages] in Hl.
  - rewrite bool_decide_is_Some_Some.
    destruct doc; try discriminate Hl. injection Hl as ->.
    unfold py_len, py_append, bind, ret, raise. dstep.
    repeat (progress (dproj; rewrite ?Hc, ?Hr, ?Hw)). reflexivity.
  - discriminate Hl.
  - injection Hl as <-. rewrite bool_decide_is_Some_Some.
    unfold py_len, py_append, bind, ret, raise. dstep.
    repeat (progress (dproj; rewrite ?Hc, ?Hr, ?Hw)). reflexivity.
  - injection Hl as <-. rewrite bool_decide_is_Some_None.
    unfold py_len, py_append, bind, ret, raise. dstep.
    repeat (progress (dproj; rewrite ?Hc, ?Hr, ?Hw)). reflexivity.
Qed.

Lemma save_only_message_appends_witness :
  let s := client_in (<[popup_json_file_name := Document (JList [JStr "first"])]> ∅)
             (Some "TC1") in
  save_only_message (popup_with "second") s
  = (Ok tt,
     with_document popup_json_file_name
       (JList ([JStr "first"]
               ++ [from_option id JNull
                     ((<["message" := JStr "second"]> (<["popID" := JNum 7]> ∅)
                        : gmap string json) !! "message")])) s).
Proof.
  apply (save_only_message_appends
           (client_in (<[popup_json_file_name := Document (JList [JStr "first"])]> ∅)
              (Some "TC1"))
           (<["message" := JStr "second"]> (<["popID" := JNum 7]> ∅))
           [JStr "first"]);
    reflexivity.
Defined.

(** X24: [save_only_message] never repairs its file.  When the flat log
    holds anything but a list (a dictionary, a string, a number, text
    that is no JSON), the call returns normally and leaves everything as
    it is, whatever the data: from then on no message is recorded. *)
Theorem save_only_message_never_repairs (s : Client) (json_data : json) :
  logged_messages (contents (disk s) !! popup_json_file_name) = None ->
  save_only_message json_data s = (Ok tt, s).
Proof.
  intros Hl. destruct s as [w d]. dproj.
  unfold save_only_message, try_except. cbv zeta.
  destruct json_data as [| | | | |data]; try reflexivity.
  unfold Py.get, py_len, py_append, bind, ret, raise. dstep.
  destruct (Py.truthy (from_option id JNull (data !! "message")));
    cbn [negb]; [|reflexivity].
  dproj.
  destruct (contents d !! popup_json_file_name) as [[doc| |]|] eqn:Hc;
    cbn [logged_messages] in Hl; try discriminate Hl.
  - rewrite bool_decide_is_Some_Some. repeat (progress (dproj; rewrite ?Hc)).
    destruct (unreadable d popup_json_file_name); [reflexivity|].
    repeat (progress (dproj; rewrite ?Hc)).
    destruct doc; try discriminate Hl; reflexivity.
  - rewrite bool_decide_is_Some_Some. repeat (progress (dproj; rewrite ?Hc)).
    destruct (unreadable d popup_json_file_name); [reflexivity|].
    repeat (progress (dproj; rewrite ?Hc)). reflexivity.
Qed.

Lemma save_only_message_never_repairs_witness :
  let s := client_in (<[popup_json_file_name := Document (JDict ∅)]> ∅) (Some "TC1") in
  save_only_message (popup_with "second") s = (Ok tt, s).
Proof.
  apply (save_only_message_never_repairs
           (client_in (<[popup_json_file_name := Document (JDict ∅)]> ∅) (Some "TC1"))
           (popup_with "second")).
  reflexivity.
Defined.

(** A [try] whose body is known. *)
Lemma try_except_run {S A} (m : M S A) (h : exn -> M S A) (s s' : S) (r : Res A) :
  m s = (r, s') ->
  try_except m h s
  = match r with
    | Raise e => h e s'
    | Ok a => (Ok a, s')
    | OutOfFuel => (OutOfFuel, s')
    end.
Proof. intros E. unfold try_except. rewrite E. destruct r; reflexivity. Qed.

(** What [save_message_by_test_case] reads from its file. *)
Lemma load_groups_eq {A} (s : Client) (k : gmap string json -> M Client A) :
  unreadable (disk s) test_cases_popup_json_file_name = false ->
  (let* present := on_disk (os_path_exists test_cases_popup_json_file_name) in
   let* messages_by_test :=
     (if present then
        let* filled := on_disk (os_path_has_size test_cases_popup_json_file_name) in
        if filled then
          try_except
            (let* loaded := on_disk (json_load test_cases_popup_json_file_name) in
             match loaded with
             | JDict m => ret m
             | _ => ret ∅
             end)
            (fun e => if isinstance_JSONDecodeError e then ret ∅ else raise e)
        else ret ∅
      else ret ∅) in
   k messages_by_test) s
  = k (logged_groups (contents (disk s) !! test_cases_popup_json_file_name)) s.
Proof.
  intros Hr. destruct s as [w d]. dproj.
  unfold try_except, bind, ret, raise. dstep.
  destruct (contents d !! test_cases_popup_json_file_name) as [[doc| |]|] eqn:Hc;
    rewrite ?bool_decide_is_Some_Some, ?bool_decide_is_Some_None;
    repeat (progress (dproj; rewrite ?Hc, ?Hr)); try reflexivity.
  destruct doc; reflexivity.
Qed.

(** X25: [save_message_by_test_case] files the message under the name of
    the current test (["Other_message"] when the snapshot has none or an
    empty one).  Reading anything but a dictionary as no group at all, it
    rewrites its file with the message appended to the list of that
    group, all other groups as they were; this needs the group's entry,
    when there is one, to be a list. *)
Theorem save_message_by_test_case_groups (s : Client) (data : gmap string json)
  (l : list json) :
  Py.truthy (from_option id JNull (data !! "message")) = true ->
  unreadable (disk s) test_cases_popup_json_file_name = false ->
  read_only (disk s) test_cases_popup_json_file_name = false ->
  group_messages
    (logged_groups (contents (disk s) !! test_cases_popup_json_file_name))
    (message_key (system_state_data (world s))) = Some l ->
  save_message_by_test_case (JDict data) s
  = (Ok tt,
     with_document test_cases_popup_json_file_name
       (JDict (<[message_key (system_state_data (world s))
                 := JList (l ++ [from_option id JNull (data !! "message")])]>
                 (logged_groups
                    (contents (disk s) !! test_cases_popup_json_file_name))))
       s).
Proof.
  intros Hm Hr Hw Hl.
  set (g := logged_groups (contents (disk s) !! test_cases_popup_json_file_name)) in *.
  set (key := message_key (system_state_data (world s))) in *.
  set (m := from_option id JNull (data !! "message")) in *.
  assert (E : forall g' : gmap string json,
             g' !! key = Some (JList l) ->
             (let* entry := Py.getitem (JDict g') key in
              let* entry0 := py_append entry m in
              on_disk (json_dump test_cases_popup_json_file_name
                         (JDict (<[key := entry0]> g'))) ;;
              py_slice_check m) s
             = (match m with
                | JStr _ | JList _ => Ok tt
                | _ => Raise (TypeError "object is not subscriptable")
                end,
                with_document test_cases_popup_json_file_name
                  (JDict (<[key := JList (l ++ [m])]> g')) s)).
  { intros g' Hg. unfold Py.getitem, py_append, py_slice_check, bind, ret, raise.
    rewrite Hg. dstep. rewrite Hw. destruct m; reflexivity. }
  unfold save_message_by_test_case. cbv zeta.
  match goal with |- try_except ?body _ s = _ =>
    assert (B : body s
                = (match m with
                   | JStr _ | JList _ => Ok tt
                   | _ => Raise (TypeError "object is not subscriptable")
                   end,
                   with_document test_cases_popup_json_file_name
                     (JDict (<[key := JList (l ++ [m])]> g)) s))
  end.
  { unfold bind at 1, Py.get. unfold ret at 1. fold m. rewrite Hm. cbn [negb].
    unfold bind at 1, get_state. fold key.
    rewrite load_groups_eq by exact Hr. fold g.
    unfold group_messages in Hl.
    destruct (g !! key) as [v|] eqn:Hg.
    - destruct v; try discriminate Hl. injection Hl as ->. exact (E g Hg).
    - injection Hl as <-.
      rewrite (E (<[key := JList []]> g)) by apply lookup_insert_eq.
      rewrite insert_insert_eq. reflexivity. }
  rewrite (try_except_run _ _ _ _ _ B). destruct m; reflexivity.
Qed.

Lemma save_message_by_test_case_groups_witness :
  let s := client_in
             (<[test_cases_popup_json_file_name
                := Document (JDict (<["TC1" := JList [JStr "first"]]> ∅))]> ∅)
             (Some "TC1") in
  let data : gmap string json :=
    <["message" := JStr "second"]> (<["popID" := JNum 7]> ∅) in
  save_message_by_test_case (JDict data) s
  = (Ok tt,
     with_document test_cases_popup_json_file_name
       (JDict (<[message_key (system_state_data (world s))
                 := JList ([JStr "first"] ++ [from_option id JNull (data !! "message")])]>
                 (logged_groups
                    (contents (disk s) !! test_cases_popup_json_file_name))))
       s).
Proof.
  apply (save_message_by_test_case_groups
           (client_in
              (<[test_cases_popup_json_file_name
                 := Document (JDict (<["TC1" := JList [JStr "first"]]> ∅))]> ∅)
              (Some "TC1"))
           (<["message" := JStr "second"]> (<["popID" := JNum 7]> ∅))
           [JStr "first"]);
    reflexivity.
Defined.

Lemma log_file_names_differ : popup_json_file_name <> test_cases_popup_json_file_name.
Proof. discriminate. Qed.

(** Logging the dialogs of a run, from logs that can be read and written:
    both logs grow by the messages, in the order of the dialogs. *)
Lemma log_popups_appends (key : string) (rest : list (gmap string json)) :
  forall (popup_data : gmap string json) (s : Client) (l l' : list json),
    (forall d, In d (popup_data :: rest) -> Py.truthy (message_of d) = true) ->
    message_key (system_state_data (world s)) = key ->
    unreadable (disk s) popup_json_file_name = false ->
    read_only (disk s) popup_json_file_name = false ->
    unreadable (disk s) test_cases_popup_json_file_name = false ->
    read_only (disk s) test_cases_popup_json_file_name = false ->
    logged_messages (contents (disk s) !! popup_json_file_name) = Some l ->
    group_messages
      (logged_groups (contents (disk s) !! test_cases_popup_json_file_name)) key
    = Some l' ->
    exists s',
      log_popups (JDict <$> popup_data :: rest) s = (Ok tt, s')
      /\ world s' = world s
      /\ contents (disk s') !! popup_json_file_name
         = Some (Document (JList (l ++ (message_of <$> popup_data :: rest))))
      /\ contents (disk s') !! test_cases_popup_json_file_name
         = Some (Document
                   (JDict (<[key := JList (l' ++ (message_of <$> popup_data :: rest))]>
                             (logged_groups
                                (contents (disk s)
                                   !! test_cases_popup_json_file_name))))).
Proof.
  induction rest as [|next rest IH];
    intros popup_data s l l' Hm Hkey Hr1 Hw1 Hr2 Hw2 Hl Hl'.
  - cbn [fmap list_fmap log_popups]. unfold bind at 1, log_popup. unfold bind at 1.
    rewrite (save_only_message_appends s popup_data l (Hm _ (or_introl eq_refl)) Hl Hr1 Hw1).
    fold (message_of popup_data).
    set (s1 := with_document popup_json_file_name (JList (l ++ [message_of popup_data])) s).
    assert (C1 : contents (disk s1) !! test_cases_popup_json_file_name
                 = contents (disk s) !! test_cases_popup_json_file_name).
    { subst s1. unfold with_document. dproj.
      apply lookup_insert_ne. exact log_file_names_differ. }
    rewrite (save_message_by_test_case_groups s1 popup_data l'
               (Hm _ (or_introl eq_refl)) Hr2 Hw2);
      [|change (world s1) with (world s); rewrite C1, Hkey; exact Hl'].
    unfold ret. eexists. split; [reflexivity|].
    unfold with_document. dproj. split; [reflexivity|].
    change (world s1) with (world s). rewrite Hkey, C1.
    split.
    + rewrite lookup_insert_ne by (intros E; symmetry in E; exact (log_file_names_differ E)).
      subst s1. unfold with_document. dproj. apply lookup_insert_eq.
    + apply lookup_insert_eq.
  - cbn [fmap list_fmap log_popups]. unfold bind at 1, log_popup. unfold bind at 1.
    rewrite (save_only_message_appends s popup_data l (Hm _ (or_introl eq_refl)) Hl Hr1 Hw1).
    fold (message_of popup_data).
    set (s1 := with_document popup_json_file_name (JList (l ++ [message_of popup_data])) s).
    assert (C1 : contents (disk s1) !! test_cases_popup_json_file_name
                 = contents (disk s) !! test_cases_popup_json_file_name).
    { subst s1. unfold with_document. dproj.
      apply lookup_insert_ne. exact log_file_names_differ. }
    rewrite (save_message_by_test_case_groups s1 popup_data l'
               (Hm _ (or_introl eq_refl)) Hr2 Hw2);
      [|change (world s1) with (world s); rewrite C1, Hkey; exact Hl'].
    fold (message_of popup_data). change (world s1) with (world s). rewrite Hkey, C1.
    set (g := logged_groups (contents (disk s) !! test_cases_popup_json_file_name)).
    set (s2 := with_document test_cases_popup_json_file_name _ s1).
    destruct (IH next s2 (l ++ [message_of popup_data])%list
                (l' ++ [message_of popup_data])%list)
      as (s' & E' & W' & F' & G').
    + intros d Hd. apply Hm. right. exact Hd.
    + exact Hkey.
    + exact Hr1.
    + exact Hw1.
    + exact Hr2.
    + exact Hw2.
    + subst s2 s1. unfold with_document. dproj.
      rewrite lookup_insert_ne by (intros E; symmetry in E; exact (log_file_names_differ E)).
      rewrite lookup_insert_eq. reflexivity.
    + subst s2 s1. unfold with_document. dproj.
      rewrite lookup_insert_eq. cbn [logged_groups]. unfold group_messages.
      rewrite lookup_insert_eq. reflexivity.
    + exists s'. split; [exact E'|]. split; [rewrite W'; reflexivity|].
      split.
      * rewrite F', <- app_assoc. reflexivity.
      * rewrite G'. subst s2 s1. unfold with_document. dproj.
        rewrite lookup_insert_eq. cbn [logged_groups].
        rewrite insert_insert_eq, <- app_assoc. reflexivity.
Qed.

(** X26: the logs of a run.  After [create_empty_json] in a directory
    where both files can be written, logging the dialogs of a run (each
    with a true message, the snapshot naming the same test throughout)
    leaves the flat log with the messages in the order of the dialogs,
    and the log by test case, which [create_empty_json] left as a list,
    replaced by a dictionary with these messages under the one key. *)
Theorem log_popups_after_create_empty_json (fs : FileSystem) (w : World)
  (popup_data : gmap string json) (rest : list (gmap string json)) :
  unwritable fs popup_json_file_name = false ->
  unwritable fs test_cases_popup_json_file_name = false ->
  (forall d, In d (popup_data :: rest) -> Py.truthy (message_of d) = true) ->
  exists s',
    log_popups (JDict <$> popup_data :: rest)
      (mkClient w (disk_of (snd (create_empty_json fs))))
    = (Ok tt, s')
    /\ world s' = w
    /\ contents (disk s') !! popup_json_file_name
       = Some (Document (JList (message_of <$> popup_data :: rest)))
    /\ contents (disk s') !! test_cases_popup_json_file_name
       = Some (Document
                 (JDict {[ message_key (system_state_data w)
                           := JList (message_of <$> popup_data :: rest) ]})).
Proof.
  intros Hw1 Hw2 Hm.
  rewrite create_empty_json_eq, Hw1, Hw2. cbn [snd].
  set (s := mkClient w (disk_of _)).
  assert (F : contents (disk s) !! popup_json_file_name = Some (Document (JList []))).
  { subst s. unfold disk_of. dproj. cbn [files].
    rewrite lookup_fmap, lookup_insert_ne
      by (intros E; symmetry in E; exact (log_file_names_differ E)).
    rewrite lookup_insert_eq. reflexivity. }
  assert (G : contents (disk s) !! test_cases_popup_json_file_name
              = Some (Document (JList []))).
  { subst s. unfold disk_of. dproj. cbn [files].
    rewrite lookup_fmap, lookup_insert_eq. reflexivity. }
  destruct (log_popups_appends (message_key (system_state_data w)) rest popup_data s [] [])
    as (s' & E' & W' & F' & G'); try assumption; try reflexivity.
  - rewrite F. reflexivity.
  - rewrite G. reflexivity.
  - exists s'. split; [exact E'|]. split; [exact W'|]. split; [exact F'|].
    rewrite G', G. cbn [logged_groups]. reflexivity.
Qed.

Lemma log_popups_after_create_empty_json_witness :
  let w := world (client_in ∅ (Some "TC1")) in
  let first : gmap string json := <["message" := JStr "Connect the DUT"]> ∅ in
  let rest : list (gmap string json) := [ <["message" := JStr "Press OK"]> ∅ ] in
  exists s',
    log_popups (JDict <$> first :: rest)
      (mkClient w (disk_of (snd (create_empty_json empty_directory))))
    = (Ok tt, s')
    /\ world s' = w
    /\ contents (disk s') !! popup_json_file_name
       = Some (Document (JList (message_of <$> first :: rest)))
    /\ contents (disk s') !! test_cases_popup_json_file_name
       = Some (Document
                 (JDict {[ message_key (system_state_data w)
                           := JList (message_of <$> first :: rest) ]})).
Proof.
  apply (log_popups_after_create_empty_json empty_directory
           (world (client_in ∅ (Some "TC1")))
           (<["message" := JStr "Connect the DUT"]> ∅)
           [ <["message" := JStr "Press OK"]> ∅ ]).
  - reflexivity.
  - reflexivity.
  - intros d [<-|[<-|[]]]; reflexivity.
Defined.

(** ** The writers leave the client alone *)

Lemma keeps_world_ret {A} (a : A) : keeps_world (ret a).
Proof. intros s. split; [reflexivity|discriminate]. Qed.

Lemma keeps_world_raise {A} (e : exn) : keeps_world (A:=A) (raise e).
Proof. intros s. split; [reflexivity|discriminate]. Qed.

Lemma keeps_world_get_state : keeps_world get_state.
Proof. intros s. split; [reflexivity|discriminate]. Qed.

Lemma keeps_world_bind {A B} (m : M Client A) (k : A -> M Client B) :
  keeps_world m -> (forall a, keeps_world (k a)) -> keeps_world (bind m k).
Proof.
  intros Hm Hk s. unfold bind. destruct (Hm s) as [W R].
  destruct (m s) as [[a|e|] s1]; cbn [fst snd] in *.
  - destruct (Hk a s1) as [W' R']. split; [congruence|exact R'].
  - split; [exact W|discriminate].
  - congruence.
Qed.

Lemma keeps_world_try_except {A} (m : M Client A) (h : exn -> M Client A) :
  keeps_world m -> (forall e, keeps_world (h e)) -> keeps_world (try_except m h).
Proof.
  intros Hm Hh s. unfold try_except. destruct (Hm s) as [W R].
  destruct (m s) as [[a|e|] s1]; cbn [fst snd] in *.
  - split; [exact W|discriminate].
  - destruct (Hh e s1) as [W' R']. split; [congruence|exact R'].
  - congruence.
Qed.

Lemma keeps_world_on_disk {A} (m : M Disk A) : returns m -> keeps_world (on_disk m).
Proof.
  intros Hm s. unfold on_disk, zoom. specialize (Hm (disk s)).
  destruct (m (disk s)) as [r d]. split; [reflexivity|exact Hm].
Qed.

Lemma keeps_world_get (v : json) (key : string) (d : json) :
  keeps_world (Py.get v key d).
Proof. destruct v; first [apply keeps_world_ret | apply keeps_world_raise]. Qed.

Lemma keeps_world_getitem (v : json) (key : string) :
  keeps_world (Py.getitem v key).
Proof.
  destruct v; try apply keeps_world_raise.
  cbn [Py.getitem]. destruct (m !! key); [apply keeps_world_ret|apply keeps_world_raise].
Qed.

Lemma keeps_world_len (v : json) : keeps_world (py_len v).
Proof. destruct v; first [apply keeps_world_ret | apply keeps_world_raise]. Qed.

Lemma keeps_world_append (v x : json) : keeps_world (py_append v x).
Proof. destruct v; first [apply keeps_world_ret | apply keeps_world_raise]. Qed.

Lemma keeps_world_slice_check (v : json) : keeps_world (py_slice_check v).
Proof. destruct v; first [apply keeps_world_ret | apply keeps_world_raise]. Qed.

Lemma returns_os_path_exists (path : string) : returns (os_path_exists path).
Proof. intros d. discriminate. Qed.

Lemma returns_os_path_has_size (path : string) : returns (os_path_has_size path).
Proof.
  intros d. unfold os_path_has_size.
  destruct (contents d !! path) as [[| |]|]; discriminate.
Qed.

Lemma returns_json_load (path : string) : returns (json_load path).
Proof.
  intros d. unfold json_load. destruct (unreadable d path); [discriminate|].
  destruct (contents d !! path) as [[| |]|]; discriminate.
Qed.

Lemma returns_json_dump (path : string) (doc : json) : returns (json_dump path doc).
Proof. intros d. unfold json_dump. destruct (read_only d path); discriminate. Qed.

Create HintDb world_db.
#[local] Hint Resolve keeps_world_ret keeps_world_raise keeps_world_get_state
  keeps_world_bind keeps_world_try_except keeps_world_on_disk keeps_world_get
  keeps_world_getitem keeps_world_len keeps_world_append keeps_world_slice_check
  returns_os_path_exists returns_os_path_has_size returns_json_load
  returns_json_dump : world_db.
#[local] Hint Extern 2 (keeps_world (if ?b then _ else _)) => destruct b : world_db.
#[local] Hint Extern 2 (keeps_world (match ?x with _ => _ end)) => destruct x : world_db.

(** A [try] with a handler that swallows everything, around a body that
    leaves the client alone: the call returns normally. *)
Lemma guarded_keeps_world (m : M Client unit) (s : Client) :
  keeps_world m ->
  exists s', try_except m (fun _ => ret tt) s = (Ok tt, s') /\ world s' = world s.
Proof.
  intros Hm. unfold try_except. destruct (Hm s) as [W R].
  destruct (m s) as [[[]|e|] s1]; cbn [fst snd] in *.
  - exists s1. split; [reflexivity|exact W].
  - exists s1. split; [reflexivity|exact W].
  - congruence.
Qed.

Lemma save_only_message_total (json_data : json) (s : Client) :
  exists s', save_only_message json_data s = (Ok tt, s') /\ world s' = world s.
Proof.
  apply guarded_keeps_world. cbv zeta. auto 20 with world_db.
Qed.

Lemma save_message_by_test_case_total (json_data : json) (s : Client) :
  exists s', save_message_by_test_case json_data s = (Ok tt, s') /\ world s' = world s.
Proof.
  apply guarded_keeps_world. cbv zeta. auto 30 with world_db.
Qed.

(** Both writers, one after the other: nothing leaves them, and the
    client's session, flags and snapshot are as before. *)
Lemma log_popup_total (popup_data : json) (s : Client) :
  exists s', log_popup popup_data s = (Ok tt, s') /\ world s' = world s.
Proof.
  unfold log_popup, bind.
  destruct (save_only_message_total popup_data s) as (s1 & E1 & W1). rewrite E1.
  destruct (save_message_by_test_case_total popup_data s1) as (s2 & E2 & W2).
  rewrite E2. exists s2. split; [reflexivity|congruence].
Qed.

(** ** Answering dialogs *)

Lemma make_result_response_any {S} (request response : gmap string json) :
  Py.get (S:=S) (make_result request response) "response" (JDict ∅)
  = ret (JDict response).
Proof.
  unfold Py.get, make_result.
  rewrite lookup_insert_ne by done. rewrite lookup_insert_eq. reflexivity.
Qed.

Lemma make_result_getitem_any {S} (request response : gmap string json) :
  Py.getitem (S:=S) (make_result request response) "response"
  = ret (JDict response).
Proof.
  unfold Py.getitem, make_result.
  rewrite lookup_insert_ne by done. rewrite lookup_insert_eq. reflexivity.
Qed.

(** The fetch of the message box. *)
Lemma get_message_box_eq (h : Handler) (s : Client) :
  on_world (get_message_box h) s
  = (fetched (request_dict "GET" (request_url h "App" "GetMessageBox") JNull JNull
                default_headers)
       (http (world s) (n_http (world s))),
     mkClient (after_exchange (message_box_request h) (world s)) (disk s)).
Proof.
  unfold on_world, zoom, get_message_box.
  rewrite send_request_fetched by reflexivity. reflexivity.
Qed.

(** The handler up to the point where it has the data of a dialog. *)
Lemma handle_connection_popup_fetch (h : Handler) (s : Client) :
  api_handler (world s) = Some h ->
  let s1 := mkClient (after_exchange (message_box_request h) (world s)) (disk s) in
  _handle_connection_popup s
  = match classify_popup (http (world s) (n_http (world s))) with
    | NoDialog => (Ok tt, s1)
    | Broken e => (Raise e, s1)
    | Dialog d =>
        (save_only_message (JDict d) ;;
         save_message_by_test_case (JDict d) ;;
         let* pop_id := Py.get (JDict d) "popID" (JNum 23) in
         let* title := Py.get (JDict d) "title" (JStr "GRL Test Solution") in
         try_except
           (let* put_response :=
              on_world (put_message_box_response h (popup_reply pop_id title)) in
            let* r := Py.getitem put_response "response" in
            let* success := Py.get r "success" JNull in
            if Py.truthy success
            then Py.get (popup_reply pop_id title) "message" (JStr "") ;; ret tt
            else Py.get r "status_code" JNull ;; ret tt)
           (fun _ => ret tt)) s1
    end.
Proof.
  intros Hh. cbv zeta. unfold _handle_connection_popup.
  unfold bind at 1, get_state. rewrite Hh.
  unfold bind at 1. rewrite get_message_box_eq.
  unfold classify_popup.
  destruct (http (world s) (n_http (world s))) as [r|e]; cbn [fetched].
  - rewrite make_result_response_any. unfold bind at 1. unfold ret at 1.
    unfold bind at 1. unfold Py.get at 1. rewrite response_dict_success.
    unfold ret at 1. cbn [from_option id Py.truthy]. fold (is_2xx r).
    destruct (is_2xx r); cbn [negb]; [|reflexivity].
    unfold bind at 1. unfold ret at 1.
    unfold bind at 1. unfold Py.get at 1. rewrite response_dict_data.
    unfold ret at 1. cbn [from_option id].
    destruct (match json_body r with Some j => j | None => JStr (text r) end)
      as [|b|n|t|l|d] eqn:Hdata.
    + reflexivity.
    + destruct b; reflexivity.
    + cbn [Py.truthy]. destruct (n =? 0); reflexivity.
    + cbn [Py.truthy]. destruct (String.eqb t ""); reflexivity.
    + destruct l; reflexivity.
    + cbn [Py.truthy]. destruct (bool_decide (d = ∅)); cbn [negb andb]; [reflexivity|].
      unfold bind at 1. unfold Py.get at 1. unfold ret at 1. fold (message_of d).
      destruct (Py.truthy (message_of d)); reflexivity.
  - destruct (isinstance_RequestException e); [|reflexivity].
    rewrite make_result_response_any. unfold bind at 1. unfold ret at 1.
    unfold bind at 1. unfold Py.get at 1.
    destruct (error_dict_lookup (transport_error_msg e)) as (_ & -> & _).
    reflexivity.
Qed.

(** X27: without a dialog to answer the handler only looks.  When the
    fetch of the message box fails, is refused, or brings no data or data
    without a true ["message"], [_handle_connection_popup] returns after
    that one GET: it writes no file and sends no reply.  When the fetch
    brings data that is no dictionary (a page of text, a list), or the
    session raises something that is no request exception, the exception
    leaves the handler, again after the one GET. *)
Theorem handle_connection_popup_without_dialog (h : Handler) (s : Client) :
  api_handler (world s) = Some h ->
  (forall d, classify_popup (http (world s) (n_http (world s))) <> Dialog d) ->
  _handle_connection_popup s
  = (match classify_popup (http (world s) (n_http (world s))) with
     | Broken e => Raise e
     | _ => Ok tt
     end,
     mkClient (after_exchange (message_box_request h) (world s)) (disk s)).
Proof.
  intros Hh Hno. rewrite (handle_connection_popup_fetch h s Hh). cbv zeta.
  destruct (classify_popup (http (world s) (n_http (world s)))) as [|d|e].
  - reflexivity.
  - destruct (Hno d eq_refl).
  - reflexivity.
Qed.

Lemma handle_connection_popup_without_dialog_witness :
  _handle_connection_popup text_answer_scenario
  = (match classify_popup
             (http (world text_answer_scenario) (n_http (world text_answer_scenario)))
     with
     | Broken e => Raise e
     | _ => Ok tt
     end,
     mkClient (after_exchange (message_box_request sample_handler)
                 (world text_answer_scenario))
       (disk text_answer_scenario)).
Proof.
  apply (handle_connection_popup_without_dialog sample_handler text_answer_scenario).
  - reflexivity.
  - intros d. vm_compute. discriminate.
Defined.

(** The reply, whatever becomes of it. *)
Lemma put_reply_guarded (h : Handler) (s : Client) (pop_id title : json) :
  exists r,
    try_except
      (let* put_response :=
         on_world (put_message_box_response h (popup_reply pop_id title)) in
       let* r := Py.getitem put_response "response" in
       let* success := Py.get r "success" JNull in
       if Py.truthy success
       then Py.get (popup_reply pop_id title) "message" (JStr "") ;; ret tt
       else Py.get r "status_code" JNull ;; ret tt)
      (fun _ => ret tt) s
    = (Ok r,
       mkClient
         (after_exchange
            (Http "PUT" (request_url h "App" "PutMessageBoxResponse") JNull
               (popup_reply pop_id title) default_headers)
            (world s))
         (disk s)).
Proof.
  exists tt. unfold try_except. unfold bind at 1.
  unfold on_world, zoom, put_message_box_response.
  unfold bind at 1. unfold Py.get at 1, popup_reply at 1. unfold ret at 1.
  unfold bind at 1. unfold Py.get at 1, popup_reply at 1. unfold ret at 1.
  rewrite send_request_fetched by reflexivity. cbv zeta.
  change (PyStr.upper "PUT") with "PUT".
  change (sent_body "PUT" (popup_reply pop_id title)) with (popup_reply pop_id title).
  change (if Py.truthy JNull then JNull else default_headers) with default_headers.
  destruct (http (world s) (n_http (world s))) as [r|e]; cbn [fetched].
  - rewrite make_result_getitem_any. unfold bind at 1. unfold ret at 1.
    unfold bind at 1. unfold Py.get at 1. unfold ret at 1.
    destruct (Py.truthy _).
    + unfold popup_reply, Py.get, bind, ret. reflexivity.
    + unfold Py.get, bind, ret. reflexivity.
  - destruct (isinstance_RequestException e); [|reflexivity].
    rewrite make_result_getitem_any. unfold bind at 1. unfold ret at 1.
    unfold bind at 1. unfold Py.get at 1. unfold ret at 1.
    destruct (Py.truthy _).
    + unfold popup_reply, Py.get, bind, ret. reflexivity.
    + unfold Py.get, bind, ret. reflexivity.
Qed.

(** X28: a dialog with a message is logged and answered.  When the fetch
    brings a dictionary with a true ["message"], the handler runs both
    writers on it and then sends one reply: the fixed answer with button
    ["Ok"], carrying the dialog's [popID] and [title] (23 and
    ["GRL Test Solution"] when the dialog has none).  Whatever becomes of
    the reply (refused, failed, any exception) the handler returns
    normally; the files are what the two writers leave, and the session
    has seen the GET and the PUT, nothing else. *)
Theorem handle_connection_popup_answers (h : Handler) (s : Client)
  (d : gmap string json) :
  api_handler (world s) = Some h ->
  classify_popup (http (world s) (n_http (world s))) = Dialog d ->
  let s1 := mkClient (after_exchange (message_box_request h) (world s)) (disk s) in
  exists s',
    _handle_connection_popup s = (Ok tt, s')
    /\ disk s' = disk (snd (log_popup (JDict d) s1))
    /\ trace (world s')
       = (trace (world s) ++ [message_box_request h; reply_request h d])%list
    /\ system_state_data (world s') = system_state_data (world s).
Proof.
  intros Hh Hd. cbv zeta.
  rewrite (handle_connection_popup_fetch h s Hh). cbv zeta. rewrite Hd.
  set (s1 := mkClient (after_exchange (message_box_request h) (world s)) (disk s)).
  destruct (log_popup_total (JDict d) s1) as (s2 & E2 & W2).
  rewrite E2. cbn [snd].
  unfold log_popup in E2. unfold bind in E2.
  unfold bind at 1.
  destruct (save_only_message (JDict d) s1) as [[[]|e|] sa]; try discriminate E2.
  unfold bind at 1. rewrite E2. cbn [snd].
  unfold bind at 1. unfold Py.get at 1. unfold ret at 1.
  unfold bind at 1. unfold Py.get at 1. unfold ret at 1.
  destruct (put_reply_guarded h s2
              (from_option id (JNum 23) (d !! "popID"))
              (from_option id (JStr "GRL Test Solution") (d !! "title")))
    as ([] & E3).
  rewrite E3. eexists. split; [reflexivity|]. dproj.
  split; [reflexivity|]. rewrite W2. subst s1. dproj.
  split; [|reflexivity].
  cbn [trace after_exchange]. rewrite <- app_assoc. reflexivity.
Qed.

Lemma handle_connection_popup_answers_witness :
  let d : gmap string json :=
    <["message" := JStr "Connect the DUT"]> (<["popID" := JNum 7]> ∅) in
  let s1 := mkClient (after_exchange (message_box_request sample_handler)
                        (world dialog_scenario))
              (disk dialog_scenario) in
  exists s',
    _handle_connection_popup dialog_scenario = (Ok tt, s')
    /\ disk s' = disk (snd (log_popup (JDict d) s1))
    /\ trace (world s')
       = (trace (world dialog_scenario)
          ++ [message_box_request sample_handler; reply_request sample_handler d])%list
    /\ system_state_data (world s') = system_state_data (world dialog_scenario).
Proof.
  apply (handle_connection_popup_answers sample_handler dialog_scenario
           (<["message" := JStr "Connect the DUT"]> (<["popID" := JNum 7]> ∅))).
  - reflexivity.
  - vm_compute. reflexivity.
Defined.

(** ** The list of enabled test cases *)

Lemma with_entry_lookup (name : string) (v : option json) (m : gmap string json) :
  with_entry name v m !! name = v.
Proof.
  destruct v; cbn [with_entry]; [apply lookup_insert_eq|apply lookup_delete_eq].
Qed.

Lemma with_entry_lookup_ne (name other : string) (v : option json)
  (m : gmap string json) :
  name <> other -> with_entry name v m !! other = m !! other.
Proof.
  intros Hne. destruct v; cbn [with_entry];
    [apply lookup_insert_ne|apply lookup_delete_ne]; exact Hne.
Qed.

(** The loop over the children, when each call gives the keys of its
    tree. *)
Lemma collect_trees (f : json -> option (list json)) (ts : list test_tree) :
  Forall (fun t => f (tree_json t) = Some (enabled_leaf_keys t)) ts ->
  collect f (map tree_json ts) = Some (flat_map enabled_leaf_keys ts).
Proof.
  induction 1 as [|t ts Ht _ IH]; [reflexivity|].
  cbn [map collect flat_map]. rewrite Ht, IH. reflexivity.
Qed.

Lemma tree_depth_children (enable key : option json) (others : gmap string json)
  (children : list test_tree) (fuel : nat) :
  (tree_depth (TestNode enable key others children) <= S fuel)%nat ->
  Forall (fun t => (tree_depth t <= fuel)%nat) children.
Proof.
  cbn [tree_depth]. intros H. apply le_S_n in H.
  induction children as [|c cs IH]; [constructor|].
  cbn [fold_right] in H. constructor; [lia|]. apply IH. lia.
Qed.

(** [traverse] on the document of a tree, given the depth it needs. *)
Lemma traverse_tree (fuel : nat) :
  forall t : test_tree,
    (tree_depth t <= fuel)%nat ->
    traverse fuel (tree_json t) = Some (enabled_leaf_keys t).
Proof.
  induction fuel as [|fuel IH]; intros [enable key others children] Hd.
  - cbn [tree_depth] in Hd. lia.
  - pose proof (tree_depth_children _ _ _ _ _ Hd) as Hkids.
    cbn [tree_json traverse].
    set (m := <["children" := JList (map tree_json children)]>
                (with_entry "enable" enable (with_entry "key" key others))).
    assert (Hc : m !! "children" = Some (JList (map tree_json children)))
      by apply lookup_insert_eq.
    assert (He : m !! "enable" = enable).
    { subst m. rewrite lookup_insert_ne by done. apply with_entry_lookup. }
    assert (Hk : m !! "key" = key).
    { subst m. rewrite lookup_insert_ne by done.
      rewrite with_entry_lookup_ne by done. apply with_entry_lookup. }
    unfold is_test_case_node. rewrite Hc, He, Hk.
    rewrite (collect_trees (traverse fuel) children).
    2:{ eapply Forall_impl; [exact Hkids|]. intros t Ht. apply IH. exact Ht. }
    destruct children as [|c cs].
    + cbn [map flat_map enabled_leaf_keys]. rewrite app_nil_r.
      destruct enable as [[|[|]| | | |]|]; cbn [andb]; try reflexivity.
      destruct key as [k|].
      * rewrite bool_decide_is_Some_Some. reflexivity.
      * first [rewrite (bool_decide_is_Some_None (A:=json)); reflexivity | reflexivity].
    + cbn [map]. rewrite andb_false_r. reflexivity.
Qed.

(** X29: [extract_enabled_keys] does what its docstring says.  On the
    document of a list of test-case trees of any shape, it returns the
    keys of exactly the nodes whose ['enable'] is [True] and whose
    children array is empty, in the order of the document: a group is
    never listed itself, and a disabled group does not hide its enabled
    cases.  The recursion goes as deep as the trees are. *)
Theorem extract_enabled_keys_of_trees (ts : list test_tree) (fuel : nat) :
  Forall (fun t => (tree_depth t <= fuel)%nat) ts ->
  extract_enabled_keys fuel (JList (map tree_json ts))
  = Some (flat_map enabled_leaf_keys ts).
Proof.
  intros Hd. cbn [extract_enabled_keys]. apply collect_trees.
  eapply Forall_impl; [exact Hd|]. intros t Ht. apply traverse_tree. exact Ht.
Qed.

Lemma extract_enabled_keys_of_trees_witness :
  extract_enabled_keys 3 (JList (map tree_json sample_test_list))
  = Some (flat_map enabled_leaf_keys sample_test_list).
Proof.
  apply (extract_enabled_keys_of_trees sample_test_list 3).
  repeat constructor.
Defined.

(** The enabled cases of the sample list. *)
Lemma sample_test_list_enabled :
  flat_map enabled_leaf_keys sample_test_list
  = [JStr "TPR.1"; JStr "TPT.A.1"; JStr "TPT.2"].
Proof. reflexivity. Qed.

(** ** [is_running] *)

(** X30: on a machine where no probe is answered, [is_running] says
    [True] exactly when the controller holds a child that [poll()] shows
    alive: a taken port alone does not count as a running application,
    and a child that has exited does not either.  With a live child the
    answer comes from the one [poll()], with no bind and no probe. *)
Theorem is_running_unanswered (c : Controller) :
  never_answers (env c) ->
  port_in_range c ->
  fst (is_running c) = Ok (own_child_alive c)
  /\ (own_child_alive c = true ->
      done (snd (is_running c)) = (done c ++ [Poll])%list).
Proof.
  intros Hn Hp. unfold own_child_alive.
  destruct (process c) as [pid|] eqn:Hproc.
  - destruct (poll (env c) (n_poll c)) as [code|] eqn:Hpoll.
    + split; [|discriminate].
      unfold is_running. unfold bind at 1, get_state. rewrite Hproc.
      unfold bind at 1. unfold bind at 1, process_poll. unfold ret at 1.
      rewrite Hpoll, bool_decide_is_Some_Some. cbn [negb].
      match goal with |- context [_check_application_running ?x] => set (c1 := x) end.
      destruct (unanswered_check_application_running c1) as (a & c' & E & _ & ->).
      * exact Hn.
      * unfold port_in_range. subst c1. cproj. exact Hp.
      * rewrite E. reflexivity.
    + assert (E : is_running c = (Ok true, snd (process_poll c))).
      { unfold is_running. unfold bind at 1, get_state. rewrite Hproc.
        unfold bind at 1. unfold bind at 1, process_poll. unfold ret at 1.
        rewrite Hpoll, bool_decide_is_Some_None. reflexivity. }
      rewrite E. split; [reflexivity|]. intros _. reflexivity.
  - split; [|discriminate].
    unfold is_running. unfold bind at 1, get_state. rewrite Hproc.
    unfold bind at 1. unfold ret at 1.
    destruct (unanswered_check_application_running c) as (a & c' & E & _ & ->);
      [exact Hn|exact Hp|].
    rewrite E. reflexivity.
Qed.

Lemma is_running_unanswered_witness :
  let c := holding 4242 (fun _ => Some 1) in
  fst (is_running c) = Ok (own_child_alive c)
  /\ (own_child_alive c = true ->
      done (snd (is_running c)) = (done c ++ [Poll])%list).
Proof.
  apply (is_running_unanswered (holding 4242 (fun _ => Some 1))).
  - intros k. exists (ConnectionError "connection refused"). split; reflexivity.
  - cbv [port_in_range holding known_port]. lia.
Defined.
